(** * The persistent OuteTTS engine: a shallow embedding

    This development embeds [internal/tts/python/outetts_engine.py] -- the
    quality preset table, the GPU memory guard, [OuteTTSEngine.synthesize],
    the signal handler and the persistent command loop of [main] -- and
    proves properties of the embedded code.

    Conventions.
    - A Python value is a [Val]; a [dict] is an association list in insertion
      order (JSON objects decoded by [json.loads] have distinct keys).
    - A Python [float] is a rational [Q]: the program only passes floats
      along and divides byte counts by [1024**3].
    - A character of a [string] stands for one code point (the model covers
      code points below 256).
    - Code runs in the monad [Py]: a state (clock, event trace, standard
      output, shutdown flag) and a result that is a value or a raised
      exception.  The opaque collaborators (json, torch, outetts, pydub) are
      fields of a [World]; each call reads the world at the current clock
      and advances the clock, so a later call may answer differently.
    - Logging is not modelled. *)

From Stdlib Require Import String Ascii List ZArith QArith Bool Lia.
Import ListNotations.

Local Open Scope string_scope.
Local Open Scope list_scope.
Local Open Scope nat_scope.

Set Warnings "-register-all".

(** ** Python values *)

(** [outetts.GenerationType] *)
Inductive GenerationType : Type := REGULAR | CHUNKED.

Inductive Val : Type :=
| VNone
| VBool (b : bool)
| VInt (z : Z)
| VFloat (q : Q)
| VStr (s : string)
| VList (l : list Val)
| VDict (d : list (string * Val))
| VGenerationType (g : GenerationType).

Definition Dict : Type := list (string * Val).

Fixpoint lookup (k : string) (d : Dict) : option Val :=
  match d with
  | [] => None
  | (k', v) :: d' => if String.eqb k k' then Some v else lookup k d'
  end.

Definition keys (d : Dict) : list string := map fst d.

Definition has_key (k : string) (d : Dict) : bool :=
  existsb (String.eqb k) (keys d).

(** [v == "lit"] for a string literal: only a [str] equals a [str]. *)
Definition eq_str (v : Val) (lit : string) : bool :=
  match v with
  | VStr s => String.eqb s lit
  | _ => false
  end.

(** Truth value of a Python object, as [if x:] tests it. *)
Definition truthy (v : Val) : bool :=
  match v with
  | VNone => false
  | VBool b => b
  | VInt z => negb (Z.eqb z 0)
  | VFloat q => negb (Qeq_bool q 0)
  | VStr s => negb (String.eqb s "")
  | VList l => match l with [] => false | _ => true end
  | VDict d => match d with [] => false | _ => true end
  | VGenerationType _ => true
  end.

Definition type_name (v : Val) : string :=
  match v with
  | VNone => "NoneType"
  | VBool _ => "bool"
  | VInt _ => "int"
  | VFloat _ => "float"
  | VStr _ => "str"
  | VList _ => "list"
  | VDict _ => "dict"
  | VGenerationType _ => "GenerationType"
  end.

(** ** [str.strip()] *)

(** [str.isspace] on one code point below 256. *)
Definition is_space (c : ascii) : bool :=
  let n := nat_of_ascii c in
  ((9 <=? n) && (n <=? 13)) || ((28 <=? n) && (n <=? 32))
  || (n =? 133) || (n =? 160).

Fixpoint drop_spaces (l : list ascii) : list ascii :=
  match l with
  | [] => []
  | c :: l' => if is_space c then drop_spaces l' else l
  end.

Definition strip (s : string) : string :=
  string_of_list_ascii
    (rev (drop_spaces (rev (drop_spaces (list_ascii_of_string s))))).

(** ** Constants of the module *)

Definition MIN_GPU_MEMORY_GB : Q := 1 # 1.
Definition DEFAULT_MAX_SEQ_LENGTH : Z := 4096.
Definition DEFAULT_N_CTX : Z := 4096.
Definition DEFAULT_ROPE_FREQ_BASE : Q := 500000 # 1.
Definition DEFAULT_DAC_DECODING_CHUNK : Z := 2048.
Definition DEFAULT_MAX_LENGTH : Z := 8192.
Definition DEFAULT_DAC_DECODING_CHUNK_SMALL : Z := 1536.
Definition DEFAULT_MAX_LENGTH_LARGE : Z := 6144.
Definition DEFAULT_DAC_DECODING_CHUNK_TINY : Z := 1024.
Definition DEFAULT_MAX_LENGTH_HUGE : Z := 4096.

(** [1024**3] *)
Definition GiB : Z := 1073741824.

(** ** Quality preset table *)

Definition fast_settings : Dict :=
  [ ("generation_type", VGenerationType REGULAR);
    ("max_batch_size", VInt 16);
    ("dac_decoding_chunk", VInt DEFAULT_DAC_DECODING_CHUNK);
    ("max_length", VInt DEFAULT_MAX_LENGTH);
    ("temperature", VFloat (6 # 10));
    ("repetition_penalty", VFloat (105 # 100)) ].

Definition balanced_settings : Dict :=
  [ ("generation_type", VGenerationType CHUNKED);
    ("max_batch_size", VInt 12);
    ("dac_decoding_chunk", VInt DEFAULT_DAC_DECODING_CHUNK_SMALL);
    ("max_length", VInt DEFAULT_MAX_LENGTH_LARGE);
    ("temperature", VFloat (5 # 10));
    ("repetition_penalty", VFloat (108 # 100)) ].

Definition high_settings : Dict :=
  [ ("generation_type", VGenerationType CHUNKED);
    ("max_batch_size", VInt 8);
    ("dac_decoding_chunk", VInt DEFAULT_DAC_DECODING_CHUNK_TINY);
    ("max_length", VInt DEFAULT_MAX_LENGTH_HUGE);
    ("temperature", VFloat (4 # 10));
    ("repetition_penalty", VFloat (11 # 10)) ].

(** [OuteTTSEngine._get_quality_settings]; it does not read [self]. *)
Definition _get_quality_settings (quality : Val) : Dict :=
  if eq_str quality "fast" then fast_settings
  else if eq_str quality "balanced" then balanced_settings
  else high_settings.

(** ** Exceptions, state and the [Py] monad *)

Inductive Exn : Type :=
| JSONDecodeError (msg : string)
| KeyError (key : string)
| TypeError (msg : string)
| AttributeError (msg : string)
| ImportError (msg : string)
| FileNotFoundError (msg : string)
| LibraryError (msg : string)   (* an Exception raised inside torch, outetts or pydub *)
| SystemExit (code : Z).

(** [isinstance(e, Exception)]: [SystemExit] derives from [BaseException]. *)
Definition is_Exception (e : Exn) : bool :=
  match e with
  | SystemExit _ => false
  | _ => true
  end.

(** [str(e)] *)
Definition exn_str (e : Exn) : string :=
  match e with
  | JSONDecodeError m => m
  | KeyError k => "'" ++ k ++ "'"
  | TypeError m => m
  | AttributeError m => m
  | ImportError m => m
  | FileNotFoundError m => m
  | LibraryError m => m
  | SystemExit c => if Z.eqb c 0 then "0" else "1"
  end.

Record SamplerConfig : Type := {
  sc_temperature : Val;
  sc_repetition_penalty : Val;
  sc_repetition_range : Z;
  sc_top_k : Z;
  sc_top_p : Q;
  sc_min_p : Q;
  sc_mirostat : bool;
  sc_mirostat_tau : Q;
  sc_mirostat_eta : Q
}.

(** A speaker profile is an opaque object of the backend. *)
Record Speaker : Type := { speaker_profile : Val }.

Record GenerationConfig : Type := {
  gc_text : string;
  gc_speaker : option Speaker;
  gc_generation_type : Val;
  gc_max_batch_size : Val;
  gc_dac_decoding_chunk : Val;
  gc_max_length : Val;
  gc_sampler_config : SamplerConfig
}.

Record ModelConfig : Type := {
  mc_model_path : string;
  mc_max_seq_length : Z;
  mc_n_gpu_layers : Z;
  mc_additional_model_config : Dict
}.

(** What the program does to its collaborators, in program order. *)
Inductive Event : Type :=
| EvAcquire                       (* [self.mu] taken by a [with] block *)
| EvRelease                       (* [self.mu] released *)
| EvInterface (c : ModelConfig)   (* [outetts.Interface(config=...)] *)
| EvLoadSpeaker (name : string)   (* [interface.load_default_speaker] *)
| EvCheckMemory                   (* [_check_memory_usage] called *)
| EvCleanupMemory                 (* [_cleanup_memory] called *)
| EvGenerate (c : GenerationConfig) (* [interface.generate] called *)
| EvSave (path : Val)             (* [output.save] called *)
| EvPlayAudio (path : Val)
| EvAudioInfo (path : Val)
| EvShutdownSet.                  (* [shutdown_event.set()] *)

(** One line on standard output: plain text, or [json.dumps] of a value. *)
Inductive Line : Type :=
| Text (s : string)
| Dumps (v : Val).

Record St : Type := {
  clock : nat;
  trace : list Event;
  out : list Line;
  shutdown_event : bool
}.

Inductive Result (A : Type) : Type :=
| Return (a : A)
| Raise (e : Exn).
Arguments Return {A} a.
Arguments Raise {A} e.

Definition Py (A : Type) : Type := St -> Result A * St.

Definition ret {A} (a : A) : Py A := fun s => (Return a, s).

Definition raise {A} (e : Exn) : Py A := fun s => (Raise e, s).

Definition bind {A B} (m : Py A) (k : A -> Py B) : Py B :=
  fun s =>
    match m s with
    | (Return a, s') => k a s'
    | (Raise e, s') => (Raise e, s')
    end.

Declare Scope py_scope.
Delimit Scope py_scope with py.
Notation "x <- m ;; k" := (bind m (fun x => k))
  (at level 100, m at next level, right associativity) : py_scope.
Notation "m ;;; k" := (bind m (fun _ => k))
  (at level 100, right associativity) : py_scope.
Local Open Scope py_scope.

(** [try: body except Exception as e: handler(e)] *)
Definition try_except {A} (body : Py A) (handler : Exn -> Py A) : Py A :=
  fun s =>
    match body s with
    | (Return a, s') => (Return a, s')
    | (Raise e, s') => if is_Exception e then handler e s' else (Raise e, s')
    end.

(** [try: body finally: fin] *)
Definition try_finally {A} (body : Py A) (fin : Py unit) : Py A :=
  fun s =>
    match body s with
    | (r, s') =>
        match fin s' with
        | (Return _, s'') => (r, s'')
        | (Raise e, s'') => (Raise e, s'')
        end
    end.

Definition emit (e : Event) : Py unit :=
  fun s => (Return tt,
            {| clock := clock s; trace := trace s ++ [e]; out := out s;
               shutdown_event := shutdown_event s |}).

(** [print(x, flush=True)] *)
Definition print (l : Line) : Py unit :=
  fun s => (Return tt,
            {| clock := clock s; trace := trace s; out := out s ++ [l];
               shutdown_event := shutdown_event s |}).

Definition set_shutdown : Py unit :=
  fun s => (Return tt,
            {| clock := clock s; trace := trace s ++ [EvShutdownSet];
               out := out s; shutdown_event := true |}).

(** What a collaborator answers: a value, or it raises an [Exception]. *)
Inductive Answer (A : Type) : Type :=
| Gives (a : A)
| Fails (msg : string).
Arguments Gives {A} a.
Arguments Fails {A} msg.

(** A call into a collaborator: the answer at the current clock, then the
    clock advances. *)
Definition call {A} (f : nat -> Answer A) : Py A :=
  fun s =>
    let s' := {| clock := S (clock s); trace := trace s; out := out s;
                 shutdown_event := shutdown_event s |} in
    match f (clock s) with
    | Gives a => (Return a, s')
    | Fails m => (Raise (LibraryError m), s')
    end.

(** [d[k]] on a dict *)
Definition getitem (d : Dict) (k : string) : Py Val :=
  match lookup k d with
  | Some v => ret v
  | None => raise (KeyError k)
  end.

(** ** The collaborators *)

(** The object [interface.generate] returns. *)
Record ModelOutput : Type := { audio_samples : list Z }.

(** What the program reads off a [pydub.AudioSegment]. *)
Record AudioSegment : Type := {
  duration_seconds : Q;
  frame_rate : Z;
  channels : Z;
  sample_width : Z
}.

Record World : Type := {
  OUTETTS_AVAILABLE : bool;
  TORCH_AVAILABLE : bool;
  path_exists : nat -> string -> bool;
  json_loads : string -> Answer Val;
  py_str : Val -> string;               (* [str(x)], as an f-string formats it *)
  cuda_is_available : nat -> bool;
  cuda_memory_allocated : nat -> Answer Z;
  cuda_memory_reserved : nat -> Answer Z;
  cuda_total_memory : nat -> Answer Z;
  cuda_device_count : nat -> Answer Z;
  cuda_empty_cache : nat -> Answer unit;
  cuda_synchronize : nat -> Answer unit;
  outetts_Interface : nat -> ModelConfig -> Answer unit;
  interface_load_default_speaker : nat -> string -> Answer Speaker;
  interface_generate : nat -> GenerationConfig -> Answer ModelOutput;
  output_save : nat -> ModelOutput -> Val -> Answer unit;
  (* [AudioSegment.from_file], the effect chain and [play], all of which
     [play_audio] runs inside one [try] *)
  pydub_play : nat -> Val -> Val -> Answer AudioSegment;
  pydub_from_file : nat -> Val -> Answer AudioSegment;
  (* file size (0 when absent) and lower-cased suffix of a path *)
  path_stat : nat -> Val -> Answer (Z * string)
}.

(** [PYDUB_AVAILABLE]: the module sets it to [True] in a [try] block whose
    body cannot raise. *)
Definition PYDUB_AVAILABLE : bool := true.

(** ** The engine *)

Record OuteTTSEngine : Type := {
  model_path : string;
  interface : option ModelConfig;
  default_speaker : option Speaker;
  is_loaded : bool
}.

Section Engine.

Variable w : World.

Definition torch_cuda_is_available : Py bool :=
  call (fun t => Gives (cuda_is_available w t)).

(** [OuteTTSEngine._load_model] *)
Definition _load_model (self : OuteTTSEngine) : Py OuteTTSEngine :=
  emit EvAcquire ;;;
  try_finally
    (let config :=
       {| mc_model_path := model_path self;
          mc_max_seq_length := DEFAULT_MAX_SEQ_LENGTH;
          mc_n_gpu_layers := 8;
          mc_additional_model_config :=
            [ ("n_ctx", VInt DEFAULT_N_CTX); ("n_batch", VInt 256);
              ("n_threads", VInt 4); ("n_gqa", VInt 4);
              ("rope_freq_base", VFloat DEFAULT_ROPE_FREQ_BASE) ] |} in
     emit (EvInterface config) ;;;
     _ <- call (fun t => outetts_Interface w t config) ;;
     emit (EvLoadSpeaker "en-female-1-neutral") ;;;
     sp <- call (fun t => interface_load_default_speaker w t "en-female-1-neutral") ;;
     ret {| model_path := model_path self;
            interface := Some config;
            default_speaker := Some sp;
            is_loaded := true |})
    (emit EvRelease).

(** [OuteTTSEngine.__init__] *)
Definition __init__ (model_path_arg : string) : Py OuteTTSEngine :=
  if negb (OUTETTS_AVAILABLE w) then
    raise (ImportError "OutTTS library is not installed. Run: pip install outetts")
  else if negb (TORCH_AVAILABLE w) then
    raise (ImportError "PyTorch libraries are not available")
  else
    ex <- call (fun t => Gives (path_exists w t model_path_arg)) ;;
    if negb ex then
      raise (FileNotFoundError ("Model file not found: " ++ model_path_arg))
    else
      _load_model {| model_path := model_path_arg;
                     interface := None;
                     default_speaker := None;
                     is_loaded := false |}.

(** [MIN_GPU_MEMORY_GB * 1024 * 1024 * 1024] *)
Definition min_gpu_bytes : Q :=
  (MIN_GPU_MEMORY_GB * (1024 # 1) * (1024 # 1) * (1024 # 1))%Q.

(** [OuteTTSEngine._check_memory_usage] *)
Definition _check_memory_usage : Py bool :=
  emit EvCheckMemory ;;;
  gpu <- torch_cuda_is_available ;;
  if gpu then
    try_except
      (allocated <- call (cuda_memory_allocated w) ;;
       reserved <- call (cuda_memory_reserved w) ;;
       total <- call (cuda_total_memory w) ;;
       let available := (total - reserved)%Z in
       if negb (Qle_bool min_gpu_bytes (inject_Z available))
       then ret false
       else ret true)
      (fun _ => ret true)
  else ret true.

(** [OuteTTSEngine._cleanup_memory] *)
Definition _cleanup_memory : Py unit :=
  emit EvCleanupMemory ;;;
  gpu <- torch_cuda_is_available ;;
  if gpu then
    try_except
      (_ <- call (cuda_empty_cache w) ;;
       _ <- call (cuda_synchronize w) ;;
       ret tt)
      (fun _ => ret tt)
  else ret tt.

(** [text.strip()]: only a [str] has the method. *)
Definition str_strip (text : Val) : Py string :=
  match text with
  | VStr s => ret (strip s)
  | v => raise (AttributeError
                  ("'" ++ type_name v ++ "' object has no attribute 'strip'"))
  end.

(** [OuteTTSEngine.synthesize].  The parameters [speaker_id] and [language]
    are never read by the body and [main] never passes them. *)
Definition synthesize (self : OuteTTSEngine) (text output_path : Val)
    (speaker_id : Val) (language : Val)
    (quality temperature : Val) (use_mirostat : bool) : Py bool :=
  if negb (is_loaded self) then ret false
  else
    try_except
      (ok <- _check_memory_usage ;;
       if negb ok then ret false
       else
         text <- str_strip text ;;
         if String.eqb text "" then ret false
         else
           let quality_settings := _get_quality_settings quality in
           repetition_penalty <- getitem quality_settings "repetition_penalty" ;;
           let sampler_config :=
             {| sc_temperature := temperature;
                sc_repetition_penalty := repetition_penalty;
                sc_repetition_range := 64;
                sc_top_k := 40;
                sc_top_p := 9 # 10;
                sc_min_p := 5 # 100;
                sc_mirostat := use_mirostat;
                sc_mirostat_tau := 5 # 1;
                sc_mirostat_eta := 1 # 10 |} in
           generation_type <- getitem quality_settings "generation_type" ;;
           max_batch_size <- getitem quality_settings "max_batch_size" ;;
           dac_decoding_chunk <- getitem quality_settings "dac_decoding_chunk" ;;
           max_length <- getitem quality_settings "max_length" ;;
           let config :=
             {| gc_text := text;
                gc_speaker := default_speaker self;
                gc_generation_type := generation_type;
                gc_max_batch_size := max_batch_size;
                gc_dac_decoding_chunk := dac_decoding_chunk;
                gc_max_length := max_length;
                gc_sampler_config := sampler_config |} in
           emit (EvGenerate config) ;;;
           output <- call (fun t => interface_generate w t config) ;;
           emit (EvSave output_path) ;;;
           _ <- call (fun t => output_save w t output output_path) ;;
           _cleanup_memory ;;;
           ret true)
      (fun _ => _cleanup_memory ;;; ret false).

(** [d.update(new)] and [d[k] = v] *)
Fixpoint setitem (k : string) (v : Val) (d : Dict) : Dict :=
  match d with
  | [] => [(k, v)]
  | (k', v') :: d' =>
      if String.eqb k k' then (k, v) :: d' else (k', v') :: setitem k v d'
  end.

Definition update (d new : Dict) : Dict :=
  fold_left (fun acc kv => setitem (fst kv) (snd kv) acc) new d.

(** [n / 1024**3] *)
Definition to_gb (n : Z) : Q := n # 1073741824.

(** [OuteTTSEngine.get_model_info] *)
Definition get_model_info (self : OuteTTSEngine) : Py Dict :=
  gpu <- torch_cuda_is_available ;;
  let memory_info :=
    [ ("model_loaded", VBool (is_loaded self)); ("gpu_available", VBool gpu) ] in
  gpu' <- torch_cuda_is_available ;;
  memory_info <-
    (if gpu' then
       try_except
         (allocated <- call (cuda_memory_allocated w) ;;
          reserved <- call (cuda_memory_reserved w) ;;
          total <- call (cuda_total_memory w) ;;
          count <- call (cuda_device_count w) ;;
          ret (update memory_info
                 [ ("gpu_allocated_gb", VFloat (to_gb allocated));
                   ("gpu_reserved_gb", VFloat (to_gb reserved));
                   ("gpu_total_gb", VFloat (to_gb total));
                   ("gpu_device_count", VInt count) ]))
         (fun e => ret (setitem "gpu_error" (VStr (exn_str e)) memory_info))
     else ret memory_info) ;;
  ret [ ("model_path", VStr (model_path self));
        ("backend", VStr "LLAMACPP");
        ("is_loaded", VBool (is_loaded self));
        ("outetts_available", VBool (OUTETTS_AVAILABLE w));
        ("torch_available", VBool (TORCH_AVAILABLE w));
        ("model_type", VStr "OutTTS GGUF");
        ("default_speaker",
          match default_speaker self with
          | Some _ => VStr "en-female-1-neutral"
          | None => VNone
          end);
        ("memory_usage", VDict memory_info) ].

(** [OuteTTSEngine.play_audio]: loading, the effect chain and playback
    all sit inside the [try]. *)
Definition play_audio (file_path quality_settings : Val) : Py Dict :=
  if negb PYDUB_AVAILABLE then
    ret [ ("success", VBool false);
          ("error", VStr "Pydub not available for audio playback") ]
  else
    try_except
      (emit (EvPlayAudio file_path) ;;;
       audio <- call (fun t => pydub_play w t file_path quality_settings) ;;
       ret [ ("success", VBool true);
             ("duration", VFloat (duration_seconds audio));
             ("sample_rate", VInt (frame_rate audio));
             ("channels", VInt (channels audio));
             ("bit_depth", VInt (sample_width audio * 8)) ])
      (fun e => ret [ ("success", VBool false); ("error", VStr (exn_str e)) ]).

(** [OuteTTSEngine.get_audio_info] *)
Definition get_audio_info (file_path : Val) : Py Dict :=
  if negb PYDUB_AVAILABLE then
    ret [ ("success", VBool false);
          ("error", VStr "Pydub not available for audio info") ]
  else
    try_except
      (emit (EvAudioInfo file_path) ;;;
       audio <- call (fun t => pydub_from_file w t file_path) ;;
       st <- call (fun t => path_stat w t file_path) ;;
       let file_size := fst st in
       let format_ext := snd st in
       ret [ ("success", VBool true);
             ("duration", VFloat (duration_seconds audio));
             ("file_size", VInt file_size);
             ("format", VStr format_ext);
             ("sample_rate", VInt (frame_rate audio));
             ("channels", VInt (channels audio));
             ("bit_depth", VInt (sample_width audio * 8)) ])
      (fun e => ret [ ("success", VBool false); ("error", VStr (exn_str e)) ]).

(** *** Attribute lookup on an engine object *)

(** The methods of the class that take no argument besides [self]. *)
Definition nullary_methods : list (string * (OuteTTSEngine -> Py unit)) :=
  [ ("_load_model", fun self => _ <- _load_model self ;; ret tt);
    ("_check_memory_usage", fun _ => _ <- _check_memory_usage ;; ret tt);
    ("_cleanup_memory", fun _ => _cleanup_memory);
    ("get_model_info", fun self => _ <- get_model_info self ;; ret tt) ].

(** Every other attribute an instance has: the remaining methods and the
    fields [__init__] sets. *)
Definition other_attributes : list string :=
  [ "__init__"; "_get_quality_settings"; "synthesize"; "play_audio";
    "get_audio_info"; "model_path"; "interface"; "default_speaker";
    "is_loaded"; "mu"; "gpu_memory_allocated"; "max_gpu_memory" ].

Fixpoint find_method (name : string)
    (table : list (string * (OuteTTSEngine -> Py unit)))
    : option (OuteTTSEngine -> Py unit) :=
  match table with
  | [] => None
  | (n, m) :: table' =>
      if String.eqb name n then Some m else find_method name table'
  end.

(** [self.name()] as a statement *)
Definition call_method (self : OuteTTSEngine) (name : string) : Py unit :=
  match find_method name nullary_methods with
  | Some m => m self
  | None =>
      if existsb (String.eqb name) other_attributes then
        raise (TypeError ("bad call of '" ++ name ++ "'"))
      else
        raise (AttributeError
                 ("'OuteTTSEngine' object has no attribute '" ++ name ++ "'"))
  end.

(** ** Shutdown *)

(** [sys.exit(code)] *)
Definition sys_exit {A} (code : Z) : Py A := raise (SystemExit code).

(** [signal_handler]; [engine_instance] is the module global. *)
Definition signal_handler (engine_instance : option OuteTTSEngine) : Py unit :=
  set_shutdown ;;;
  (match engine_instance with
   | Some engine => call_method engine "cleanup"
   | None => ret tt
   end) ;;;
  sys_exit 0.

End Engine.

(** ** The command protocol *)

(** [@dataclass SynthesisJob]; the fields carry whatever JSON supplied. *)
Record SynthesisJob : Type := {
  j_id : Val;
  j_text : Val;
  j_output_path : Val;
  j_quality : Val;
  j_temperature : Val;
  j_speaker : Val
}.

Definition SynthesisJob_fields : list string :=
  [ "id"; "text"; "output_path"; "quality"; "temperature"; "speaker" ].

Definition get_default (k : string) (d : Dict) (default : Val) : Val :=
  match lookup k d with
  | Some v => v
  | None => default
  end.

(** The constructor call of [SynthesisJob] with the entries of [job_data]
    as keyword arguments. *)
Definition SynthesisJob_new (job_data : Val) : Py SynthesisJob :=
  match job_data with
  | VDict d =>
      if negb (forallb (fun k => existsb (String.eqb k) SynthesisJob_fields)
                 (keys d))
      then raise (TypeError "__init__() got an unexpected keyword argument")
      else
        match lookup "id" d, lookup "text" d, lookup "output_path" d with
        | Some i, Some t, Some o =>
            ret {| j_id := i;
                   j_text := t;
                   j_output_path := o;
                   j_quality := get_default "quality" d (VStr "high");
                   j_temperature := get_default "temperature" d (VFloat (4 # 10));
                   j_speaker := get_default "speaker" d (VStr "en-female-1-neutral") |}
        | _, _, _ =>
            raise (TypeError "__init__() missing required positional arguments")
        end
  | _ => raise (TypeError "keyword arguments must come from a mapping")
  end.

(** [@dataclass SynthesisResult] *)
Record SynthesisResult : Type := {
  job_id : Val;
  success : bool;
  error : option string;
  duration : Q;
  audio_path : Val;
  audio_size : Z
}.

(** [SynthesisResult(job_id=..., success=..., audio_path=...)]: the other
    fields take the defaults of the dataclass. *)
Definition SynthesisResult_new (job_id : Val) (success : bool)
    (audio_path : Val) : SynthesisResult :=
  {| job_id := job_id;
     success := success;
     error := None;
     duration := 0 # 1;
     audio_path := audio_path;
     audio_size := 0 |}.

(** [dataclasses.asdict] *)
Definition asdict (r : SynthesisResult) : Dict :=
  [ ("job_id", job_id r);
    ("success", VBool (success r));
    ("error", match error r with Some m => VStr m | None => VNone end);
    ("duration", VFloat (duration r));
    ("audio_path", audio_path r);
    ("audio_size", VInt (audio_size r)) ].

Section Dispatcher.

Variable w : World.

(** [json.loads(s)] *)
Definition loads (s : string) : Py Val :=
  match json_loads w s with
  | Gives v => ret v
  | Fails m => raise (JSONDecodeError m)
  end.

(** [x.get(k)] and [x.get(k, default)]: only a dict has the method. *)
Definition dot_get (x : Val) (k : string) (default : Val) : Py Val :=
  match x with
  | VDict d => ret (get_default k d default)
  | v => raise (AttributeError
                  ("'" ++ type_name v ++ "' object has no attribute 'get'"))
  end.

(** [x[k]] with a string key *)
Definition subscript (x : Val) (k : string) : Py Val :=
  match x with
  | VDict d => getitem d k
  | v => raise (TypeError ("'" ++ type_name v ++ "' object is not subscriptable"))
  end.

Definition error_line (m : string) : Line := Dumps (VDict [ ("error", VStr m) ]).

(** The statements of the [single] branch that follow the construction of
    the job: [speaker_id] and [language] are left at their defaults. *)
Definition single_job (engine : OuteTTSEngine) (job : SynthesisJob) : Py unit :=
  success <- synthesize w engine (j_text job) (j_output_path job)
               VNone (VStr "en")
               (j_quality job) (j_temperature job) true ;;
  let result := SynthesisResult_new (j_id job) success (j_output_path job) in
  print (Dumps (VDict (asdict result))).

(** The [try] block of one loop iteration; the result tells whether the
    iteration ends in [break]. *)
Definition dispatch (engine : OuteTTSEngine) (line : string) : Py bool :=
  command <- loads (strip line) ;;
  command_type <- dot_get command "type" VNone ;;
  if eq_str command_type "single" then
    job_data <- subscript command "job" ;;
    job <- SynthesisJob_new job_data ;;
    single_job engine job ;;;
    ret false
  else if eq_str command_type "memory_usage" then
    info <- get_model_info w engine ;;
    usage <- getitem info "memory_usage" ;;
    print (Dumps usage) ;;;
    ret false
  else if eq_str command_type "play_audio" then
    file_path <- dot_get command "file_path" VNone ;;
    quality_settings <- dot_get command "quality_settings" (VDict []) ;;
    if truthy file_path then
      result <- play_audio w file_path quality_settings ;;
      print (Dumps (VDict result)) ;;;
      ret false
    else
      print (error_line "Missing file_path for play_audio command") ;;;
      ret false
  else if eq_str command_type "audio_info" then
    file_path <- dot_get command "file_path" VNone ;;
    if truthy file_path then
      result <- get_audio_info w file_path ;;
      print (Dumps (VDict result)) ;;;
      ret false
    else
      print (error_line "Missing file_path for audio_info command") ;;;
      ret false
  else if eq_str command_type "cleanup" then
    _cleanup_memory w ;;;
    print (Dumps (VDict [ ("status", VStr "cleaned") ])) ;;;
    ret true
  else
    print (error_line ("Unknown command type: " ++ py_str w command_type)) ;;;
    ret false.

(** One iteration body: the [try] block with its two [except] clauses. *)
Definition handle_line (engine : OuteTTSEngine) (line : string) : Py bool :=
  try_except (dispatch engine line)
    (fun e =>
       match e with
       | JSONDecodeError _ =>
           print (error_line ("Invalid JSON: " ++ exn_str e)) ;;; ret false
       | _ =>
           print (error_line ("Command failed: " ++ exn_str e)) ;;; ret false
       end).

(** [shutdown_event.is_set()] *)
Definition is_set : Py bool := fun s => (Return (shutdown_event s), s).

(** [for line in sys.stdin: ...] of the persistent mode *)
Fixpoint command_loop (engine : OuteTTSEngine) (stdin : list string) : Py unit :=
  match stdin with
  | [] => ret tt
  | line :: rest =>
      stop <- is_set ;;
      if stop then ret tt
      else
        brk <- handle_line engine line ;;
        if brk then ret tt else command_loop engine rest
  end.

(** [main] with [--persistent]: the outer [try] of [main] around engine
    construction, the handshake and the loop. *)
Definition main_persistent (model_path_arg : string) (stdin : list string)
    : Py unit :=
  try_except
    (engine <- __init__ w model_path_arg ;;
     print (Text "READY") ;;;
     command_loop engine stdin)
    (fun e => print (Text ("Error: " ++ exn_str e)) ;;; sys_exit 1).

(** A termination signal delivered while the loop of the persistent mode
    waits for the next line: the handler runs inside the outer [try] of
    [main], with [engine_instance] set to the engine. *)
Definition main_signalled (engine : OuteTTSEngine) : Py unit :=
  try_except
    (signal_handler w (Some engine))
    (fun e => print (Text ("Error: " ++ exn_str e)) ;;; sys_exit 1).

End Dispatcher.

(** Exit status of the process for the way [main] ends. *)
Definition exit_status (r : Result unit) : Z :=
  match r with
  | Return _ => 0
  | Raise (SystemExit c) => c
  | Raise _ => 1
  end.

(** ** Derived descriptions used in the statements *)

(** The configuration [synthesize] hands to [interface.generate] for the
    stripped text [text]. *)
Definition generation_config (self : OuteTTSEngine) (text : string)
    (quality temperature : Val) (use_mirostat : bool) : GenerationConfig :=
  let quality_settings := _get_quality_settings quality in
  {| gc_text := text;
     gc_speaker := default_speaker self;
     gc_generation_type := get_default "generation_type" quality_settings VNone;
     gc_max_batch_size := get_default "max_batch_size" quality_settings VNone;
     gc_dac_decoding_chunk := get_default "dac_decoding_chunk" quality_settings VNone;
     gc_max_length := get_default "max_length" quality_settings VNone;
     gc_sampler_config :=
       {| sc_temperature := temperature;
          sc_repetition_penalty := get_default "repetition_penalty" quality_settings VNone;
          sc_repetition_range := 64;
          sc_top_k := 40;
          sc_top_p := 9 # 10;
          sc_min_p := 5 # 100;
          sc_mirostat := use_mirostat;
          sc_mirostat_tau := 5 # 1;
          sc_mirostat_eta := 1 # 10 |} |}.

(** The verdict of the memory guard when asked in state [s]. *)
Definition memory_admits (w : World) (s : St) : bool :=
  match fst (_check_memory_usage w s) with
  | Return b => b
  | Raise _ => false
  end.

(** The text is a string that is empty once stripped. *)
Definition blank (text : Val) : bool :=
  match text with
  | VStr t => String.eqb (strip t) ""
  | _ => false
  end.

Arguments _check_memory_usage : simpl never.
Arguments _cleanup_memory : simpl never.
Arguments _get_quality_settings : simpl never.
Arguments strip : simpl never.

(** ** A concrete world *)

(** A CPU-only host on which the backend generates and saves without
    error.  Its JSON decoder knows the lines below. *)

Definition dq : string := String (ascii_of_nat 34) EmptyString.

(** A JSON string literal *)
Definition js (x : string) : string := dq ++ x ++ dq.

(** A request line for a [single] command with job id, text, output path
    and quality. *)
Definition single_line (id text output_path quality : string) : string :=
  "{" ++ js "type" ++ ": " ++ js "single" ++ ", " ++ js "job" ++ ": {"
  ++ js "id" ++ ": " ++ js id ++ ", "
  ++ js "text" ++ ": " ++ js text ++ ", "
  ++ js "output_path" ++ ": " ++ js output_path ++ ", "
  ++ js "quality" ++ ": " ++ js quality ++ "}}".

Definition single_command (id text output_path quality : string) : Val :=
  VDict [ ("type", VStr "single");
          ("job", VDict [ ("id", VStr id); ("text", VStr text);
                          ("output_path", VStr output_path);
                          ("quality", VStr quality) ]) ].

Definition typed_line (type : string) : string :=
  "{" ++ js "type" ++ ": " ++ js type ++ "}".

Definition typed_command (type : string) : Val := VDict [ ("type", VStr type) ].

Definition hello_line : string := single_line "1" "Hello" "/tmp/out.wav" "fast".
Definition blank_line : string := single_line "2" "   " "/tmp/out2.wav" "high".
Definition truncated_line : string := "{" ++ js "type" ++ ": ".

Definition demo_loads (s : string) : Answer Val :=
  if String.eqb s hello_line
  then Gives (single_command "1" "Hello" "/tmp/out.wav" "fast")
  else if String.eqb s blank_line
  then Gives (single_command "2" "   " "/tmp/out2.wav" "high")
  else if String.eqb s (typed_line "memory_usage")
  then Gives (typed_command "memory_usage")
  else if String.eqb s (typed_line "cleanup")
  then Gives (typed_command "cleanup")
  else if String.eqb s (typed_line "reboot")
  then Gives (typed_command "reboot")
  else Fails "Expecting value".

Definition demo_str (v : Val) : string :=
  match v with
  | VStr s => s
  | _ => "None"
  end.

Definition demo_audio : AudioSegment :=
  {| duration_seconds := 1 # 1; frame_rate := 24000; channels := 1;
     sample_width := 2 |}.

Definition demo_world : World :=
  {| OUTETTS_AVAILABLE := true;
     TORCH_AVAILABLE := true;
     path_exists := fun _ _ => true;
     json_loads := demo_loads;
     py_str := demo_str;
     cuda_is_available := fun _ => false;
     cuda_memory_allocated := fun _ => Gives 0%Z;
     cuda_memory_reserved := fun _ => Gives 0%Z;
     cuda_total_memory := fun _ => Gives 0%Z;
     cuda_device_count := fun _ => Gives 0%Z;
     cuda_empty_cache := fun _ => Gives tt;
     cuda_synchronize := fun _ => Gives tt;
     outetts_Interface := fun _ _ => Gives tt;
     interface_load_default_speaker :=
       fun _ name => Gives {| speaker_profile := VStr name |};
     interface_generate := fun _ _ => Gives {| audio_samples := [0; 1; 0]%Z |};
     output_save := fun _ _ _ => Gives tt;
     pydub_play := fun _ _ _ => Gives demo_audio;
     pydub_from_file := fun _ _ => Gives demo_audio;
     path_stat := fun _ _ => Gives (44%Z, "wav") |}.

(** The same host with a GPU of 8 GiB of which 2 GiB are reserved. *)
Definition gpu_world : World :=
  {| OUTETTS_AVAILABLE := true;
     TORCH_AVAILABLE := true;
     path_exists := fun _ _ => true;
     json_loads := demo_loads;
     py_str := demo_str;
     cuda_is_available := fun _ => true;
     cuda_memory_allocated := fun _ => Gives (1 * GiB)%Z;
     cuda_memory_reserved := fun _ => Gives (2 * GiB)%Z;
     cuda_total_memory := fun _ => Gives (8 * GiB)%Z;
     cuda_device_count := fun _ => Gives 1%Z;
     cuda_empty_cache := fun _ => Gives tt;
     cuda_synchronize := fun _ => Gives tt;
     outetts_Interface := fun _ _ => Gives tt;
     interface_load_default_speaker :=
       fun _ name => Gives {| speaker_profile := VStr name |};
     interface_generate := fun _ _ => Gives {| audio_samples := [0; 1; 0]%Z |};
     output_save := fun _ _ _ => Gives tt;
     pydub_play := fun _ _ _ => Gives demo_audio;
     pydub_from_file := fun _ _ => Gives demo_audio;
     path_stat := fun _ _ => Gives (44%Z, "wav") |}.

(** An input with a truncated line, a job, an unknown command, a cleanup
    and a line after the cleanup. *)
Definition demo_stdin : list string :=
  [ truncated_line; hello_line; typed_line "reboot"; typed_line "cleanup";
    typed_line "memory_usage" ].

Definition start : St :=
  {| clock := 0; trace := []; out := []; shutdown_event := false |}.

(** The engine [__init__] builds in the concrete world. *)
Definition demo_engine : OuteTTSEngine :=
  match fst (__init__ demo_world "/models/outetts.gguf" start) with
  | Return e => e
  | Raise _ =>
      {| model_path := ""; interface := None; default_speaker := None;
         is_loaded := false |}
  end.

(** The [job] object of [hello_line]. *)
Definition hello_job_data : Dict :=
  [ ("id", VStr "1"); ("text", VStr "Hello");
    ("output_path", VStr "/tmp/out.wav"); ("quality", VStr "fast") ].

(** [hello_job] with another speaker. *)
Definition whisper_job : SynthesisJob :=
  {| j_id := VStr "1"; j_text := VStr "Hello";
     j_output_path := VStr "/tmp/out.wav"; j_quality := VStr "fast";
     j_temperature := VFloat (4 # 10);
     j_speaker := VStr "en-male-2-whisper" |}.

Definition hello_job : SynthesisJob :=
  {| j_id := VStr "1"; j_text := VStr "Hello";
     j_output_path := VStr "/tmp/out.wav"; j_quality := VStr "fast";
     j_temperature := VFloat (4 # 10);
     j_speaker := VStr "en-female-1-neutral" |}.

(** ** The claims of the specification that the code does not meet *)

(** The events of a job are bracketed by the memory check and by cleanup. *)
Definition guarded (events : list Event) : Prop :=
  exists work, events = EvCheckMemory :: work ++ [EvCleanupMemory].

(** A generation uses the temperature of the bundle its quality resolves to. *)
Definition uses_preset_temperature (quality : Val) (c : GenerationConfig) : Prop :=
  lookup "temperature" (_get_quality_settings quality)
  = Some (sc_temperature (gc_sampler_config c)).

(** A generate or save event: the backend work of a job. *)
Definition backend_work (e : Event) : Prop :=
  (exists c, e = EvGenerate c) \/ (exists p, e = EvSave p).

(** A response line that reports a positive [audio_size]. *)
Definition positive_audio_size (l : Line) : Prop :=
  exists d n,
    l = Dumps (VDict d) /\ lookup "audio_size" d = Some (VInt n) /\ (0 < n)%Z.

(** ** The lines the loop serves *)

(** The line decodes to an object whose [type] is "cleanup": the one
    command after which the loop breaks. *)
Definition is_cleanup_line (w : World) (line : string) : bool :=
  match json_loads w (strip line) with
  | Gives (VDict d) => eq_str (get_default "type" d VNone) "cleanup"
  | _ => false
  end.

(** The lines of the input up to and including the first cleanup command. *)
Fixpoint served (w : World) (stdin : list string) : list string :=
  match stdin with
  | [] => []
  | line :: rest =>
      if is_cleanup_line w line then [line] else line :: served w rest
  end.

(** [answered s lines responses s']: starting in [s], the iteration body
    handles the lines one after the other and ends in [s']; the i-th
    response is the one line the body printed for the i-th line. *)
Inductive answered (w : World) (engine : OuteTTSEngine)
    : St -> list string -> list Line -> St -> Prop :=
| answered_nil (s : St) : answered w engine s [] [] s
| answered_cons (s s1 s2 : St) (line : string) (brk : bool) (r : Line)
    (lines : list string) (rs : list Line) :
    handle_line w engine line s = (Return brk, s1) ->
    out s1 = out s ++ [r] ->
    answered w engine s1 lines rs s2 ->
    answered w engine s (line :: lines) (r :: rs) s2.

(** None of the five command tags. *)
Definition unknown_tag (command_type : Val) : Prop :=
  eq_str command_type "single" = false
  /\ eq_str command_type "memory_usage" = false
  /\ eq_str command_type "play_audio" = false
  /\ eq_str command_type "audio_info" = false
  /\ eq_str command_type "cleanup" = false.

(** The line is malformed JSON, or an object with an unknown tag. *)
Definition error_command (w : World) (line : string) : Prop :=
  (exists m, json_loads w (strip line) = Fails m)
  \/ (exists d, json_loads w (strip line) = Gives (VDict d)
               /\ unknown_tag (get_default "type" d VNone)).

(** An [{error: ...}] response. *)
Definition is_error_line (l : Line) : Prop := exists m, l = error_line m.

(** ** Predicates on monadic code *)

(** Code that prints nothing, leaves the shutdown flag alone and raises
    nothing but an [Exception]. *)
Definition quiet {A} (m : Py A) : Prop :=
  forall s,
    out (snd (m s)) = out s
    /\ shutdown_event (snd (m s)) = shutdown_event s
    /\ forall e, fst (m s) = Raise e -> is_Exception e = true.

(** Code that prints exactly one line and returns [brk], or raises an
    [Exception] having printed nothing (then [brk] is [false]). *)
Definition replies (m : Py bool) (brk : bool) : Prop :=
  forall s,
    match m s with
    | (Return b, s') =>
        b = brk /\ (exists l, out s' = out s ++ [l])
        /\ shutdown_event s' = shutdown_event s
    | (Raise e, s') =>
        brk = false /\ out s' = out s
        /\ shutdown_event s' = shutdown_event s /\ is_Exception e = true
    end.

(** A number as a rational. *)
Definition number (v : Val) : option Q :=
  match v with
  | VInt z => Some (inject_Z z)
  | VFloat q => Some q
  | _ => None
  end.

(** A response line that is a memory status: it holds [allocated],
    [reserved], [total] and [available], with [available <= total]. *)
Definition memory_status (l : Line) : Prop :=
  exists d allocated reserved total available a t,
    l = Dumps (VDict d)
    /\ lookup "allocated" d = Some allocated
    /\ lookup "reserved" d = Some reserved
    /\ lookup "total" d = Some total
    /\ lookup "available" d = Some available
    /\ number available = Some a /\ number total = Some t /\ (a <= t)%Q.

(** The events of code that runs while holding [self.mu]. *)
Definition under_lock (events : list Event) : Prop :=
  exists body, events = EvAcquire :: body ++ [EvRelease].

(** ** The rest of [main] *)

(** The namespace [parser.parse_args()] returns.  [--quality] is one of
    the three choices and [--temperature] a float; [--mirostat] is a
    [store_true] flag whose default is already [True]. *)
Record Args : Type := {
  arg_model_path : string;
  arg_text : option string;
  arg_output_path : option string;
  arg_info : bool;
  arg_quality : string;
  arg_temperature : Q;
  arg_mirostat : bool;
  arg_persistent : bool
}.

(** [not x] for an optional positional argument: absent or empty. *)
Definition missing (x : option string) : bool :=
  match x with
  | None => true
  | Some v => String.eqb v ""
  end.

Definition arg_val (x : option string) : Val :=
  match x with
  | None => VNone
  | Some v => VStr v
  end.

(** [str(x)], as an f-string renders the argument. *)
Definition arg_str (x : option string) : string :=
  match x with
  | None => "None"
  | Some v => v
  end.

Section Main.

Variable w : World.

(** [json.dumps(x, indent=2)], the multi-line rendering of the CLI. *)
Variable dumps_indent : Val -> string.

(** [parser.error(message)]: usage on standard error, exit status 2. *)
Definition parser_error {A} : Py A := sys_exit 2.

(** [main].  Registering the signal handlers changes nothing that the
    model observes. *)
Definition main (args : Args) (stdin : list string) : Py unit :=
  (if negb (arg_info args) && negb (arg_persistent args) then
     if missing (arg_text args) || missing (arg_output_path args)
     then parser_error
     else ret tt
   else ret tt) ;;;
  try_except
    (engine <- __init__ w (arg_model_path args) ;;
     if arg_info args then
       info <- get_model_info w engine ;;
       print (Text (dumps_indent (VDict info)))
     else if arg_persistent args then
       print (Text "READY") ;;;
       command_loop w engine stdin
     else
       success <- synthesize w engine (arg_val (arg_text args))
                    (arg_val (arg_output_path args)) VNone (VStr "en")
                    (VStr (arg_quality args))
                    (VFloat (arg_temperature args)) (arg_mirostat args) ;;
       if success then
         print (Text ("Successfully synthesized: "
                      ++ arg_str (arg_output_path args))) ;;;
         info <- get_model_info w engine ;;
         print (Text ("Model info: " ++ dumps_indent (VDict info)))
       else
         print (Text "Synthesis failed") ;;;
         sys_exit 1)
    (fun e => print (Text ("Error: " ++ exn_str e)) ;;; sys_exit 1).

End Main.

(** ** The effect chain of [play_audio] *)

(** The operations [play_audio] may apply to the loaded audio, with the
    value of the option that asks for them.  The arithmetic on the option
    ([20 * (volume - 1.0)], [int(seconds * 1000)]) belongs to the operation. *)
Inductive Effect : Type :=
| SetFrameRate (sample_rate : Val)
| SetChannels (channels : Val)
| SetSampleWidth (bytes : Z)
| Gain (volume : Val)
| FadeIn (seconds : Val)
| FadeOut (seconds : Val)
| Normalize
| HighPass (cutoff : Val)
| LowPass (cutoff : Val).

(** The pydub operations, each of which may raise. *)
Record Pydub : Type := {
  from_file : Val -> Answer AudioSegment;
  apply_effect : Effect -> AudioSegment -> Answer AudioSegment;
  play : AudioSegment -> Answer unit
}.

Definition and_then {A B} (a : Answer A) (k : A -> Answer B) : Answer B :=
  match a with
  | Gives x => k x
  | Fails m => Fails m
  end.

(** [x == q] for a number [q]: [True] counts as 1 and [False] as 0, and
    nothing but a number equals a number. *)
Definition eq_num (x : Val) (q : Q) : bool :=
  match x with
  | VInt z => Qeq_bool (inject_Z z) q
  | VFloat y => Qeq_bool y q
  | VBool b => Qeq_bool (if b then 1 # 1 else 0 # 1) q
  | _ => false
  end.

(** [quality_settings.get(k, default)] inside the [try] block *)
Definition settings_get (quality_settings : Val) (k : string) (default : Val)
    : Answer Val :=
  match quality_settings with
  | VDict d => Gives (get_default k d default)
  | v => Fails ("'" ++ type_name v ++ "' object has no attribute 'get'")
  end.

Section EffectChain.

Variable P : Pydub.

(** [if c: audio = effect(audio)] *)
Definition when (c : bool) (e : Effect) (audio : AudioSegment)
    : Answer AudioSegment :=
  if c then apply_effect P e audio else Gives audio.

(** The block [if quality_settings: ...] of [play_audio]. *)
Definition apply_quality_settings (quality_settings : Val)
    (audio : AudioSegment) : Answer AudioSegment :=
  if truthy quality_settings then
    and_then (settings_get quality_settings "sample_rate" VNone) (fun sample_rate =>
    and_then (when (truthy sample_rate) (SetFrameRate sample_rate) audio) (fun audio =>
    and_then (settings_get quality_settings "channels" VNone) (fun chans =>
    and_then (when (truthy chans) (SetChannels chans) audio) (fun audio =>
    and_then (settings_get quality_settings "bit_depth" VNone) (fun bit_depth =>
    and_then (when (eq_num bit_depth (32 # 1)) (SetSampleWidth 4) audio) (fun audio =>
    and_then (settings_get quality_settings "volume" (VFloat (1 # 1))) (fun volume =>
    and_then (when (negb (eq_num volume (1 # 1))) (Gain volume) audio) (fun audio =>
    and_then (settings_get quality_settings "fade_in" VNone) (fun fade_in =>
    and_then (when (truthy fade_in) (FadeIn fade_in) audio) (fun audio =>
    and_then (settings_get quality_settings "fade_out" VNone) (fun fade_out =>
    and_then (when (truthy fade_out) (FadeOut fade_out) audio) (fun audio =>
    and_then (settings_get quality_settings "normalize" (VBool false)) (fun norm =>
    and_then (when (truthy norm) Normalize audio) (fun audio =>
    and_then (settings_get quality_settings "high_pass" VNone) (fun high_pass =>
    and_then (when (truthy high_pass) (HighPass high_pass) audio) (fun audio =>
    and_then (settings_get quality_settings "low_pass" VNone) (fun low_pass =>
    when (truthy low_pass) (LowPass low_pass) audio)))))))))))))))))
  else Gives audio.

(** The body of the [try] block of [play_audio]: load, process, play. *)
Definition load_process_play (file_path quality_settings : Val)
    : Answer AudioSegment :=
  and_then (from_file P file_path) (fun audio =>
  and_then (apply_quality_settings quality_settings audio) (fun audio =>
  and_then (play P audio) (fun _ =>
  Gives audio))).

End EffectChain.

(** The world in which [pydub_play] is the chain over the operations [P]. *)
Definition with_pydub (P : Pydub) (w : World) : World :=
  {| OUTETTS_AVAILABLE := OUTETTS_AVAILABLE w;
     TORCH_AVAILABLE := TORCH_AVAILABLE w;
     path_exists := path_exists w;
     json_loads := json_loads w;
     py_str := py_str w;
     cuda_is_available := cuda_is_available w;
     cuda_memory_allocated := cuda_memory_allocated w;
     cuda_memory_reserved := cuda_memory_reserved w;
     cuda_total_memory := cuda_total_memory w;
     cuda_device_count := cuda_device_count w;
     cuda_empty_cache := cuda_empty_cache w;
     cuda_synchronize := cuda_synchronize w;
     outetts_Interface := outetts_Interface w;
     interface_load_default_speaker := interface_load_default_speaker w;
     interface_generate := interface_generate w;
     output_save := output_save w;
     pydub_play := fun _ => load_process_play P;
     pydub_from_file := fun _ => from_file P;
     path_stat := path_stat w |}.

(** The effects the options of a settings object ask for, in the order in
    which [play_audio] tests the options. *)
Definition requested_effects (d : Dict) : list Effect :=
  let opt k default := get_default k d default in
  (if truthy (opt "sample_rate" VNone)
   then [SetFrameRate (opt "sample_rate" VNone)] else [])
  ++ (if truthy (opt "channels" VNone)
      then [SetChannels (opt "channels" VNone)] else [])
  ++ (if eq_num (opt "bit_depth" VNone) (32 # 1) then [SetSampleWidth 4] else [])
  ++ (if negb (eq_num (opt "volume" (VFloat (1 # 1))) (1 # 1))
      then [Gain (opt "volume" (VFloat (1 # 1)))] else [])
  ++ (if truthy (opt "fade_in" VNone) then [FadeIn (opt "fade_in" VNone)] else [])
  ++ (if truthy (opt "fade_out" VNone) then [FadeOut (opt "fade_out" VNone)] else [])
  ++ (if truthy (opt "normalize" (VBool false)) then [Normalize] else [])
  ++ (if truthy (opt "high_pass" VNone)
      then [HighPass (opt "high_pass" VNone)] else [])
  ++ (if truthy (opt "low_pass" VNone)
      then [LowPass (opt "low_pass" VNone)] else []).

(** Applying effects one after the other, stopping at the first failure. *)
Fixpoint apply_all (P : Pydub) (effects : list Effect) (audio : AudioSegment)
    : Answer AudioSegment :=
  match effects with
  | [] => Gives audio
  | e :: rest => and_then (apply_effect P e audio) (apply_all P rest)
  end.

(** Operations that double the frame rate on resampling, widen on
    request and fail on everything else. *)
Definition demo_pydub : Pydub :=
  {| from_file := fun _ => Gives demo_audio;
     apply_effect :=
       fun e a =>
         match e with
         | SetFrameRate _ =>
             Gives {| duration_seconds := duration_seconds a;
                      frame_rate := 48000; channels := channels a;
                      sample_width := sample_width a |}
         | SetSampleWidth b =>
             Gives {| duration_seconds := duration_seconds a;
                      frame_rate := frame_rate a; channels := channels a;
                      sample_width := b |}
         | _ => Fails "effect failed"
         end;
     play := fun _ => Gives tt |}.

(** Operations that load and play but cannot apply any effect. *)
Definition rigid_pydub : Pydub :=
  {| from_file := fun _ => Gives demo_audio;
     apply_effect := fun _ _ => Fails "effect failed";
     play := fun _ => Gives tt |}.

(** ** Further descriptions used in the statements *)

(** The model configuration [_load_model] builds for a model path. *)
Definition load_config (path : string) : ModelConfig :=
  {| mc_model_path := path;
     mc_max_seq_length := DEFAULT_MAX_SEQ_LENGTH;
     mc_n_gpu_layers := 8;
     mc_additional_model_config :=
       [ ("n_ctx", VInt DEFAULT_N_CTX); ("n_batch", VInt 256);
         ("n_threads", VInt 4); ("n_gqa", VInt 4);
         ("rope_freq_base", VFloat DEFAULT_ROPE_FREQ_BASE) ] |}.

(** The arguments pass the check [main] makes before it builds the engine. *)
Definition args_accepted (args : Args) : bool :=
  arg_info args || arg_persistent args
  || (negb (missing (arg_text args)) && negb (missing (arg_output_path args))).


(** Whether generation and saving both succeed when the backend is asked
    in state [s1], the state the memory check leaves. *)
Definition backend_succeeds (w : World) (c : GenerationConfig)
    (output_path : Val) (s1 : St) : bool :=
  match interface_generate w (clock s1) c with
  | Gives output =>
      match output_save w (S (clock s1)) output output_path with
      | Gives _ => true
      | Fails _ => false
      end
  | Fails _ => false
  end.

(** ** Variations of the concrete world *)

Definition with_backend (generate : nat -> GenerationConfig -> Answer ModelOutput)
    (save : nat -> ModelOutput -> Val -> Answer unit) (w : World) : World :=
  {| OUTETTS_AVAILABLE := OUTETTS_AVAILABLE w;
     TORCH_AVAILABLE := TORCH_AVAILABLE w;
     path_exists := path_exists w;
     json_loads := json_loads w;
     py_str := py_str w;
     cuda_is_available := cuda_is_available w;
     cuda_memory_allocated := cuda_memory_allocated w;
     cuda_memory_reserved := cuda_memory_reserved w;
     cuda_total_memory := cuda_total_memory w;
     cuda_device_count := cuda_device_count w;
     cuda_empty_cache := cuda_empty_cache w;
     cuda_synchronize := cuda_synchronize w;
     outetts_Interface := outetts_Interface w;
     interface_load_default_speaker := interface_load_default_speaker w;
     interface_generate := generate;
     output_save := save;
     pydub_play := pydub_play w;
     pydub_from_file := pydub_from_file w;
     path_stat := path_stat w |}.

Definition with_memory (reserved total : Z) (w : World) : World :=
  {| OUTETTS_AVAILABLE := OUTETTS_AVAILABLE w;
     TORCH_AVAILABLE := TORCH_AVAILABLE w;
     path_exists := path_exists w;
     json_loads := json_loads w;
     py_str := py_str w;
     cuda_is_available := fun _ => true;
     cuda_memory_allocated := cuda_memory_allocated w;
     cuda_memory_reserved := fun _ => Gives reserved;
     cuda_total_memory := fun _ => Gives total;
     cuda_device_count := cuda_device_count w;
     cuda_empty_cache := cuda_empty_cache w;
     cuda_synchronize := cuda_synchronize w;
     outetts_Interface := outetts_Interface w;
     interface_load_default_speaker := interface_load_default_speaker w;
     interface_generate := interface_generate w;
     output_save := output_save w;
     pydub_play := pydub_play w;
     pydub_from_file := pydub_from_file w;
     path_stat := path_stat w |}.

Definition with_startup (files : bool) (interface : nat -> ModelConfig -> Answer unit)
    (w : World) : World :=
  {| OUTETTS_AVAILABLE := OUTETTS_AVAILABLE w;
     TORCH_AVAILABLE := TORCH_AVAILABLE w;
     path_exists := fun _ _ => files;
     json_loads := json_loads w;
     py_str := py_str w;
     cuda_is_available := cuda_is_available w;
     cuda_memory_allocated := cuda_memory_allocated w;
     cuda_memory_reserved := cuda_memory_reserved w;
     cuda_total_memory := cuda_total_memory w;
     cuda_device_count := cuda_device_count w;
     cuda_empty_cache := cuda_empty_cache w;
     cuda_synchronize := cuda_synchronize w;
     outetts_Interface := interface;
     interface_load_default_speaker := interface_load_default_speaker w;
     interface_generate := interface_generate w;
     output_save := output_save w;
     pydub_play := pydub_play w;
     pydub_from_file := pydub_from_file w;
     path_stat := path_stat w |}.

Definition with_loads (loads : string -> Answer Val) (w : World) : World :=
  {| OUTETTS_AVAILABLE := OUTETTS_AVAILABLE w;
     TORCH_AVAILABLE := TORCH_AVAILABLE w;
     path_exists := path_exists w;
     json_loads := loads;
     py_str := py_str w;
     cuda_is_available := cuda_is_available w;
     cuda_memory_allocated := cuda_memory_allocated w;
     cuda_memory_reserved := cuda_memory_reserved w;
     cuda_total_memory := cuda_total_memory w;
     cuda_device_count := cuda_device_count w;
     cuda_empty_cache := cuda_empty_cache w;
     cuda_synchronize := cuda_synchronize w;
     outetts_Interface := outetts_Interface w;
     interface_load_default_speaker := interface_load_default_speaker w;
     interface_generate := interface_generate w;
     output_save := output_save w;
     pydub_play := pydub_play w;
     pydub_from_file := pydub_from_file w;
     path_stat := path_stat w |}.

(** A request line with a tag and a file path. *)
Definition file_line (type path : string) : string :=
  "{" ++ js "type" ++ ": " ++ js type ++ ", " ++ js "file_path" ++ ": "
  ++ js path ++ "}".

Definition file_command (type path : string) : Val :=
  VDict [ ("type", VStr type); ("file_path", VStr path) ].

(** The decoder of the concrete world, extended with a [single] command
    that has no job and with the audio commands. *)
Definition protocol_loads (s : string) : Answer Val :=
  if String.eqb s (typed_line "single")
  then Gives (typed_command "single")
  else if String.eqb s (typed_line "play_audio")
  then Gives (typed_command "play_audio")
  else if String.eqb s (file_line "play_audio" "/tmp/out.wav")
  then Gives (file_command "play_audio" "/tmp/out.wav")
  else if String.eqb s (file_line "audio_info" "/tmp/out.wav")
  then Gives (file_command "audio_info" "/tmp/out.wav")
  else demo_loads s.

Definition protocol_world : World := with_loads protocol_loads demo_world.

(** A backend whose generation always fails. *)
Definition mute_world : World :=
  with_backend (fun _ _ => Fails "generation failed")
    (fun _ _ _ => Gives tt) demo_world.

(** A backend that generates but cannot write the file. *)
Definition readonly_world : World :=
  with_backend (interface_generate demo_world)
    (fun _ _ _ => Fails "Permission denied") demo_world.

(** A GPU of 8 GiB with all but half a GiB reserved. *)
Definition full_gpu_world : World :=
  with_memory (8 * GiB - GiB / 2) (8 * GiB) demo_world.

(** A host without the model file. *)
Definition no_model_world : World :=
  with_startup false (outetts_Interface demo_world) demo_world.

(** A host whose backend cannot be initialised. *)
Definition broken_backend_world : World :=
  with_startup true (fun _ _ => Fails "failed to load model") demo_world.

Definition demo_dumps (v : Val) : string := "{...}".

Definition cli_args : Args :=
  {| arg_model_path := "/models/outetts.gguf";
     arg_text := Some "Hello";
     arg_output_path := Some "/tmp/out.wav";
     arg_info := false;
     arg_quality := "high";
     arg_temperature := 4 # 10;
     arg_mirostat := true;
     arg_persistent := false |}.

Definition persistent_args : Args :=
  {| arg_model_path := "/models/outetts.gguf";
     arg_text := None;
     arg_output_path := None;
     arg_info := false;
     arg_quality := "high";
     arg_temperature := 4 # 10;
     arg_mirostat := true;
     arg_persistent := true |}.

Definition info_args : Args :=
  {| arg_model_path := "/models/outetts.gguf";
     arg_text := None;
     arg_output_path := None;
     arg_info := true;
     arg_quality := "high";
     arg_temperature := 4 # 10;
     arg_mirostat := true;
     arg_persistent := true |}.

Definition bare_args : Args :=
  {| arg_model_path := "/models/outetts.gguf";
     arg_text := Some "Hello";
     arg_output_path := None;
     arg_info := false;
     arg_quality := "high";
     arg_temperature := 4 # 10;
     arg_mirostat := true;
     arg_persistent := false |}.

(** * The HTTP service ([cmd/tts-service/main.py])

    The service talks to the backend directly.  Its code runs in a monad of
    its own: the state is the list of the calls made to the backend and to
    the file system, and a handler ends with a value or with a raised
    exception.  Request validation by pydantic, routing and the event loop
    are FastAPI's; [await run_in_threadpool(f, x)] is the call [f(x)]. *)

Module Service.

(** [SPEAKER_MAPPING] *)
Definition SPEAKER_MAPPING : list (string * string) :=
  [ ("custom-voice-1", "/path/to/secure/speakers/voice1.wav");
    ("custom-voice-2", "/path/to/secure/speakers/voice2.wav") ].

Fixpoint mapping_get (k : string) (m : list (string * string)) : option string :=
  match m with
  | [] => None
  | (k', v) :: m' => if String.eqb k k' then Some v else mapping_get k m'
  end.

Inductive Raised : Type :=
| HTTPException (status_code : Z) (detail : string)
| Failure (msg : string)          (* any other [Exception], with its [str] *)
| SystemExit (code : Z).

Inductive Outcome (A : Type) : Type :=
| Done (a : A)
| Raises (e : Raised).
Arguments Done {A} a.
Arguments Raises {A} e.

Inductive Call : Type :=
| CheckPath (path : string)
| NewInterface (config : ModelConfig)
| LoadDefaultSpeaker (name : string)
| LoadSpeaker (path : string)
| Generate (text : string) (speaker : Val) (temperature : Q)
    (generation_type : GenerationType)
| NewTempFile
| Save (name : string)
| ReadFile (name : string)
| Unlink (name : string).

(** The collaborators of the service. *)
Record Backend : Type := {
  path_exists : string -> bool;
  new_interface : ModelConfig -> Answer unit;
  load_default_speaker : string -> Answer Val;
  load_speaker : string -> Answer Val;
  generate : string -> Val -> Q -> Answer ModelOutput;
  new_temp_file : Answer string;
  save : ModelOutput -> string -> Answer unit;
  read_file : string -> Answer (list Byte.byte);
  unlink : string -> Answer unit
}.

Definition Sv (A : Type) : Type := list Call -> Outcome A * list Call.

Definition ret {A} (a : A) : Sv A := fun t => (Done a, t).

Definition raise {A} (e : Raised) : Sv A := fun t => (Raises e, t).

Definition bind {A B} (m : Sv A) (k : A -> Sv B) : Sv B :=
  fun t =>
    match m t with
    | (Done a, t') => k a t'
    | (Raises e, t') => (Raises e, t')
    end.

(** A call of a collaborator, recorded before its answer is known. *)
Definition call {A} (c : Call) (a : Answer A) : Sv A :=
  fun t =>
    match a with
    | Gives x => (Done x, t ++ [c])
    | Fails m => (Raises (Failure m), t ++ [c])
    end.

(** [isinstance(e, Exception)] *)
Definition is_Exception (e : Raised) : bool :=
  match e with
  | SystemExit _ => false
  | _ => true
  end.

(** [try: body except Exception as e: handler(e)] *)
Definition try_except {A} (body : Sv A) (handler : Raised -> Sv A) : Sv A :=
  fun t =>
    match body t with
    | (Done a, t') => (Done a, t')
    | (Raises e, t') => if is_Exception e then handler e t' else (Raises e, t')
    end.

Definition str (e : Raised) : string :=
  match e with
  | HTTPException _ detail => detail
  | Failure m => m
  | SystemExit _ => ""
  end.

(** [TTSRequest], after validation *)
Record TTSRequest : Type := {
  text : string;
  speaker_id : option string;
  temperature : Q;
  language : string
}.

(** [TTSRequest.validate_text_content] *)
Definition validate_text_content (v : string) : Outcome string :=
  if String.eqb v "" || String.eqb (strip v) "" then
    Raises (Failure "Text cannot be empty or whitespace-only")
  else Done (strip v).

(** Truth value of an optional string: absent and empty are false. *)
Definition given (x : option string) : bool :=
  match x with
  | None => false
  | Some v => negb (String.eqb v "")
  end.

Definition the (x : option string) : string :=
  match x with
  | None => ""
  | Some v => v
  end.

(** The model configuration of the service. *)
Definition model_config (model_path : string) : ModelConfig :=
  {| mc_model_path := model_path;
     mc_max_seq_length := 8192;
     mc_n_gpu_layers := 99;
     mc_additional_model_config :=
       [ ("n_ctx", VInt 8192); ("n_batch", VInt 512) ] |}.

Section Handlers.

Variable B : Backend.

(** [initialize_tts_service] *)
Definition initialize_tts_service (model_path : string) : Sv (unit * Val) :=
  try_except
    (bind (call (CheckPath model_path) (Gives (path_exists B model_path)))
       (fun ex =>
     if negb ex then
       raise (Failure ("Model file not found at " ++ model_path))
     else
       bind (call (NewInterface (model_config model_path))
               (new_interface B (model_config model_path)))
         (fun interface =>
       bind (call (LoadDefaultSpeaker "en-female-1-neutral")
               (load_default_speaker B "en-female-1-neutral"))
         (fun speaker =>
       ret (interface, speaker)))))
    (fun _ => raise (SystemExit 1)).

(** [on_startup]; [model_path] is [os.getenv("TTS_MODEL_PATH")]. *)
Definition on_startup (model_path : option string) : Sv (unit * Val) :=
  if negb (given model_path) then raise (SystemExit 1)
  else initialize_tts_service (the model_path).

(** [generate_speech]; [tts_interface] and [default_speaker] are the
    module globals.  The result is the body of the 200 response. *)
Definition generate_speech (tts_interface : option unit) (default_speaker : Val)
    (request : TTSRequest) : Sv (list Byte.byte) :=
  match tts_interface with
  | None => raise (HTTPException 500 "TTS service not initialized")
  | Some _ =>
      fun t =>
        let body :=
          bind
            (if given (speaker_id request) then
               let speaker_path :=
                 mapping_get (the (speaker_id request)) SPEAKER_MAPPING in
               bind
                 (if negb (given speaker_path) then ret false
                  else call (CheckPath (the speaker_path))
                         (Gives (path_exists B (the speaker_path))))
                 (fun found =>
               if negb found then
                 raise (HTTPException 400
                          ("Invalid speaker_id: '" ++ the (speaker_id request)
                           ++ "' not found."))
               else
                 try_except
                   (call (LoadSpeaker (the speaker_path))
                      (load_speaker B (the speaker_path)))
                   (fun _ =>
                      raise (HTTPException 500 "Error loading custom speaker.")))
             else ret default_speaker)
            (fun speaker =>
          if negb (truthy speaker) then
            raise (HTTPException 500 "Speaker could not be loaded for generation")
          else
            bind (call (Generate (text request) speaker (temperature request)
                          CHUNKED)
                    (generate B (text request) speaker (temperature request)))
              (fun output =>
            bind (call NewTempFile (new_temp_file B)) (fun name =>
            bind (call (Save name) (save B output name)) (fun _ =>
            bind (call (ReadFile name) (read_file B name)) (fun audio_bytes =>
            bind (call (Unlink name) (unlink B name)) (fun _ =>
            ret audio_bytes)))))) in
        match body t with
        | (Done a, t') => (Done a, t')
        | (Raises (HTTPException c d), t') => (Raises (HTTPException c d), t')
        | (Raises (Failure m), t') =>
            (Raises (HTTPException 500 ("Speech generation failed: " ++ m)), t')
        | (Raises (SystemExit c), t') => (Raises (SystemExit c), t')
        end
  end.

End Handlers.

(** [health_check]: the two fields that depend on the state. *)
Definition health_check (tts_interface : option unit) (default_speaker : Val)
    : string * bool :=
  ("healthy",
   match tts_interface, default_speaker with
   | Some _, VNone => false
   | Some _, _ => true
   | None, _ => false
   end).

(** The status line of a response. *)
Definition status_code {A} (r : Outcome A) : option Z :=
  match r with
  | Done _ => Some 200%Z
  | Raises (HTTPException c _) => Some c
  | Raises _ => None
  end.

(** A backend on which everything works; the two custom voices are
    installed. *)
Definition demo_backend : Backend :=
  {| path_exists := fun _ => true;
     new_interface := fun _ => Gives tt;
     load_default_speaker := fun name => Gives (VDict [ ("name", VStr name) ]);
     load_speaker := fun path => Gives (VDict [ ("path", VStr path) ]);
     generate := fun _ _ _ => Gives {| audio_samples := [0; 1; 0]%Z |};
     new_temp_file := Gives "/tmp/tmpa1b2.wav";
     save := fun _ _ => Gives tt;
     read_file := fun _ => Gives [Byte.x52; Byte.x49; Byte.x46; Byte.x46];
     unlink := fun _ => Gives tt |}.

(** The same backend with a full disk: saving fails. *)
Definition full_disk_backend : Backend :=
  {| path_exists := fun _ => true;
     new_interface := fun _ => Gives tt;
     load_default_speaker := fun name => Gives (VDict [ ("name", VStr name) ]);
     load_speaker := fun path => Gives (VDict [ ("path", VStr path) ]);
     generate := fun _ _ _ => Gives {| audio_samples := [0; 1; 0]%Z |};
     new_temp_file := Gives "/tmp/tmpa1b2.wav";
     save := fun _ _ => Fails "No space left on device";
     read_file := fun _ => Gives [];
     unlink := fun _ => Gives tt |}.

(** A host on which no file exists. *)
Definition empty_backend : Backend :=
  {| path_exists := fun _ => false;
     new_interface := fun _ => Gives tt;
     load_default_speaker := fun name => Gives (VDict [ ("name", VStr name) ]);
     load_speaker := fun path => Gives (VDict [ ("path", VStr path) ]);
     generate := fun _ _ _ => Gives {| audio_samples := [0; 1; 0]%Z |};
     new_temp_file := Gives "/tmp/tmpa1b2.wav";
     save := fun _ _ => Gives tt;
     read_file := fun _ => Gives [];
     unlink := fun _ => Gives tt |}.

Definition demo_speaker : Val := VDict [ ("name", VStr "en-female-1-neutral") ].

Definition hello_request : TTSRequest :=
  {| text := "Hello, world!"; speaker_id := None; temperature := 75 # 100;
     language := "en" |}.

Definition stranger_request : TTSRequest :=
  {| text := "Hello, world!"; speaker_id := Some "somebody-else";
     temperature := 75 # 100; language := "en" |}.

End Service.

(** * Properties *)

(** ** Running monadic code in proofs *)

Ltac py_unfold :=
  unfold bind, try_except, try_finally, emit, print, set_shutdown, call, ret,
    raise, getitem in *.

(** Case analysis on an innermost scrutinee that blocks evaluation. *)
Ltac break_match :=
  match goal with
  | |- context [match ?x with _ => _ end] =>
      lazymatch x with
      | context [match _ with _ => _ end] => fail
      | _ => destruct x eqn:?
      end
  end.

Ltac py_run := py_unfold; simpl; repeat (break_match; simpl).

(** ** The memory guard *)

Section GuardFacts.

Variable w : World.

(** The memory check returns a verdict, never raises, and records exactly
    one event. *)
Lemma _check_memory_usage_runs (s : St) :
  exists b s',
    _check_memory_usage w s = (Return b, s')
    /\ trace s' = trace s ++ [EvCheckMemory]
    /\ out s' = out s
    /\ shutdown_event s' = shutdown_event s.
Proof.
  unfold _check_memory_usage, torch_cuda_is_available.
  py_run; eauto 7.
Qed.

(** Cleanup never raises and records exactly one event. *)
Lemma _cleanup_memory_runs (s : St) :
  exists s',
    _cleanup_memory w s = (Return tt, s')
    /\ trace s' = trace s ++ [EvCleanupMemory]
    /\ out s' = out s
    /\ shutdown_event s' = shutdown_event s.
Proof.
  unfold _cleanup_memory, torch_cuda_is_available.
  py_run; eauto 6.
Qed.

End GuardFacts.

(** ** [synthesize] *)

Section SynthesizeFacts.

Variable w : World.

Ltac use_cleanup :=
  match goal with
  | |- context [_cleanup_memory w ?st] =>
      let s' := fresh "s'" in
      let E := fresh "E" in
      let T := fresh "T" in
      let O := fresh "O" in
      let F := fresh "F" in
      destruct (_cleanup_memory_runs w st) as (s' & E & T & O & F);
      rewrite E; simpl in T, O, F; simpl
  end.

Ltac trace_norm := repeat rewrite <- app_assoc; simpl.

(** Every setting [synthesize] reads is present in every bundle. *)
Lemma quality_settings_complete (quality : Val) (k : string) :
  In k [ "generation_type"; "max_batch_size"; "dac_decoding_chunk";
         "max_length"; "temperature"; "repetition_penalty" ] ->
  lookup k (_get_quality_settings quality)
  = Some (get_default k (_get_quality_settings quality) VNone)
  /\ lookup k (_get_quality_settings quality) <> None.
Proof.
  intros H. unfold _get_quality_settings, get_default.
  destruct (eq_str quality "fast"); [| destruct (eq_str quality "balanced")];
    simpl in H;
    repeat (destruct H as [<- | H]; [split; [reflexivity | discriminate] |]);
    contradiction.
Qed.

(** An engine that is not loaded does nothing. *)
Lemma synthesize_not_loaded (self : OuteTTSEngine)
    (text output_path speaker_id language quality temperature : Val)
    (use_mirostat : bool) (s : St) :
  is_loaded self = false ->
  synthesize w self text output_path speaker_id language quality temperature
    use_mirostat s = (Return false, s).
Proof.
  intros H. unfold synthesize. rewrite H. reflexivity.
Qed.

(** The complete behaviour of [synthesize] on a loaded engine: it always
    returns, prints nothing, and its events have one of four shapes. *)
Lemma synthesize_runs (self : OuteTTSEngine)
    (text output_path speaker_id language quality temperature : Val)
    (use_mirostat : bool) (s : St) :
  is_loaded self = true ->
  exists b s' new,
    synthesize w self text output_path speaker_id language quality temperature
      use_mirostat s = (Return b, s')
    /\ out s' = out s
    /\ shutdown_event s' = shutdown_event s
    /\ trace s' = trace s ++ EvCheckMemory :: new
    /\ ((new = [] /\ b = false
         /\ (memory_admits w s = false \/ blank text = true))
        \/ (new = [EvCleanupMemory] /\ b = false
            /\ memory_admits w s = true /\ forall t, text <> VStr t)
        \/ (exists t,
              text = VStr t /\ blank text = false /\ memory_admits w s = true
              /\ let c := generation_config self (strip t) quality temperature
                            use_mirostat in
                 ((new = [EvGenerate c; EvCleanupMemory] /\ b = false)
                  \/ new = [EvGenerate c; EvSave output_path; EvCleanupMemory]))).
Proof.
  intros Hl. unfold synthesize, memory_admits. rewrite Hl. simpl.
  unfold try_except at 1. unfold bind at 1.
  destruct (_check_memory_usage_runs w s) as (ok & s1 & E1 & T1 & O1 & F1).
  rewrite E1. simpl.
  destruct ok; simpl.
  2:{ exists false, s1, []. unfold ret. repeat split; auto. }
  unfold bind at 1.
  destruct text; simpl;
    try (unfold raise; simpl; unfold bind; use_cleanup;
         eexists _, _, [EvCleanupMemory]; unfold ret;
         split; [reflexivity |];
         split; [congruence |]; split; [congruence |];
         split; [rewrite T, T1; trace_norm; reflexivity |];
         right; left; repeat split; auto; intros; discriminate).
  unfold ret at 1. simpl.
  destruct (String.eqb (strip s0) "") eqn:Hb.
  { exists false, s1, []. unfold ret. repeat split; auto. }
  destruct (quality_settings_complete quality "repetition_penalty") as [Q1 _];
    [simpl; tauto |].
  destruct (quality_settings_complete quality "generation_type") as [Q2 _];
    [simpl; tauto |].
  destruct (quality_settings_complete quality "max_batch_size") as [Q3 _];
    [simpl; tauto |].
  destruct (quality_settings_complete quality "dac_decoding_chunk") as [Q4 _];
    [simpl; tauto |].
  destruct (quality_settings_complete quality "max_length") as [Q5 _];
    [simpl; tauto |].
  unfold getitem. rewrite Q1, Q2, Q3, Q4, Q5.
  py_unfold. simpl.
  match goal with
  | |- context [interface_generate w _ ?cfg] =>
      change cfg
        with (generation_config self (strip s0) quality temperature use_mirostat)
  end.
  remember (generation_config self (strip s0) quality temperature use_mirostat)
    as c eqn:Hc.
  destruct (interface_generate w (clock s1) c) as [output | m]; simpl.
  - destruct (output_save w (S (clock s1)) output output_path) as [u | m]; simpl;
      use_cleanup;
      eexists _, _, [EvGenerate c; EvSave output_path; EvCleanupMemory];
      (split; [reflexivity |]);
      (split; [congruence |]); (split; [congruence |]);
      (split; [rewrite T, T1; trace_norm; reflexivity |]);
      right; right; exists s0; rewrite <- Hc; repeat split; auto.
  - use_cleanup.
    eexists _, _, [EvGenerate c; EvCleanupMemory].
    split; [reflexivity |].
    split; [congruence |]. split; [congruence |].
    split; [rewrite T, T1; trace_norm; reflexivity |].
    right; right; exists s0; rewrite <- Hc; repeat split; auto.
Qed.

(** Loaded or not, [synthesize] returns a boolean and prints nothing; a
    generate event carries the configuration built from the stripped text. *)
Lemma synthesize_total (self : OuteTTSEngine)
    (text output_path speaker_id language quality temperature : Val)
    (use_mirostat : bool) (s : St) :
  exists b s' new,
    synthesize w self text output_path speaker_id language quality temperature
      use_mirostat s = (Return b, s')
    /\ out s' = out s
    /\ shutdown_event s' = shutdown_event s
    /\ trace s' = trace s ++ new
    /\ ~ In EvAcquire new /\ ~ In EvRelease new
    /\ forall c, In (EvGenerate c) new ->
         exists t, text = VStr t
           /\ c = generation_config self (strip t) quality temperature use_mirostat.
Proof.
  destruct (is_loaded self) eqn:Hl.
  - destruct (synthesize_runs self text output_path speaker_id language quality
                temperature use_mirostat s Hl)
      as (b & s' & new & E & O & F & T & Hc).
    exists b, s', (EvCheckMemory :: new).
    repeat (split; [assumption |]).
    destruct Hc as [(-> & _) | [(-> & _) | (t & -> & _ & _ & [(-> & _) | ->])]];
      simpl; (split; [| split]); try (intros H; intuition discriminate);
      intros c H; exists t; split; [reflexivity | |reflexivity |];
      simpl in H; intuition congruence.
  - exists false, s, []. rewrite synthesize_not_loaded by assumption.
    rewrite app_nil_r. simpl. intuition.
Qed.

End SynthesizeFacts.

(** ** Quality presets *)

Lemma eq_str_false (v : Val) (lit : string) :
  v <> VStr lit -> eq_str v lit = false.
Proof.
  intros H. destruct v; simpl; try reflexivity.
  destruct (String.eqb_spec s lit); [subst; contradiction | reflexivity].
Qed.

(** C8: for every quality value other than "fast" and "balanced" -- hence
    for every name outside {fast, balanced, high} -- the preset lookup, a
    total function, returns the high bundle, which is not empty: it holds
    the six settings. *)
Theorem quality_unknown_falls_back_to_high (quality : Val) :
  quality <> VStr "fast" ->
  quality <> VStr "balanced" ->
  _get_quality_settings quality = high_settings
  /\ _get_quality_settings quality <> []
  /\ keys (_get_quality_settings quality)
     = [ "generation_type"; "max_batch_size"; "dac_decoding_chunk";
         "max_length"; "temperature"; "repetition_penalty" ].
Proof.
  intros Hf Hb. unfold _get_quality_settings.
  rewrite (eq_str_false _ _ Hf), (eq_str_false _ _ Hb).
  repeat split; discriminate.
Qed.

Lemma quality_unknown_falls_back_to_high_witness :
  VStr "ultra" <> VStr "fast"
  /\ VStr "ultra" <> VStr "balanced"
  /\ _get_quality_settings (VStr "ultra") = high_settings
  /\ _get_quality_settings (VStr "ultra") <> []
  /\ keys (_get_quality_settings (VStr "ultra"))
     = [ "generation_type"; "max_batch_size"; "dac_decoding_chunk";
         "max_length"; "temperature"; "repetition_penalty" ].
Proof.
  split; [discriminate |]. split; [discriminate |].
  apply (quality_unknown_falls_back_to_high (VStr "ultra")); discriminate.
Defined.

(** ** Validation, the guard and cleanup around a job *)

(** C9: a job whose text is empty after stripping makes [synthesize]
    return [False], and none of the events it records is a call of the
    backend's generate. *)
Theorem synthesize_blank_text_never_generates (w : World)
    (self : OuteTTSEngine) (t : string)
    (output_path speaker_id language quality temperature : Val)
    (use_mirostat : bool) (s : St) :
  strip t = "" ->
  exists s' new,
    synthesize w self (VStr t) output_path speaker_id language quality
      temperature use_mirostat s = (Return false, s')
    /\ trace s' = trace s ++ new
    /\ forall c, ~ In (EvGenerate c) new.
Proof.
  intros Hb.
  destruct (is_loaded self) eqn:Hl.
  - destruct (synthesize_runs w self (VStr t) output_path speaker_id language
                quality temperature use_mirostat s Hl)
      as (b & s' & new & E & _ & _ & T & Hc).
    destruct Hc as [(-> & -> & _) | [(_ & _ & _ & Hn) | (t' & _ & Hnb & _)]].
    + exists s', [EvCheckMemory]. repeat split; try assumption.
      intros c [H | []]. discriminate.
    + exfalso. apply (Hn t). reflexivity.
    + simpl in Hnb. rewrite Hb in Hnb. discriminate.
  - exists s, []. rewrite synthesize_not_loaded by assumption.
    rewrite app_nil_r. repeat split. intros c [].
Qed.

Lemma synthesize_blank_text_never_generates_witness :
  strip "   " = ""
  /\ exists s' new,
       synthesize demo_world demo_engine (VStr "   ") (VStr "/tmp/out2.wav")
         VNone (VStr "en") (VStr "high") (VFloat (4 # 10)) true start
       = (Return false, s')
       /\ trace s' = trace start ++ new
       /\ forall c, ~ In (EvGenerate c) new.
Proof.
  split; [reflexivity |].
  apply (synthesize_blank_text_never_generates demo_world demo_engine "   ").
  reflexivity.
Defined.

(** C1, as the specification states it, fails: a blank job on a loaded
    engine records the memory check and nothing else. *)
Lemma blank_job_is_not_cleaned_up :
  is_loaded demo_engine = true
  /\ trace (snd (synthesize demo_world demo_engine (VStr "   ")
                   (VStr "/tmp/out2.wav") VNone (VStr "en") (VStr "high")
                   (VFloat (4 # 10)) true start))
     = [EvCheckMemory]
  /\ ~ guarded (trace (snd (synthesize demo_world demo_engine (VStr "   ")
                              (VStr "/tmp/out2.wav") VNone (VStr "en")
                              (VStr "high") (VFloat (4 # 10)) true start))).
Proof.
  split; [reflexivity |]. split; [reflexivity |].
  intros [work H]. vm_compute in H.
  destruct work; simpl in H; discriminate.
Qed.

(** C1, amended: on a loaded engine the memory check is the first thing
    [synthesize] does.  When the guard rejects the job or the text is
    blank, nothing follows the check -- no backend work and no cleanup --
    and the result is [False].  Otherwise whatever backend work is done is
    followed by one cleanup, the last event, whether generation and saving
    succeed or fail. *)
Theorem synthesize_checks_first_and_cleans_after_work (w : World)
    (self : OuteTTSEngine)
    (text output_path speaker_id language quality temperature : Val)
    (use_mirostat : bool) (s : St) :
  is_loaded self = true ->
  exists b s' new,
    synthesize w self text output_path speaker_id language quality temperature
      use_mirostat s = (Return b, s')
    /\ trace s' = trace s ++ EvCheckMemory :: new
    /\ (memory_admits w s = false \/ blank text = true ->
        new = [] /\ b = false)
    /\ (memory_admits w s = true -> blank text = false ->
        exists work,
          new = work ++ [EvCleanupMemory] /\ Forall backend_work work).
Proof.
  intros Hl.
  destruct (synthesize_runs w self text output_path speaker_id language quality
              temperature use_mirostat s Hl)
    as (b & s' & new & E & _ & _ & T & Hc).
  exists b, s', new. split; [exact E |]. split; [exact T |].
  destruct Hc as [(-> & -> & Hr) | [(-> & -> & Ha & Hn) | (t & -> & Hnb & Ha & Hw)]].
  - split; [auto |]. intros Ha Hnb. destruct Hr; congruence.
  - split.
    + intros [H | H]; [congruence |].
      destruct text; simpl in H; try discriminate.
      exfalso. apply (Hn s0). reflexivity.
    + intros _ _. exists []. split; [reflexivity | constructor].
  - split; [intros [H | H]; congruence |].
    intros _ _. simpl in Hw. destruct Hw as [(-> & _) | ->].
    + eexists [_]. split; [reflexivity |].
      constructor; [left; eauto | constructor].
    + eexists [_; _]. split; [reflexivity |].
      constructor; [left; eauto |].
      constructor; [right; eauto | constructor].
Qed.

Lemma synthesize_checks_first_and_cleans_after_work_witness :
  is_loaded demo_engine = true
  /\ exists b s' new,
       synthesize demo_world demo_engine (VStr "Hello") (VStr "/tmp/out.wav")
         VNone (VStr "en") (VStr "fast") (VFloat (4 # 10)) true start
       = (Return b, s')
       /\ trace s' = trace start ++ EvCheckMemory :: new
       /\ (memory_admits demo_world start = false \/ blank (VStr "Hello") = true ->
           new = [] /\ b = false)
       /\ (memory_admits demo_world start = true -> blank (VStr "Hello") = false ->
           exists work,
             new = work ++ [EvCleanupMemory] /\ Forall backend_work work).
Proof.
  split; [reflexivity |].
  apply (synthesize_checks_first_and_cleans_after_work demo_world demo_engine).
  reflexivity.
Defined.

(** ** The [single] command *)

Section SingleFacts.

Variable w : World.

(** The constructor of a job touches no state. *)
Lemma SynthesisJob_new_pure (job_data : Val) (s s' : St) (r : Result SynthesisJob) :
  SynthesisJob_new job_data s = (r, s') -> s' = s.
Proof.
  unfold SynthesisJob_new. intros H.
  destruct job_data; py_unfold; try congruence.
  destruct (negb _); try congruence.
  destruct (lookup "id" d), (lookup "text" d), (lookup "output_path" d);
    congruence.
Qed.

(** The block after the construction of the job always prints exactly one
    line: the result of [synthesize] wrapped in a [SynthesisResult]. *)
Lemma single_job_runs (engine : OuteTTSEngine) (job : SynthesisJob) (s : St) :
  exists b s1 s' new,
    synthesize w engine (j_text job) (j_output_path job) VNone (VStr "en")
      (j_quality job) (j_temperature job) true s = (Return b, s1)
    /\ single_job w engine job s = (Return tt, s')
    /\ out s' = out s
                ++ [Dumps (VDict (asdict (SynthesisResult_new (j_id job) b
                                            (j_output_path job))))]
    /\ shutdown_event s' = shutdown_event s
    /\ trace s' = trace s ++ new
    /\ forall c, In (EvGenerate c) new ->
         exists t, j_text job = VStr t
           /\ c = generation_config engine (strip t) (j_quality job)
                    (j_temperature job) true.
Proof.
  destruct (synthesize_total w engine (j_text job) (j_output_path job) VNone
              (VStr "en") (j_quality job) (j_temperature job) true s)
    as (b & s1 & new & E & O & F & T & _ & _ & G).
  unfold single_job, bind, print. rewrite E. simpl.
  eexists b, s1, _, new. split; [reflexivity |]. split; [reflexivity |].
  simpl. rewrite O. auto.
Qed.

End SingleFacts.

(** C10: two jobs that agree on every field but [speaker] run identically
    -- same result, same events (so the same generate call), same output
    line -- and every generate call is made with the default speaker of the
    engine. *)
Theorem speaker_field_has_no_effect (w : World) (engine : OuteTTSEngine)
    (j1 j2 : SynthesisJob) (s : St) :
  j_id j1 = j_id j2 ->
  j_text j1 = j_text j2 ->
  j_output_path j1 = j_output_path j2 ->
  j_quality j1 = j_quality j2 ->
  j_temperature j1 = j_temperature j2 ->
  single_job w engine j1 s = single_job w engine j2 s
  /\ exists new,
       trace (snd (single_job w engine j1 s)) = trace s ++ new
       /\ forall c, In (EvGenerate c) new -> gc_speaker c = default_speaker engine.
Proof.
  intros Hi Ht Ho Hq Hp. split.
  - unfold single_job. rewrite Hi, Ht, Ho, Hq, Hp. reflexivity.
  - destruct (single_job_runs w engine j1 s)
      as (b & s1 & s' & new & _ & E & _ & _ & T & G).
    exists new. rewrite E. split; [exact T |].
    intros c Hc. destruct (G c Hc) as (t & _ & ->). reflexivity.
Qed.

Lemma speaker_field_has_no_effect_witness :
  j_speaker hello_job <> j_speaker whisper_job
  /\ j_id hello_job = j_id whisper_job
  /\ j_text hello_job = j_text whisper_job
  /\ j_output_path hello_job = j_output_path whisper_job
  /\ j_quality hello_job = j_quality whisper_job
  /\ j_temperature hello_job = j_temperature whisper_job
  /\ single_job demo_world demo_engine hello_job start
     = single_job demo_world demo_engine whisper_job start
  /\ exists new,
       trace (snd (single_job demo_world demo_engine hello_job start))
       = trace start ++ new
       /\ forall c, In (EvGenerate c) new ->
            gc_speaker c = default_speaker demo_engine.
Proof.
  split; [discriminate |].
  do 5 (split; [reflexivity |]).
  apply (speaker_field_has_no_effect demo_world demo_engine hello_job
           whisper_job start);
    reflexivity.
Defined.

(** C5, as the specification states it, fails: the job of the line
    [hello_line] asks for quality "fast" and gives no temperature; it is
    generated with 0.4, the default of the job, not with the 0.6 of the
    fast bundle. *)
Lemma fast_job_without_temperature_is_generated_at_default :
  trace (snd (handle_line demo_world demo_engine hello_line start))
  = [ EvCheckMemory;
      EvGenerate (generation_config demo_engine "Hello" (VStr "fast")
                    (VFloat (4 # 10)) true);
      EvSave (VStr "/tmp/out.wav");
      EvCleanupMemory ]
  /\ lookup "temperature" (_get_quality_settings (VStr "fast"))
     = Some (VFloat (6 # 10))
  /\ ~ uses_preset_temperature (VStr "fast")
        (generation_config demo_engine "Hello" (VStr "fast")
           (VFloat (4 # 10)) true).
Proof.
  split; [vm_compute; reflexivity |].
  split; [reflexivity |].
  unfold uses_preset_temperature. vm_compute. discriminate.
Qed.

(** C5, amended: the job's temperature is the value its JSON object gives,
    and 0.4 when it gives none; every generate call uses that temperature
    and takes generation type, batch size, decode chunk, maximal length and
    repetition penalty from the bundle the job's quality resolves to.  The
    temperature of the bundle is not used. *)
Theorem generation_uses_job_temperature_and_preset_rest (w : World)
    (engine : OuteTTSEngine) (d : Dict) (job : SynthesisJob) (s : St) :
  fst (SynthesisJob_new (VDict d) s) = Return job ->
  j_temperature job = get_default "temperature" d (VFloat (4 # 10))
  /\ exists new,
       trace (snd (single_job w engine job s)) = trace s ++ new
       /\ forall c, In (EvGenerate c) new ->
            let preset := _get_quality_settings (j_quality job) in
            sc_temperature (gc_sampler_config c) = j_temperature job
            /\ lookup "repetition_penalty" preset
               = Some (sc_repetition_penalty (gc_sampler_config c))
            /\ lookup "generation_type" preset = Some (gc_generation_type c)
            /\ lookup "max_batch_size" preset = Some (gc_max_batch_size c)
            /\ lookup "dac_decoding_chunk" preset = Some (gc_dac_decoding_chunk c)
            /\ lookup "max_length" preset = Some (gc_max_length c).
Proof.
  intros Hj. split.
  - unfold SynthesisJob_new in Hj. py_unfold.
    destruct (negb _); [discriminate |].
    destruct (lookup "id" d), (lookup "text" d), (lookup "output_path" d);
      try discriminate.
    simpl in Hj. injection Hj as <-. reflexivity.
  - destruct (single_job_runs w engine job s)
      as (b & s1 & s' & new & _ & E & _ & _ & T & G).
    exists new. rewrite E. split; [exact T |].
    intros c Hc preset. destruct (G c Hc) as (t & _ & ->). subst preset.
    simpl. split; [reflexivity |].
    repeat split; apply quality_settings_complete; simpl; tauto.
Qed.

Lemma generation_uses_job_temperature_and_preset_rest_witness :
  fst (SynthesisJob_new (VDict hello_job_data) start) = Return hello_job
  /\ j_temperature hello_job
     = get_default "temperature" hello_job_data (VFloat (4 # 10))
  /\ exists new,
       trace (snd (single_job demo_world demo_engine hello_job start))
       = trace start ++ new
       /\ forall c, In (EvGenerate c) new ->
            let preset := _get_quality_settings (j_quality hello_job) in
            sc_temperature (gc_sampler_config c) = j_temperature hello_job
            /\ lookup "repetition_penalty" preset
               = Some (sc_repetition_penalty (gc_sampler_config c))
            /\ lookup "generation_type" preset = Some (gc_generation_type c)
            /\ lookup "max_batch_size" preset = Some (gc_max_batch_size c)
            /\ lookup "dac_decoding_chunk" preset = Some (gc_dac_decoding_chunk c)
            /\ lookup "max_length" preset = Some (gc_max_length c).
Proof.
  split; [reflexivity |].
  apply (generation_uses_job_temperature_and_preset_rest demo_world demo_engine
           hello_job_data hello_job start).
  reflexivity.
Defined.

(** ** The command loop *)

Section Combinators.

Context {A B : Type}.

Lemma quiet_ret (a : A) : quiet (ret a).
Proof. intros s. simpl. repeat split. discriminate. Qed.

Lemma quiet_raise (e : Exn) : is_Exception e = true -> quiet (@raise A e).
Proof. intros H s. simpl. repeat split. intros e' [= <-]. exact H. Qed.

Lemma quiet_call (f : nat -> Answer A) : quiet (call f).
Proof.
  intros s. unfold call. destruct (f (clock s)); simpl; repeat split;
    try discriminate.
  intros e [= <-]. reflexivity.
Qed.

Lemma quiet_bind (m : Py A) (k : A -> Py B) :
  quiet m -> (forall a, quiet (k a)) -> quiet (bind m k).
Proof.
  intros Hm Hk s. unfold bind. specialize (Hm s).
  destruct (m s) as [[a | e] s1]; simpl in *.
  - destruct Hm as (O & F & _). specialize (Hk a s1).
    destruct Hk as (O' & F' & R'). rewrite O', F'. auto.
  - destruct Hm as (O & F & R). repeat split; auto.
    intros e0 [= <-]. apply (R e eq_refl).
Qed.

Lemma quiet_try_except (body : Py A) (handler : Exn -> Py A) :
  quiet body -> (forall e, quiet (handler e)) -> quiet (try_except body handler).
Proof.
  intros Hb Hh s. unfold try_except. specialize (Hb s).
  destruct (body s) as [[a | e] s1]; simpl in *.
  - destruct Hb as (O & F & _). repeat split; auto. discriminate.
  - destruct Hb as (O & F & R). rewrite (R e eq_refl).
    specialize (Hh e s1). destruct Hh as (O' & F' & R').
    rewrite O', F'. auto.
Qed.

End Combinators.

Lemma quiet_emit (e : Event) : quiet (emit e).
Proof. intros s. simpl. repeat split. discriminate. Qed.

Lemma quiet_getitem (d : Dict) (k : string) : quiet (getitem d k).
Proof.
  unfold getitem. destruct (lookup k d);
    [apply quiet_ret | apply quiet_raise; reflexivity].
Qed.

Ltac quiet_step :=
  first
    [ apply quiet_ret
    | apply quiet_emit
    | apply quiet_call
    | apply quiet_getitem
    | apply quiet_raise; reflexivity
    | apply quiet_bind; [| intros]
    | apply quiet_try_except; [| intros]
    | match goal with
      | |- quiet (if ?b then _ else _) => destruct b
      | |- quiet (match ?x with _ => _ end) => destruct x
      end ].

Ltac quiet_tac := repeat quiet_step.

Section LoopFacts.

Variable w : World.
Variable engine : OuteTTSEngine.

Lemma quiet_cleanup : quiet (_cleanup_memory w).
Proof. unfold _cleanup_memory, torch_cuda_is_available. quiet_tac. Qed.

Lemma quiet_synthesize
    (text output_path speaker_id language quality temperature : Val)
    (use_mirostat : bool) :
  quiet (synthesize w engine text output_path speaker_id language quality
           temperature use_mirostat).
Proof.
  intros s.
  destruct (synthesize_total w engine text output_path speaker_id language
              quality temperature use_mirostat s)
    as (b & s' & new & E & O & F & _).
  rewrite E. simpl. repeat split; auto. discriminate.
Qed.

Lemma quiet_get_model_info : quiet (get_model_info w engine).
Proof. unfold get_model_info, torch_cuda_is_available. quiet_tac. Qed.

Lemma quiet_play_audio (file_path quality_settings : Val) :
  quiet (play_audio w file_path quality_settings).
Proof. unfold play_audio. quiet_tac. Qed.

Lemma quiet_get_audio_info (file_path : Val) :
  quiet (get_audio_info w file_path).
Proof. unfold get_audio_info. quiet_tac. Qed.

Lemma quiet_dot_get (x : Val) (k : string) (default : Val) :
  quiet (dot_get x k default).
Proof. unfold dot_get. quiet_tac. Qed.

Lemma quiet_subscript (x : Val) (k : string) : quiet (subscript x k).
Proof. unfold subscript. quiet_tac. Qed.

Lemma quiet_SynthesisJob_new (job_data : Val) : quiet (SynthesisJob_new job_data).
Proof. unfold SynthesisJob_new. quiet_tac. Qed.

Lemma quiet_loads (line : string) : quiet (loads w line).
Proof. unfold loads. quiet_tac. Qed.

Lemma replies_bind {A} (m : Py A) (k : A -> Py bool) :
  quiet m -> (forall a, replies (k a) false) -> replies (bind m k) false.
Proof.
  intros Hm Hk s. unfold bind. specialize (Hm s).
  destruct (m s) as [[a | e] s1]; simpl in *.
  - destruct Hm as (O & F & _). specialize (Hk a s1).
    destruct (k a s1) as [[b | e] s2]; rewrite <- O, <- F; exact Hk.
  - destruct Hm as (O & F & R). auto.
Qed.

Lemma replies_bind_ret {A} (a : A) (k : A -> Py bool) (brk : bool) :
  replies (k a) brk -> replies (bind (ret a) k) brk.
Proof. intros H s. exact (H s). Qed.

Lemma replies_print (l : Line) (b : bool) : replies (print l ;;; ret b) b.
Proof. intros s. simpl. eauto. Qed.

Lemma replies_single_job (job : SynthesisJob) :
  replies (single_job w engine job ;;; ret false) false.
Proof.
  intros s. unfold bind.
  destruct (single_job_runs w engine job s)
    as (b & s1 & s' & new & _ & E & O & F & _).
  rewrite E. simpl. eauto.
Qed.

Lemma replies_cleanup :
  replies (_cleanup_memory w ;;;
           print (Dumps (VDict [ ("status", VStr "cleaned") ])) ;;; ret true)
    true.
Proof.
  intros s. unfold bind.
  destruct (_cleanup_memory_runs w s) as (s' & E & _ & O & F).
  rewrite E. simpl. rewrite O, F. eauto.
Qed.

Lemma eq_str_exclusive (v : Val) (a b : string) :
  eq_str v a = true -> String.eqb a b = false -> eq_str v b = false.
Proof.
  destruct v; simpl; try discriminate.
  intros H. apply String.eqb_eq in H. subst. auto.
Qed.

(** The [try] block prints one line, or raises before printing; it ends
    in [break] exactly on a cleanup command. *)
Lemma dispatch_replies (line : string) :
  replies (dispatch w engine line) (is_cleanup_line w line).
Proof.
  unfold dispatch, is_cleanup_line, loads.
  destruct (json_loads w (strip line)) as [command | m].
  2:{ intros s. simpl. auto. }
  destruct command as [| b | z | q | str | l | d | g];
    try (intros s; simpl; auto; fail).
  apply replies_bind_ret. cbv beta.
  unfold dot_get at 1. cbv beta iota.
  apply replies_bind_ret. cbv beta.
  set (ct := get_default "type" d VNone).
  destruct (eq_str ct "single") eqn:E1; cbv iota.
  { rewrite (eq_str_exclusive _ _ "cleanup" E1 eq_refl).
    apply replies_bind; [apply quiet_subscript | intros job_data].
    apply replies_bind; [apply quiet_SynthesisJob_new | intros job].
    apply replies_single_job. }
  destruct (eq_str ct "memory_usage") eqn:E2; cbv iota.
  { rewrite (eq_str_exclusive _ _ "cleanup" E2 eq_refl).
    apply replies_bind; [apply quiet_get_model_info | intros info].
    apply replies_bind; [apply quiet_getitem | intros usage].
    apply replies_print. }
  destruct (eq_str ct "play_audio") eqn:E3; cbv iota.
  { rewrite (eq_str_exclusive _ _ "cleanup" E3 eq_refl).
    apply replies_bind; [apply quiet_dot_get | intros file_path].
    apply replies_bind; [apply quiet_dot_get | intros quality_settings].
    destruct (truthy file_path); cbv iota; [| apply replies_print].
    apply replies_bind; [apply quiet_play_audio | intros result].
    apply replies_print. }
  destruct (eq_str ct "audio_info") eqn:E4; cbv iota.
  { rewrite (eq_str_exclusive _ _ "cleanup" E4 eq_refl).
    apply replies_bind; [apply quiet_dot_get | intros file_path].
    destruct (truthy file_path); cbv iota; [| apply replies_print].
    apply replies_bind; [apply quiet_get_audio_info | intros result].
    apply replies_print. }
  destruct (eq_str ct "cleanup") eqn:E5; cbv iota.
  - apply replies_cleanup.
  - apply replies_print.
Qed.

(** One iteration prints exactly one line and never raises. *)
Lemma handle_line_runs (line : string) (s : St) :
  exists r s',
    handle_line w engine line s = (Return (is_cleanup_line w line), s')
    /\ out s' = out s ++ [r]
    /\ shutdown_event s' = shutdown_event s.
Proof.
  unfold handle_line, try_except.
  pose proof (dispatch_replies line s) as H.
  destruct (dispatch w engine line s) as [[b | e] s1].
  - destruct H as (-> & (l & O) & F). eauto.
  - destruct H as (-> & O & F & X). rewrite X.
    destruct e; try discriminate; unfold bind, print, ret; simpl;
      rewrite <- O, <- F;
      (do 2 eexists; split; [reflexivity | simpl; split; reflexivity]).
Qed.

End LoopFacts.

Section ErrorFacts.

Variable w : World.
Variable engine : OuteTTSEngine.

(** What one iteration does with a malformed line or an unknown tag. *)
Lemma handle_line_error (line : string) (s : St) :
  error_command w line ->
  exists m,
    handle_line w engine line s
    = (Return false,
       {| clock := clock s; trace := trace s;
          out := out s ++ [error_line m];
          shutdown_event := shutdown_event s |}).
Proof.
  intros [(m & H) | (d & H & H1 & H2 & H3 & H4 & H5)];
    unfold handle_line, dispatch, loads, try_except; rewrite H.
  - eexists. reflexivity.
  - unfold dot_get, bind, ret. cbv beta iota.
    rewrite H1, H2, H3, H4, H5. eexists. reflexivity.
Qed.

End ErrorFacts.

(** C3: while the shutdown flag is unset, the loop returns having
    answered every line it received -- the lines up to and including the
    first cleanup command -- with exactly one response each, well-formed
    or not, the responses in the order of the lines.  When the next line
    is malformed JSON or carries an unknown tag, its one response is an
    error object and the loop goes on with the lines that follow. *)
Theorem command_loop_answers_every_line_in_order (w : World)
    (engine : OuteTTSEngine) (stdin : list string) (s : St) :
  shutdown_event s = false ->
  exists s' responses,
    command_loop w engine stdin s = (Return tt, s')
    /\ answered w engine s (served w stdin) responses s'
    /\ out s' = out s ++ responses
    /\ length responses = length (served w stdin)
    /\ forall line rest,
         stdin = line :: rest -> error_command w line ->
         exists r s1,
           handle_line w engine line s = (Return false, s1)
           /\ out s1 = out s ++ [r]
           /\ is_error_line r
           /\ command_loop w engine stdin s = command_loop w engine rest s1.
Proof.
  revert s. induction stdin as [| line rest IH]; intros s Hs.
  - exists s, []. simpl. rewrite app_nil_r.
    repeat split; try constructor. intros ? ? [=].
  - destruct (handle_line_runs w engine line s) as (r & s1 & E & O & F).
    assert (L : command_loop w engine (line :: rest) s
                = if is_cleanup_line w line then (Return tt, s1)
                  else command_loop w engine rest s1).
    { simpl. unfold bind at 1. unfold is_set. rewrite Hs.
      unfold bind. rewrite E. destruct (is_cleanup_line w line); reflexivity. }
    assert (X : forall line0 rest0,
                 line :: rest = line0 :: rest0 -> error_command w line0 ->
                 exists r0 s0,
                   handle_line w engine line0 s = (Return false, s0)
                   /\ out s0 = out s ++ [r0]
                   /\ is_error_line r0
                   /\ command_loop w engine (line :: rest) s
                      = command_loop w engine rest0 s0).
    { intros line0 rest0 [= <- <-] He.
      destruct (handle_line_error w engine line s He) as (m & Hm).
      rewrite Hm in E. injection E as Hc <-.
      rewrite L, <- Hc.
      eexists _, _. split; [exact Hm |]. split; [reflexivity |].
      split; [exists m; reflexivity | reflexivity]. }
    rewrite L in X. rewrite L. simpl served.
    destruct (is_cleanup_line w line).
    + exists s1, [r]. split; [reflexivity |].
      split; [econstructor; [exact E | exact O | constructor] |].
      split; [exact O |]. split; [reflexivity | exact X].
    + destruct (IH s1) as (s' & rs & E' & A' & O' & N' & _);
        [congruence |].
      exists s', (r :: rs). split; [exact E' |].
      split; [econstructor; [exact E | exact O | exact A'] |].
      split; [rewrite O', O, <- app_assoc; reflexivity |].
      split; [simpl; congruence | exact X].
Qed.

Lemma command_loop_answers_every_line_in_order_witness :
  shutdown_event start = false
  /\ length (served demo_world demo_stdin) = 4
  /\ exists s' responses,
       command_loop demo_world demo_engine demo_stdin start = (Return tt, s')
       /\ answered demo_world demo_engine start (served demo_world demo_stdin)
            responses s'
       /\ out s' = out start ++ responses
       /\ length responses = length (served demo_world demo_stdin)
       /\ forall line rest,
            demo_stdin = line :: rest -> error_command demo_world line ->
            exists r s1,
              handle_line demo_world demo_engine line start = (Return false, s1)
              /\ out s1 = out start ++ [r]
              /\ is_error_line r
              /\ command_loop demo_world demo_engine demo_stdin start
                 = command_loop demo_world demo_engine rest s1.
Proof.
  split; [reflexivity |]. split; [reflexivity |].
  apply (command_loop_answers_every_line_in_order demo_world demo_engine
           demo_stdin start).
  reflexivity.
Defined.

(** ** The response to a [single] command *)

(** C4, as the specification states it, fails: the job of [hello_line] is
    synthesized and saved, and its response reports success with an
    [audio_size] of 0 and a [duration] of 0.0. *)
Lemma successful_job_reports_size_zero :
  out (snd (handle_line demo_world demo_engine hello_line start))
  = [ Dumps (VDict [ ("job_id", VStr "1");
                     ("success", VBool true);
                     ("error", VNone);
                     ("duration", VFloat (0 # 1));
                     ("audio_path", VStr "/tmp/out.wav");
                     ("audio_size", VInt 0) ]) ]
  /\ forall l,
       In l (out (snd (handle_line demo_world demo_engine hello_line start))) ->
       ~ positive_audio_size l.
Proof.
  split; [vm_compute; reflexivity |].
  intros l H. vm_compute in H. destruct H as [<- | []].
  intros (d & n & [= <-] & L & P). vm_compute in L.
  injection L as <-. discriminate P.
Qed.

(** C4, amended: for a [single] command whose job is synthesized and saved
    successfully, the one response carries the job's id, [success = true],
    the job's output path as [audio_path], no error, and the defaults of
    the result record for the rest: [audio_size = 0] and [duration = 0.0].
    Neither size nor elapsed time is measured. *)
Theorem successful_single_response (w : World) (engine : OuteTTSEngine)
    (line : string) (d : Dict) (job_data : Val) (job : SynthesisJob) (s : St) :
  json_loads w (strip line) = Gives (VDict d) ->
  lookup "type" d = Some (VStr "single") ->
  lookup "job" d = Some job_data ->
  fst (SynthesisJob_new job_data s) = Return job ->
  fst (synthesize w engine (j_text job) (j_output_path job) VNone (VStr "en")
         (j_quality job) (j_temperature job) true s) = Return true ->
  exists s',
    handle_line w engine line s = (Return false, s')
    /\ out s' = out s
                ++ [ Dumps (VDict [ ("job_id", j_id job);
                                    ("success", VBool true);
                                    ("error", VNone);
                                    ("duration", VFloat (0 # 1));
                                    ("audio_path", j_output_path job);
                                    ("audio_size", VInt 0) ]) ].
Proof.
  intros H1 H2 H3 H4 H5.
  destruct (single_job_runs w engine job s)
    as (b & s1 & s' & new & E & R & O & _).
  rewrite E in H5. simpl in H5. injection H5 as ->.
  destruct (SynthesisJob_new job_data s) as [rj sj] eqn:EJ.
  pose proof (SynthesisJob_new_pure _ _ _ _ EJ) as ->.
  simpl in H4. subst rj.
  exists s'. split; [| exact O].
  unfold handle_line, dispatch, loads, try_except. rewrite H1.
  unfold bind, ret, dot_get. cbv beta iota.
  unfold get_default. rewrite H2.
  unfold subscript, getitem. rewrite H3. unfold ret.
  change (eq_str (VStr "single") "single") with true. cbv beta iota.
  rewrite EJ. cbv beta iota. rewrite R. reflexivity.
Qed.

Lemma successful_single_response_witness :
  json_loads demo_world (strip hello_line)
  = Gives (VDict [ ("type", VStr "single"); ("job", VDict hello_job_data) ])
  /\ lookup "type" [ ("type", VStr "single"); ("job", VDict hello_job_data) ]
     = Some (VStr "single")
  /\ lookup "job" [ ("type", VStr "single"); ("job", VDict hello_job_data) ]
     = Some (VDict hello_job_data)
  /\ fst (SynthesisJob_new (VDict hello_job_data) start) = Return hello_job
  /\ fst (synthesize demo_world demo_engine (j_text hello_job)
            (j_output_path hello_job) VNone (VStr "en") (j_quality hello_job)
            (j_temperature hello_job) true start) = Return true
  /\ exists s',
       handle_line demo_world demo_engine hello_line start = (Return false, s')
       /\ out s' = out start
                   ++ [ Dumps (VDict [ ("job_id", j_id hello_job);
                                       ("success", VBool true);
                                       ("error", VNone);
                                       ("duration", VFloat (0 # 1));
                                       ("audio_path", j_output_path hello_job);
                                       ("audio_size", VInt 0) ]) ].
Proof.
  do 5 (split; [reflexivity |]).
  apply (successful_single_response demo_world demo_engine hello_line
           [ ("type", VStr "single"); ("job", VDict hello_job_data) ]
           (VDict hello_job_data) hello_job start);
    reflexivity.
Defined.

(** ** The [memory_usage] command *)

Lemma lookup_absent (k : string) (d : Dict) :
  ~ In k (keys d) -> lookup k d = None.
Proof.
  induction d as [| [k' v] d IH]; simpl; [reflexivity |].
  intros H. destruct (String.eqb_spec k k') as [-> | _].
  - exfalso. apply H. left. reflexivity.
  - apply IH. intros X. apply H. right. exact X.
Qed.

(** The object [get_model_info] stores under [memory_usage]. *)
Lemma get_model_info_memory_usage (w : World) (engine : OuteTTSEngine) (s : St) :
  exists info usage s',
    get_model_info w engine s = (Return info, s')
    /\ out s' = out s
    /\ lookup "memory_usage" info = Some (VDict usage)
    /\ lookup "model_loaded" usage = Some (VBool (is_loaded engine))
    /\ lookup "gpu_available" usage = Some (VBool (cuda_is_available w (clock s)))
    /\ (keys usage = [ "model_loaded"; "gpu_available" ]
        \/ keys usage = [ "model_loaded"; "gpu_available"; "gpu_allocated_gb";
                          "gpu_reserved_gb"; "gpu_total_gb"; "gpu_device_count" ]
        \/ keys usage = [ "model_loaded"; "gpu_available"; "gpu_error" ]).
Proof.
  unfold get_model_info, torch_cuda_is_available.
  py_run;
    (do 3 eexists; split; [reflexivity |]; simpl;
     split; [reflexivity |]; split; [reflexivity |];
     split; [reflexivity |]; split; [reflexivity |];
     first [ left; reflexivity | right; left; reflexivity
           | right; right; reflexivity ]).
Qed.

(** C7, as the specification states it, fails: on a host with a GPU the
    response to [memory_usage] holds the model and GPU figures under other
    names, and no field [available]. *)
Lemma memory_usage_is_not_a_memory_status :
  out (snd (handle_line gpu_world demo_engine (typed_line "memory_usage") start))
  = [ Dumps (VDict [ ("model_loaded", VBool true);
                     ("gpu_available", VBool true);
                     ("gpu_allocated_gb", VFloat (to_gb (1 * GiB)));
                     ("gpu_reserved_gb", VFloat (to_gb (2 * GiB)));
                     ("gpu_total_gb", VFloat (to_gb (8 * GiB)));
                     ("gpu_device_count", VInt 1) ]) ]
  /\ forall l,
       In l (out (snd (handle_line gpu_world demo_engine
                         (typed_line "memory_usage") start))) ->
       ~ memory_status l.
Proof.
  split; [vm_compute; reflexivity |].
  intros l H. vm_compute in H. destruct H as [<- | []].
  intros (d & al & re & to & av & a & t & [= <-] & _ & _ & _ & L & _).
  vm_compute in L. discriminate L.
Qed.

(** The object [get_model_info] stores under [memory_usage], field by
    field: what the second probe for a GPU and the four device queries
    decide. *)
Lemma get_model_info_usage_by_case (w : World) (engine : OuteTTSEngine)
    (s : St) :
  exists info usage s',
    get_model_info w engine s = (Return info, s')
    /\ out s' = out s
    /\ lookup "memory_usage" info = Some (VDict usage)
    /\ (cuda_is_available w (S (clock s)) = false ->
        usage = [ ("model_loaded", VBool (is_loaded engine));
                  ("gpu_available", VBool (cuda_is_available w (clock s))) ])
    /\ (cuda_is_available w (S (clock s)) = true ->
        forall allocated reserved total count,
          cuda_memory_allocated w (S (S (clock s))) = Gives allocated ->
          cuda_memory_reserved w (S (S (S (clock s)))) = Gives reserved ->
          cuda_total_memory w (S (S (S (S (clock s))))) = Gives total ->
          cuda_device_count w (S (S (S (S (S (clock s)))))) = Gives count ->
          usage = [ ("model_loaded", VBool (is_loaded engine));
                    ("gpu_available", VBool (cuda_is_available w (clock s)));
                    ("gpu_allocated_gb", VFloat (to_gb allocated));
                    ("gpu_reserved_gb", VFloat (to_gb reserved));
                    ("gpu_total_gb", VFloat (to_gb total));
                    ("gpu_device_count", VInt count) ])
    /\ (cuda_is_available w (S (clock s)) = true ->
        forall m,
          (cuda_memory_allocated w (S (S (clock s))) = Fails m
           \/ (exists allocated,
                 cuda_memory_allocated w (S (S (clock s))) = Gives allocated
                 /\ (cuda_memory_reserved w (S (S (S (clock s)))) = Fails m
                     \/ (exists reserved,
                           cuda_memory_reserved w (S (S (S (clock s))))
                           = Gives reserved
                           /\ (cuda_total_memory w (S (S (S (S (clock s)))))
                               = Fails m
                               \/ (exists total,
                                     cuda_total_memory w
                                       (S (S (S (S (clock s))))) = Gives total
                                     /\ cuda_device_count w
                                          (S (S (S (S (S (clock s))))))
                                        = Fails m)))))) ->
          usage = [ ("model_loaded", VBool (is_loaded engine));
                    ("gpu_available", VBool (cuda_is_available w (clock s)));
                    ("gpu_error", VStr m) ]).
Proof.
  unfold get_model_info, torch_cuda_is_available. py_unfold. simpl.
  destruct (cuda_is_available w (S (clock s))) eqn:G; simpl.
  2:{ do 3 eexists. split; [reflexivity |]. simpl.
      split; [reflexivity |]. split; [reflexivity |].
      split; [reflexivity |]. split; intros; discriminate. }
  destruct (cuda_memory_allocated w (S (S (clock s)))) as [a | ma] eqn:A; simpl.
  2:{ do 3 eexists. split; [reflexivity |]. simpl.
      split; [reflexivity |]. split; [reflexivity |].
      split; [discriminate |]. split; [intros; discriminate |].
      intros _ m [[= <-] | (? & [=] & _)]. reflexivity. }
  destruct (cuda_memory_reserved w (S (S (S (clock s))))) as [r | mr] eqn:R;
    simpl.
  2:{ do 3 eexists. split; [reflexivity |]. simpl.
      split; [reflexivity |]. split; [reflexivity |].
      split; [discriminate |]. split; [intros; discriminate |].
      intros _ m [[=] | (? & _ & [[= <-] | (? & [=] & _)])]. reflexivity. }
  destruct (cuda_total_memory w (S (S (S (S (clock s)))))) as [t | mt] eqn:T;
    simpl.
  2:{ do 3 eexists. split; [reflexivity |]. simpl.
      split; [reflexivity |]. split; [reflexivity |].
      split; [discriminate |]. split; [intros; discriminate |].
      intros _ m [[=] | (? & _ & [[=] | (? & _ & [[= <-] | (? & [=] & _)])])].
      reflexivity. }
  destruct (cuda_device_count w (S (S (S (S (S (clock s))))))) as [c | mc] eqn:C;
    simpl.
  - do 3 eexists. split; [reflexivity |]. simpl.
    split; [reflexivity |]. split; [reflexivity |].
    split; [discriminate |]. split.
    + intros _ a' r' t' c' [= <-] [= <-] [= <-] [= <-]. reflexivity.
    + intros _ m [[=] | (? & _ & [[=] | (? & _ & [[=] | (? & _ & [=])])])].
  - do 3 eexists. split; [reflexivity |]. simpl.
    split; [reflexivity |]. split; [reflexivity |].
    split; [discriminate |]. split; [intros; discriminate |].
    intros _ m [[=] | (? & _ & [[=] | (? & _ & [[=] | (? & _ & [= <-])])])].
    reflexivity.
Qed.

(** C7, amended: every [memory_usage] command is answered by one status
    object.  It always holds [model_loaded] and [gpu_available].  When no
    GPU is available it holds nothing else.  When a GPU is available and
    the four device queries answer, it also holds [gpu_allocated_gb],
    [gpu_reserved_gb] and [gpu_total_gb] -- the byte counts divided by
    1024**3 -- and [gpu_device_count]; when a query raises, it holds
    [gpu_error] with the message of the first failure instead.  It has no
    field named [allocated], [reserved], [total] or [available]. *)
Theorem memory_usage_response (w : World) (engine : OuteTTSEngine)
    (line : string) (d : Dict) (s : St) :
  json_loads w (strip line) = Gives (VDict d) ->
  lookup "type" d = Some (VStr "memory_usage") ->
  exists usage s',
    handle_line w engine line s = (Return false, s')
    /\ out s' = out s ++ [Dumps (VDict usage)]
    /\ lookup "model_loaded" usage = Some (VBool (is_loaded engine))
    /\ lookup "gpu_available" usage = Some (VBool (cuda_is_available w (clock s)))
    /\ (keys usage = [ "model_loaded"; "gpu_available" ]
        \/ keys usage = [ "model_loaded"; "gpu_available"; "gpu_allocated_gb";
                          "gpu_reserved_gb"; "gpu_total_gb"; "gpu_device_count" ]
        \/ keys usage = [ "model_loaded"; "gpu_available"; "gpu_error" ])
    /\ (forall k, In k [ "allocated"; "reserved"; "total"; "available" ] ->
        lookup k usage = None)
    /\ (cuda_is_available w (S (clock s)) = false ->
        usage = [ ("model_loaded", VBool (is_loaded engine));
                  ("gpu_available", VBool (cuda_is_available w (clock s))) ])
    /\ (cuda_is_available w (S (clock s)) = true ->
        forall allocated reserved total count,
          cuda_memory_allocated w (S (S (clock s))) = Gives allocated ->
          cuda_memory_reserved w (S (S (S (clock s)))) = Gives reserved ->
          cuda_total_memory w (S (S (S (S (clock s))))) = Gives total ->
          cuda_device_count w (S (S (S (S (S (clock s)))))) = Gives count ->
          usage = [ ("model_loaded", VBool (is_loaded engine));
                    ("gpu_available", VBool (cuda_is_available w (clock s)));
                    ("gpu_allocated_gb", VFloat (to_gb allocated));
                    ("gpu_reserved_gb", VFloat (to_gb reserved));
                    ("gpu_total_gb", VFloat (to_gb total));
                    ("gpu_device_count", VInt count) ])
    /\ (cuda_is_available w (S (clock s)) = true ->
        forall m,
          (cuda_memory_allocated w (S (S (clock s))) = Fails m
           \/ (exists allocated,
                 cuda_memory_allocated w (S (S (clock s))) = Gives allocated
                 /\ (cuda_memory_reserved w (S (S (S (clock s)))) = Fails m
                     \/ (exists reserved,
                           cuda_memory_reserved w (S (S (S (clock s))))
                           = Gives reserved
                           /\ (cuda_total_memory w (S (S (S (S (clock s)))))
                               = Fails m
                               \/ (exists total,
                                     cuda_total_memory w
                                       (S (S (S (S (clock s))))) = Gives total
                                     /\ cuda_device_count w
                                          (S (S (S (S (S (clock s))))))
                                        = Fails m)))))) ->
          usage = [ ("model_loaded", VBool (is_loaded engine));
                    ("gpu_available", VBool (cuda_is_available w (clock s)));
                    ("gpu_error", VStr m) ]).
Proof.
  intros H1 H2.
  destruct (get_model_info_memory_usage w engine s)
    as (info & usage & s1 & E & O & L & M & G & K).
  destruct (get_model_info_usage_by_case w engine s)
    as (info' & usage' & s1' & E' & _ & L' & C1 & C2 & C3).
  rewrite E in E'. injection E' as <- <-.
  rewrite L in L'. injection L' as <-.
  exists usage. eexists. split.
  - unfold handle_line, dispatch, loads, try_except. rewrite H1.
    unfold bind, dot_get, get_default, ret. cbv beta iota.
    rewrite H2. cbv beta iota.
    change (eq_str (VStr "memory_usage") "single") with false.
    change (eq_str (VStr "memory_usage") "memory_usage") with true.
    cbv beta iota. rewrite E. unfold getitem. rewrite L. reflexivity.
  - simpl. rewrite O. repeat split; auto.
    intros k Hk. apply lookup_absent.
    simpl in Hk.
    destruct K as [-> | [-> | ->]]; simpl;
      intuition (subst; discriminate).
Qed.

Lemma memory_usage_response_witness :
  json_loads gpu_world (strip (typed_line "memory_usage"))
  = Gives (VDict [ ("type", VStr "memory_usage") ])
  /\ lookup "type" [ ("type", VStr "memory_usage") ] = Some (VStr "memory_usage")
  /\ cuda_is_available gpu_world (S (clock start)) = true
  /\ exists usage s',
       handle_line gpu_world demo_engine (typed_line "memory_usage") start
       = (Return false, s')
       /\ out s' = out start ++ [Dumps (VDict usage)]
       /\ usage = [ ("model_loaded", VBool (is_loaded demo_engine));
                    ("gpu_available",
                      VBool (cuda_is_available gpu_world (clock start)));
                    ("gpu_allocated_gb", VFloat (to_gb (1 * GiB)));
                    ("gpu_reserved_gb", VFloat (to_gb (2 * GiB)));
                    ("gpu_total_gb", VFloat (to_gb (8 * GiB)));
                    ("gpu_device_count", VInt 1) ]
       /\ forall k, In k [ "allocated"; "reserved"; "total"; "available" ] ->
            lookup k usage = None.
Proof.
  do 3 (split; [reflexivity |]).
  destruct (memory_usage_response gpu_world demo_engine
              (typed_line "memory_usage") [ ("type", VStr "memory_usage") ] start
              eq_refl eq_refl)
    as (usage & s' & E & O & _ & _ & _ & N & _ & G & _).
  exists usage, s'. split; [exact E |]. split; [exact O |].
  split; [| exact N].
  apply (G eq_refl (1 * GiB)%Z (2 * GiB)%Z (8 * GiB)%Z 1%Z); reflexivity.
Defined.

(** ** The lock of the engine *)

(** Loading the model runs between taking and releasing [self.mu],
    whether the backend fails or not. *)
Lemma _load_model_runs_under_lock (w : World) (self : OuteTTSEngine) (s : St) :
  exists new,
    trace (snd (_load_model w self s)) = trace s ++ new /\ under_lock new.
Proof.
  unfold _load_model, under_lock. py_run;
    (eexists; split; [repeat rewrite <- app_assoc; simpl; reflexivity |]);
    first [ eexists [_]; reflexivity | eexists [_; _]; reflexivity ].
Qed.

(** C2 (the code departs from the claim): [synthesize] never takes the
    lock of the engine.  [_load_model] runs under [self.mu]; the events of
    [synthesize], for every job and every state, contain no acquisition
    and no release of it, so nothing in the engine keeps two callers of
    [synthesize] apart. *)
Theorem synthesize_takes_no_lock (w : World) (self : OuteTTSEngine)
    (text output_path speaker_id language quality temperature : Val)
    (use_mirostat : bool) (s : St) :
  (exists new,
     trace (snd (_load_model w self s)) = trace s ++ new /\ under_lock new)
  /\ exists new,
       trace (snd (synthesize w self text output_path speaker_id language
                     quality temperature use_mirostat s))
       = trace s ++ new
       /\ ~ In EvAcquire new
       /\ ~ In EvRelease new
       /\ ~ under_lock new.
Proof.
  split; [apply _load_model_runs_under_lock |].
  destruct (synthesize_total w self text output_path speaker_id language quality
              temperature use_mirostat s)
    as (b & s' & new & E & _ & _ & T & NA & NR & _).
  exists new. rewrite E. repeat split; auto.
  intros [body ->]. apply NA. left. reflexivity.
Qed.

(** ** The signal handler *)

(** C6 (the code departs from the claim): the handler sets the shutdown
    flag and then calls a method [cleanup] that the engine does not have.
    In the persistent mode, where [engine_instance] is set, the call raises
    [AttributeError]: no cleanup runs, [sys.exit(0)] is never reached, and
    a signal that arrives while the loop waits for input ends the process
    through the outer handler of [main] with status 1.  When no engine is
    registered the handler exits with status 0, again without cleanup. *)
Theorem signal_handler_never_cleans_up (w : World) (engine : OuteTTSEngine)
    (s : St) :
  signal_handler w (Some engine) s
  = (Raise (AttributeError "'OuteTTSEngine' object has no attribute 'cleanup'"),
     {| clock := clock s; trace := trace s ++ [EvShutdownSet]; out := out s;
        shutdown_event := true |})
  /\ main_signalled w engine s
     = (Raise (SystemExit 1),
        {| clock := clock s; trace := trace s ++ [EvShutdownSet];
           out := out s
                  ++ [Text "Error: 'OuteTTSEngine' object has no attribute 'cleanup'"];
           shutdown_event := true |})
  /\ exit_status (fst (main_signalled w engine s)) = 1%Z
  /\ signal_handler w None s
     = (Raise (SystemExit 0),
        {| clock := clock s; trace := trace s ++ [EvShutdownSet]; out := out s;
           shutdown_event := true |})
  /\ ~ In EvCleanupMemory [EvShutdownSet].
Proof.
  repeat split; try reflexivity.
  intros [H | []]. discriminate H.
Qed.

(** ** The concrete run *)

(** The engine of the examples is the loaded engine [__init__] returns. *)
Example demo_engine_loaded :
  __init__ demo_world "/models/outetts.gguf" start
  = (Return demo_engine,
     {| clock := 3;
        trace := [ EvAcquire;
                   EvInterface
                     {| mc_model_path := "/models/outetts.gguf";
                        mc_max_seq_length := 4096;
                        mc_n_gpu_layers := 8;
                        mc_additional_model_config :=
                          [ ("n_ctx", VInt 4096); ("n_batch", VInt 256);
                            ("n_threads", VInt 4); ("n_gqa", VInt 4);
                            ("rope_freq_base", VFloat (500000 # 1)) ] |};
                   EvLoadSpeaker "en-female-1-neutral";
                   EvRelease ];
        out := [];
        shutdown_event := false |})
  /\ is_loaded demo_engine = true
  /\ default_speaker demo_engine
     = Some {| speaker_profile := VStr "en-female-1-neutral" |}.
Proof. repeat split. Qed.

(** Four lines are answered, one response each; the line after the
    cleanup command is never read. *)
Example demo_run :
  out (snd (command_loop demo_world demo_engine demo_stdin start))
  = [ error_line "Invalid JSON: Expecting value";
      Dumps (VDict [ ("job_id", VStr "1"); ("success", VBool true);
                     ("error", VNone); ("duration", VFloat (0 # 1));
                     ("audio_path", VStr "/tmp/out.wav");
                     ("audio_size", VInt 0) ]);
      error_line "Unknown command type: reboot";
      Dumps (VDict [ ("status", VStr "cleaned") ]) ].
Proof. vm_compute. reflexivity. Qed.

(** * Further properties of the engine *)

(** ** The memory guard in detail *)

Lemma below_threshold (available : Z) :
  Qle_bool min_gpu_bytes (inject_Z available) = false <-> (available < GiB)%Z.
Proof.
  unfold Qle_bool, min_gpu_bytes, MIN_GPU_MEMORY_GB, GiB. simpl.
  rewrite Z.leb_gt. lia.
Qed.

(** X1: the memory guard rejects a job exactly when a GPU is present, all
    three device queries answer, and total minus reserved memory is below
    1 GiB.  Without a GPU, or when a query raises, the guard admits the job. *)
Theorem memory_guard_rejects_exactly_below_one_gib (w : World) (s : St) :
  memory_admits w s = false <->
  cuda_is_available w (clock s) = true
  /\ exists allocated reserved total,
       cuda_memory_allocated w (S (clock s)) = Gives allocated
       /\ cuda_memory_reserved w (S (S (clock s))) = Gives reserved
       /\ cuda_total_memory w (S (S (S (clock s)))) = Gives total
       /\ (total - reserved < GiB)%Z.
Proof.
  unfold memory_admits, _check_memory_usage, torch_cuda_is_available.
  py_unfold. simpl.
  destruct (cuda_is_available w (clock s)); simpl.
  2:{ split; [discriminate | intros [H _]; discriminate]. }
  destruct (cuda_memory_allocated w (S (clock s))) as [a | m]; simpl.
  2:{ split; [discriminate | intros (_ & ? & ? & ? & H & _); discriminate]. }
  destruct (cuda_memory_reserved w (S (S (clock s)))) as [r | m]; simpl.
  2:{ split; [discriminate | intros (_ & ? & ? & ? & _ & H & _); discriminate]. }
  destruct (cuda_total_memory w (S (S (S (clock s))))) as [t | m]; simpl.
  2:{ split; [discriminate | intros (_ & ? & ? & ? & _ & _ & H & _); discriminate]. }
  destruct (Qle_bool min_gpu_bytes (inject_Z (t - r))) eqn:E; simpl.
  - split; [discriminate |].
    intros (_ & a' & r' & t' & _ & [= <-] & [= <-] & H).
    apply below_threshold in H. congruence.
  - split; [| reflexivity]. intros _. split; [reflexivity |].
    exists a, r, t. repeat split. apply below_threshold. exact E.
Qed.

Lemma memory_guard_rejects_exactly_below_one_gib_witness :
  memory_admits full_gpu_world start = false
  /\ memory_admits gpu_world start = true
  /\ memory_admits demo_world start = true.
Proof.
  split.
  - apply (memory_guard_rejects_exactly_below_one_gib full_gpu_world start).
    split; [reflexivity |].
    exists 0%Z, (8 * GiB - GiB / 2)%Z, (8 * GiB)%Z.
    repeat split.
  - split; reflexivity.
Defined.

(** X2: cleanup never raises, whatever the device does.  Without a GPU it
    makes no device call; when emptying the cache raises, the error is
    swallowed and the synchronisation is skipped. *)
Theorem cleanup_swallows_device_errors (w : World) (s : St) :
  exists s',
    _cleanup_memory w s = (Return tt, s')
    /\ trace s' = trace s ++ [EvCleanupMemory]
    /\ out s' = out s
    /\ clock s'
       = (if cuda_is_available w (clock s) then
            match cuda_empty_cache w (S (clock s)) with
            | Gives _ => S (S (S (clock s)))
            | Fails _ => S (S (clock s))
            end
          else S (clock s)).
Proof.
  unfold _cleanup_memory, torch_cuda_is_available. py_unfold. simpl.
  destruct (cuda_is_available w (clock s)); simpl; [| eauto].
  destruct (cuda_empty_cache w (S (clock s))); simpl; [| eauto].
  destruct (cuda_synchronize w (S (S (clock s)))); simpl; eauto.
Qed.

(** ** The outcome of [synthesize] *)

Section OutcomeFacts.

Variable w : World.

(** Once the guard has admitted a job with text, the backend decides. *)
Lemma synthesize_admitted (self : OuteTTSEngine) (t : string)
    (output_path speaker_id language quality temperature : Val)
    (use_mirostat : bool) (s s1 : St) :
  is_loaded self = true ->
  _check_memory_usage w s = (Return true, s1) ->
  strip t <> "" ->
  let c := generation_config self (strip t) quality temperature use_mirostat in
  exists s',
    synthesize w self (VStr t) output_path speaker_id language quality
      temperature use_mirostat s
    = (Return (backend_succeeds w c output_path s1), s')
    /\ trace s'
       = trace s1
         ++ match interface_generate w (clock s1) c with
            | Gives _ => [EvGenerate c; EvSave output_path; EvCleanupMemory]
            | Fails _ => [EvGenerate c; EvCleanupMemory]
            end.
Proof.
  intros Hl E1 Hb c. unfold synthesize, backend_succeeds. rewrite Hl. simpl.
  unfold try_except at 1. unfold bind at 1. rewrite E1. simpl.
  unfold bind at 1. unfold ret at 1. simpl.
  apply String.eqb_neq in Hb. rewrite Hb.
  destruct (quality_settings_complete quality "repetition_penalty") as [Q1 _];
    [simpl; tauto |].
  destruct (quality_settings_complete quality "generation_type") as [Q2 _];
    [simpl; tauto |].
  destruct (quality_settings_complete quality "max_batch_size") as [Q3 _];
    [simpl; tauto |].
  destruct (quality_settings_complete quality "dac_decoding_chunk") as [Q4 _];
    [simpl; tauto |].
  destruct (quality_settings_complete quality "max_length") as [Q5 _];
    [simpl; tauto |].
  unfold getitem. rewrite Q1, Q2, Q3, Q4, Q5.
  py_unfold. simpl.
  match goal with
  | |- context [interface_generate w _ ?cfg] => change cfg with c
  end.
  clearbody c.
  destruct (interface_generate w (clock s1) c) as [output | m]; simpl.
  - destruct (output_save w (S (clock s1)) output output_path) as [u | m]; simpl;
      match goal with
      | |- context [_cleanup_memory w ?st] =>
          destruct (_cleanup_memory_runs w st) as (s' & E & T & _);
          rewrite E; simpl in T; simpl
      end;
      (eexists; split; [reflexivity |]);
      rewrite T; repeat rewrite <- app_assoc; reflexivity.
  - match goal with
    | |- context [_cleanup_memory w ?st] =>
        destruct (_cleanup_memory_runs w st) as (s' & E & T & _);
        rewrite E; simpl in T; simpl
    end.
    eexists; split; [reflexivity |].
    rewrite T; repeat rewrite <- app_assoc; reflexivity.
Qed.

End OutcomeFacts.

Lemma memory_admits_true (w : World) (s : St) :
  memory_admits w s = true ->
  _check_memory_usage w s = (Return true, snd (_check_memory_usage w s))
  /\ trace (snd (_check_memory_usage w s)) = trace s ++ [EvCheckMemory].
Proof.
  unfold memory_admits.
  destruct (_check_memory_usage_runs w s) as (b & s1 & E & T & _).
  rewrite E. simpl. intros ->. auto.
Qed.

(** X3: [synthesize] returns [True] exactly when the engine is loaded, the
    guard admits the job, the text is a string that is not blank, the
    backend generates audio for the stripped text and the audio is saved. *)
Theorem synthesize_succeeds_exactly_when_saved (w : World)
    (self : OuteTTSEngine)
    (text output_path speaker_id language quality temperature : Val)
    (use_mirostat : bool) (s : St) :
  fst (synthesize w self text output_path speaker_id language quality
         temperature use_mirostat s) = Return true
  <->
  is_loaded self = true
  /\ memory_admits w s = true
  /\ exists t,
       text = VStr t /\ strip t <> ""
       /\ backend_succeeds w
            (generation_config self (strip t) quality temperature use_mirostat)
            output_path (snd (_check_memory_usage w s)) = true.
Proof.
  split.
  - intros H. destruct (is_loaded self) eqn:Hl.
    2:{ rewrite synthesize_not_loaded in H by assumption. discriminate. }
    destruct (synthesize_runs w self text output_path speaker_id language
                quality temperature use_mirostat s Hl)
      as (b & s' & new & E & _ & _ & _ & Hc).
    rewrite E in H. simpl in H. injection H as ->.
    destruct Hc as [(_ & Hf & _) | [(_ & Hf & _) | (t & -> & Hnb & Ha & _)]];
      try discriminate.
    split; [reflexivity |]. split; [exact Ha |].
    exists t. split; [reflexivity |].
    simpl in Hnb. apply String.eqb_neq in Hnb. split; [exact Hnb |].
    destruct (memory_admits_true w s Ha) as [E1 _].
    destruct (synthesize_admitted w self t output_path speaker_id language
                quality temperature use_mirostat s _ Hl E1 Hnb)
      as (s'' & E' & _).
    rewrite E in E'. congruence.
  - intros (Hl & Ha & t & -> & Hnb & Hs).
    destruct (memory_admits_true w s Ha) as [E1 _].
    destruct (synthesize_admitted w self t output_path speaker_id language
                quality temperature use_mirostat s _ Hl E1 Hnb)
      as (s' & E & _).
    rewrite E. simpl. rewrite Hs. reflexivity.
Qed.

Lemma synthesize_succeeds_exactly_when_saved_witness :
  fst (synthesize demo_world demo_engine (VStr "Hello") (VStr "/tmp/out.wav")
         VNone (VStr "en") (VStr "fast") (VFloat (4 # 10)) true start)
  = Return true
  /\ fst (synthesize readonly_world demo_engine (VStr "Hello")
            (VStr "/tmp/out.wav") VNone (VStr "en") (VStr "fast")
            (VFloat (4 # 10)) true start)
     = Return false.
Proof.
  split.
  - apply (synthesize_succeeds_exactly_when_saved demo_world demo_engine
             (VStr "Hello") (VStr "/tmp/out.wav") VNone (VStr "en")
             (VStr "fast") (VFloat (4 # 10)) true start).
    split; [reflexivity |]. split; [reflexivity |].
    exists "Hello". split; [reflexivity |]. split; [discriminate | reflexivity].
  - reflexivity.
Defined.

(** X4: when the backend is reached, its three outcomes are these.  A
    failed generation gives [False] and the file is never saved; a failed
    save gives [False]; only generation and save together give [True].
    In all three the events end with one cleanup, and the text generated
    is the stripped text. *)
Theorem synthesize_backend_outcomes (w : World) (self : OuteTTSEngine)
    (t : string)
    (output_path speaker_id language quality temperature : Val)
    (use_mirostat : bool) (s : St) :
  is_loaded self = true ->
  memory_admits w s = true ->
  strip t <> "" ->
  let s1 := snd (_check_memory_usage w s) in
  let c := generation_config self (strip t) quality temperature use_mirostat in
  let r := synthesize w self (VStr t) output_path speaker_id language quality
             temperature use_mirostat s in
  (forall m,
     interface_generate w (clock s1) c = Fails m ->
     fst r = Return false
     /\ trace (snd r) = trace s ++ [EvCheckMemory; EvGenerate c; EvCleanupMemory])
  /\ (forall output m,
        interface_generate w (clock s1) c = Gives output ->
        output_save w (S (clock s1)) output output_path = Fails m ->
        fst r = Return false
        /\ trace (snd r)
           = trace s ++ [EvCheckMemory; EvGenerate c; EvSave output_path;
                         EvCleanupMemory])
  /\ (forall output u,
        interface_generate w (clock s1) c = Gives output ->
        output_save w (S (clock s1)) output output_path = Gives u ->
        fst r = Return true
        /\ trace (snd r)
           = trace s ++ [EvCheckMemory; EvGenerate c; EvSave output_path;
                         EvCleanupMemory]).
Proof.
  intros Hl Ha Hnb s1 c r.
  destruct (memory_admits_true w s Ha) as [E1 T1]. fold s1 in E1, T1.
  destruct (synthesize_admitted w self t output_path speaker_id language
              quality temperature use_mirostat s s1 Hl E1 Hnb)
    as (s' & E & T).
  fold c in E, T. subst r. rewrite E. simpl. unfold backend_succeeds.
  rewrite T, T1, <- app_assoc. simpl.
  repeat split; intros;
    repeat match goal with
           | H : _ = Gives _ |- _ => rewrite H
           | H : _ = Fails _ |- _ => rewrite H
           end; reflexivity.
Qed.

Lemma synthesize_backend_outcomes_witness :
  is_loaded demo_engine = true
  /\ memory_admits mute_world start = true
  /\ strip " Hello " <> ""
  /\ fst (synthesize mute_world demo_engine (VStr " Hello ")
            (VStr "/tmp/out.wav") VNone (VStr "en") (VStr "fast")
            (VFloat (4 # 10)) true start) = Return false
  /\ trace (snd (synthesize mute_world demo_engine (VStr " Hello ")
                   (VStr "/tmp/out.wav") VNone (VStr "en") (VStr "fast")
                   (VFloat (4 # 10)) true start))
     = trace start
       ++ [ EvCheckMemory;
            EvGenerate (generation_config demo_engine (strip " Hello ")
                          (VStr "fast") (VFloat (4 # 10)) true);
            EvCleanupMemory ].
Proof.
  split; [reflexivity |]. split; [reflexivity |]. split; [discriminate |].
  refine (proj1 (synthesize_backend_outcomes mute_world demo_engine " Hello "
                   (VStr "/tmp/out.wav") VNone (VStr "en") (VStr "fast")
                   (VFloat (4 # 10)) true start _ _ _) "generation failed" _);
    try reflexivity.
  discriminate.
Defined.

(** X5: a text that is not a string (a number, null, a list, ...) passes
    the guard, fails on [strip], and is answered [False] after one cleanup;
    the backend is not called. *)
Theorem synthesize_rejects_text_that_is_no_string (w : World)
    (self : OuteTTSEngine)
    (text output_path speaker_id language quality temperature : Val)
    (use_mirostat : bool) (s : St) :
  is_loaded self = true ->
  memory_admits w s = true ->
  (forall t, text <> VStr t) ->
  exists s',
    synthesize w self text output_path speaker_id language quality temperature
      use_mirostat s = (Return false, s')
    /\ trace s' = trace s ++ [EvCheckMemory; EvCleanupMemory].
Proof.
  intros Hl Ha Hn.
  destruct (synthesize_runs w self text output_path speaker_id language quality
              temperature use_mirostat s Hl)
    as (b & s' & new & E & _ & _ & T & Hc).
  destruct Hc as [(_ & _ & [Hr | Hr]) | [(-> & -> & _) | (t & Ht & _)]].
  - congruence.
  - destruct text; simpl in Hr; try discriminate.
    exfalso. apply (Hn s0). reflexivity.
  - exists s'. split; [exact E | exact T].
  - exfalso. apply (Hn t). exact Ht.
Qed.

Lemma synthesize_rejects_text_that_is_no_string_witness :
  is_loaded demo_engine = true
  /\ memory_admits demo_world start = true
  /\ (forall t, VInt 42 <> VStr t)
  /\ exists s',
       synthesize demo_world demo_engine (VInt 42) (VStr "/tmp/out.wav") VNone
         (VStr "en") (VStr "high") (VFloat (4 # 10)) true start
       = (Return false, s')
       /\ trace s' = trace start ++ [EvCheckMemory; EvCleanupMemory].
Proof.
  split; [reflexivity |]. split; [reflexivity |].
  split; [intros t; discriminate |].
  apply (synthesize_rejects_text_that_is_no_string demo_world demo_engine
           (VInt 42));
    [reflexivity | reflexivity | intros t; discriminate].
Defined.

(** ** Blank text *)

Lemma drop_spaces_nil (l : list ascii) :
  drop_spaces l = [] <-> forallb is_space l = true.
Proof.
  induction l as [| c l IH]; simpl; [tauto |].
  destruct (is_space c); simpl; [exact IH |].
  split; discriminate.
Qed.

Lemma drop_spaces_head (l : list ascii) :
  match drop_spaces l with
  | [] => True
  | c :: _ => is_space c = false
  end.
Proof.
  induction l as [| c l IH]; simpl; [exact I |].
  destruct (is_space c) eqn:E; [exact IH | exact E].
Qed.

Lemma string_of_list_ascii_nil (l : list ascii) :
  string_of_list_ascii l = "" <-> l = [].
Proof. destruct l; simpl; split; congruence. Qed.

(** A string strips to the empty string exactly when it is all spaces. *)
Lemma strip_empty_whitespace (t : string) :
  blank (VStr t) = true <-> forallb is_space (list_ascii_of_string t) = true.
Proof.
  simpl. rewrite String.eqb_eq. unfold strip.
  rewrite string_of_list_ascii_nil.
  set (l := list_ascii_of_string t).
  split.
  - intros H. apply drop_spaces_nil.
    assert (H1 : drop_spaces (rev (drop_spaces l)) = []).
    { apply (f_equal (@rev ascii)) in H. rewrite rev_involutive in H. exact H. }
    pose proof (drop_spaces_head l) as Hh.
    destruct (drop_spaces l) as [| c d] eqn:Ed; [reflexivity |].
    apply drop_spaces_nil in H1. rewrite forallb_forall in H1.
    assert (Hc : is_space c = true).
    { apply H1. apply -> in_rev. left. reflexivity. }
    congruence.
  - intros H. apply drop_spaces_nil in H. rewrite H. reflexivity.
Qed.

(** X6: the text validation of [synthesize] rejects exactly the strings
    made of whitespace only, the empty string among them.  On a loaded
    engine whose guard admits the job, such a text makes [synthesize]
    return [False] right after the memory check, the backend untouched;
    every other string reaches the backend, which is asked to generate
    the stripped text. *)
Theorem synthesize_rejects_exactly_whitespace_text (w : World)
    (self : OuteTTSEngine) (t : string)
    (output_path speaker_id language quality temperature : Val)
    (use_mirostat : bool) (s : St) :
  is_loaded self = true ->
  memory_admits w s = true ->
  let r := synthesize w self (VStr t) output_path speaker_id language quality
             temperature use_mirostat s in
  (forallb is_space (list_ascii_of_string t) = true ->
   fst r = Return false /\ trace (snd r) = trace s ++ [EvCheckMemory])
  /\ (forallb is_space (list_ascii_of_string t) = false ->
      exists rest,
        trace (snd r)
        = trace s
          ++ EvCheckMemory
             :: EvGenerate (generation_config self (strip t) quality temperature
                              use_mirostat)
             :: rest).
Proof.
  intros Hl Ha r. subst r. split.
  - intros Hw. apply strip_empty_whitespace in Hw.
    destruct (synthesize_runs w self (VStr t) output_path speaker_id language
                quality temperature use_mirostat s Hl)
      as (b & s' & new & E & _ & _ & T & Hc).
    rewrite E. simpl.
    destruct Hc as [(-> & -> & _) | [(_ & _ & _ & Hn) | (t' & _ & Hnb & _)]].
    + split; [reflexivity | exact T].
    + exfalso. apply (Hn t). reflexivity.
    + congruence.
  - intros Hn.
    assert (Hs : strip t <> "").
    { intros Hs. apply String.eqb_eq in Hs.
      assert (X : blank (VStr t) = true) by exact Hs.
      apply strip_empty_whitespace in X. congruence. }
    destruct (memory_admits_true w s Ha) as [E1 T1].
    destruct (synthesize_admitted w self t output_path speaker_id language
                quality temperature use_mirostat s _ Hl E1 Hs)
      as (s' & E & T).
    rewrite E. simpl. rewrite T, T1, <- app_assoc. simpl.
    destruct (interface_generate w _ _); eexists; reflexivity.
Qed.

Lemma synthesize_rejects_exactly_whitespace_text_witness :
  is_loaded demo_engine = true
  /\ memory_admits demo_world start = true
  /\ forallb is_space (list_ascii_of_string "   ") = true
  /\ forallb is_space (list_ascii_of_string " Hello ") = false
  /\ fst (synthesize demo_world demo_engine (VStr "   ") (VStr "/tmp/out.wav")
            VNone (VStr "en") (VStr "fast") (VFloat (4 # 10)) true start)
     = Return false
  /\ trace (snd (synthesize demo_world demo_engine (VStr "   ")
                   (VStr "/tmp/out.wav") VNone (VStr "en") (VStr "fast")
                   (VFloat (4 # 10)) true start))
     = trace start ++ [EvCheckMemory]
  /\ exists rest,
       trace (snd (synthesize demo_world demo_engine (VStr " Hello ")
                     (VStr "/tmp/out.wav") VNone (VStr "en") (VStr "fast")
                     (VFloat (4 # 10)) true start))
       = trace start
         ++ EvCheckMemory
            :: EvGenerate (generation_config demo_engine (strip " Hello ")
                             (VStr "fast") (VFloat (4 # 10)) true)
            :: rest.
Proof.
  do 4 (split; [reflexivity |]).
  destruct (synthesize_rejects_exactly_whitespace_text demo_world demo_engine
              "   " (VStr "/tmp/out.wav") VNone (VStr "en") (VStr "fast")
              (VFloat (4 # 10)) true start eq_refl eq_refl)
    as [Hblank _].
  destruct (Hblank eq_refl) as [R T].
  split; [exact R |]. split; [exact T |].
  apply (proj2 (synthesize_rejects_exactly_whitespace_text demo_world
                  demo_engine " Hello " (VStr "/tmp/out.wav") VNone (VStr "en")
                  (VStr "fast") (VFloat (4 # 10)) true start eq_refl eq_refl)).
  reflexivity.
Defined.

(** * Further properties of the command protocol *)

(** ** Building a job *)

Lemma known_fields (d : Dict) :
  forallb (fun k => existsb (String.eqb k) SynthesisJob_fields) (keys d) = true
  <-> forall k, In k (keys d) -> In k SynthesisJob_fields.
Proof.
  rewrite forallb_forall. split; intros H k Hk; specialize (H k Hk).
  - apply existsb_exists in H. destruct H as (x & Hx & E).
    apply String.eqb_eq in E. subst. exact Hx.
  - apply existsb_exists. exists k. split; [exact H | apply String.eqb_refl].
Qed.

(** A job that cannot be built raises [TypeError], nothing else. *)
Lemma SynthesisJob_new_raises_TypeError (job_data : Val) (s s' : St) (e : Exn) :
  SynthesisJob_new job_data s = (Raise e, s') -> exists m, e = TypeError m.
Proof.
  unfold SynthesisJob_new. py_unfold.
  destruct job_data; try (intros [= <- _]; eauto; fail).
  destruct (negb _); [intros [= <- _]; eauto |].
  destruct (lookup "id" d), (lookup "text" d), (lookup "output_path" d);
    intros [= <- _] || discriminate; eauto.
Qed.

(** X7: a job is built exactly from a JSON object that has no key outside
    the six fields and has [id], [text] and [output_path]; the missing
    optional fields take the defaults "high", 0.4 and
    "en-female-1-neutral".  No field is checked for its type. *)
Theorem SynthesisJob_new_accepts_exactly (job_data : Val) (job : SynthesisJob)
    (s : St) :
  fst (SynthesisJob_new job_data s) = Return job
  <->
  exists d i t o,
    job_data = VDict d
    /\ (forall k, In k (keys d) -> In k SynthesisJob_fields)
    /\ lookup "id" d = Some i
    /\ lookup "text" d = Some t
    /\ lookup "output_path" d = Some o
    /\ job = {| j_id := i; j_text := t; j_output_path := o;
                j_quality := get_default "quality" d (VStr "high");
                j_temperature := get_default "temperature" d (VFloat (4 # 10));
                j_speaker := get_default "speaker" d
                               (VStr "en-female-1-neutral") |}.
Proof.
  unfold SynthesisJob_new. py_unfold. split.
  - destruct job_data; try discriminate.
    destruct (forallb _ (keys d)) eqn:K; [| discriminate].
    cbv beta iota delta [negb].
    destruct (lookup "id" d) as [i |] eqn:Hi; [| discriminate].
    destruct (lookup "text" d) as [t |] eqn:Ht;
      [| destruct (lookup "output_path" d); discriminate].
    destruct (lookup "output_path" d) as [o |] eqn:Ho; [| discriminate].
    intros [= <-]. exists d, i, t, o.
    repeat split; try assumption. apply known_fields. exact K.
  - intros (d & i & t & o & -> & K & Hi & Ht & Ho & ->).
    apply known_fields in K. rewrite K, Hi, Ht, Ho. reflexivity.
Qed.

(** ** Protocol errors *)

Ltac eval_tags :=
  repeat match goal with
         | |- context [eq_str (VStr ?a) ?b] =>
             let v := eval vm_compute in (eq_str (VStr a) b) in
             change (eq_str (VStr a) b) with v
         end;
  cbv beta iota.

Ltac enter_dispatch H :=
  unfold handle_line, dispatch, loads, try_except; rewrite H;
  unfold bind, dot_get, get_default, ret; cbv beta iota.

(** X8: the three protocol errors are answered with one error object each
    and leave the engine untouched -- no event, no device or backend call:
    a line that is not JSON ("Invalid JSON: ..."), a JSON value that is
    not an object ("Command failed: ..."), and an object whose [type] is
    missing or is none of the five tags ("Unknown command type: ..."). *)
Theorem protocol_errors_leave_engine_untouched (w : World)
    (engine : OuteTTSEngine) (line : string) (s : St) :
  let answered_with (m : string) :=
    handle_line w engine line s
    = (Return false,
       {| clock := clock s; trace := trace s;
          out := out s ++ [error_line m];
          shutdown_event := shutdown_event s |}) in
  (forall m, json_loads w (strip line) = Fails m ->
             answered_with ("Invalid JSON: " ++ m)%string)
  /\ (forall v, json_loads w (strip line) = Gives v ->
                (forall d, v <> VDict d) ->
                answered_with ("Command failed: '" ++ type_name v
                               ++ "' object has no attribute 'get'")%string)
  /\ (forall d, json_loads w (strip line) = Gives (VDict d) ->
                unknown_tag (get_default "type" d VNone) ->
                answered_with ("Unknown command type: "
                               ++ py_str w (get_default "type" d VNone))%string).
Proof.
  intros answered_with. subst answered_with. cbv beta.
  repeat split.
  - intros m H. unfold handle_line, dispatch, loads, try_except. rewrite H.
    reflexivity.
  - intros v H Hn. unfold handle_line, dispatch, loads, try_except. rewrite H.
    destruct v; try reflexivity.
    exfalso. apply (Hn d). reflexivity.
  - intros d H (H1 & H2 & H3 & H4 & H5). enter_dispatch H.
    unfold get_default in H1, H2, H3, H4, H5.
    rewrite H1, H2, H3, H4, H5. reflexivity.
Qed.

Lemma protocol_errors_leave_engine_untouched_witness :
  json_loads demo_world (strip truncated_line) = Fails "Expecting value"
  /\ handle_line demo_world demo_engine truncated_line start
     = (Return false,
        {| clock := clock start; trace := trace start;
           out := out start ++ [error_line ("Invalid JSON: " ++ "Expecting value")];
           shutdown_event := shutdown_event start |}).
Proof.
  split; [reflexivity |].
  apply (proj1 (protocol_errors_leave_engine_untouched demo_world demo_engine
                  truncated_line start)).
  reflexivity.
Defined.

(** ** Commands that fail before they reach the engine *)

(** X9: a [single] command without a [job], or whose [job] cannot be built
    into a job (not an object, a required field missing, an unknown
    field), is answered with one "Command failed" error, and the engine is
    not asked anything: no memory check, no generation, no cleanup. *)
Theorem single_with_bad_job_is_rejected_unrun (w : World)
    (engine : OuteTTSEngine) (line : string) (d : Dict) (s : St) :
  json_loads w (strip line) = Gives (VDict d) ->
  lookup "type" d = Some (VStr "single") ->
  (lookup "job" d = None
   \/ exists job_data,
        lookup "job" d = Some job_data
        /\ forall job, fst (SynthesisJob_new job_data s) <> Return job) ->
  exists m,
    handle_line w engine line s
    = (Return false,
       {| clock := clock s; trace := trace s;
          out := out s ++ [error_line ("Command failed: " ++ m)];
          shutdown_event := shutdown_event s |}).
Proof.
  intros H1 H2 Hj. enter_dispatch H1. rewrite H2. cbv beta iota. eval_tags.
  unfold subscript, getitem.
  destruct Hj as [Hn | (job_data & Hs & Hb)].
  - rewrite Hn. exists "'job'". reflexivity.
  - rewrite Hs. unfold ret. cbv beta iota.
    destruct (SynthesisJob_new job_data s) as [[job | e] s1] eqn:E.
    + exfalso. apply (Hb job). reflexivity.
    + pose proof (SynthesisJob_new_pure _ _ _ _ E) as ->.
      destruct (SynthesisJob_new_raises_TypeError _ _ _ _ E) as (m & ->).
      exists m. reflexivity.
Qed.

Lemma single_with_bad_job_is_rejected_unrun_witness :
  lookup "type" [ ("type", VStr "single") ] = Some (VStr "single")
  /\ lookup "job" [ ("type", VStr "single") ] = None
  /\ exists m,
       handle_line protocol_world demo_engine (typed_line "single") start
       = (Return false,
          {| clock := clock start; trace := trace start;
             out := out start ++ [error_line ("Command failed: " ++ m)];
             shutdown_event := shutdown_event start |}).
Proof.
  split; [reflexivity |]. split; [reflexivity |].
  apply (single_with_bad_job_is_rejected_unrun protocol_world demo_engine
           (typed_line "single") [ ("type", VStr "single") ] start).
  - reflexivity.
  - reflexivity.
  - left. reflexivity.
Defined.

(** ** The audio commands *)

(** X10: a [play_audio] or [audio_info] command whose [file_path] is
    missing or falsy (null, the empty string, 0, ...) is answered "Missing
    file_path for ... command"; the audio adapter is not called. *)
Theorem audio_command_without_file_path (w : World) (engine : OuteTTSEngine)
    (line : string) (d : Dict) (name : string) (s : St) :
  json_loads w (strip line) = Gives (VDict d) ->
  lookup "type" d = Some (VStr name) ->
  name = "play_audio" \/ name = "audio_info" ->
  truthy (get_default "file_path" d VNone) = false ->
  handle_line w engine line s
  = (Return false,
     {| clock := clock s; trace := trace s;
        out := out s
               ++ [error_line ("Missing file_path for " ++ name ++ " command")];
        shutdown_event := shutdown_event s |}).
Proof.
  intros H1 H2 Hn Hf. unfold get_default in Hf. enter_dispatch H1.
  rewrite H2. cbv beta iota.
  destruct Hn as [-> | ->]; eval_tags; rewrite Hf; reflexivity.
Qed.

Lemma audio_command_without_file_path_witness :
  json_loads protocol_world (strip (typed_line "play_audio"))
  = Gives (VDict [ ("type", VStr "play_audio") ])
  /\ truthy (get_default "file_path" [ ("type", VStr "play_audio") ] VNone) = false
  /\ handle_line protocol_world demo_engine (typed_line "play_audio") start
     = (Return false,
        {| clock := clock start; trace := trace start;
           out := out start
                  ++ [error_line ("Missing file_path for " ++ "play_audio"
                                  ++ " command")];
           shutdown_event := shutdown_event start |}).
Proof.
  split; [reflexivity |]. split; [reflexivity |].
  apply (audio_command_without_file_path protocol_world demo_engine
           (typed_line "play_audio") [ ("type", VStr "play_audio") ]
           "play_audio" start);
    try reflexivity.
  left. reflexivity.
Defined.

(** What the [play_audio] branch of one iteration does with a file path. *)
Lemma play_audio_dispatch (w : World) (engine : OuteTTSEngine)
    (line : string) (d : Dict) (file_path : Val) (s : St) :
  json_loads w (strip line) = Gives (VDict d) ->
  lookup "type" d = Some (VStr "play_audio") ->
  lookup "file_path" d = Some file_path ->
  truthy file_path = true ->
  handle_line w engine line s
  = (Return false,
     {| clock := S (clock s);
        trace := trace s ++ [EvPlayAudio file_path];
        out := out s
               ++ [ Dumps
                      (VDict
                         match pydub_play w (clock s) file_path
                                 (get_default "quality_settings" d (VDict []))
                         with
                         | Gives audio =>
                             [ ("success", VBool true);
                               ("duration", VFloat (duration_seconds audio));
                               ("sample_rate", VInt (frame_rate audio));
                               ("channels", VInt (channels audio));
                               ("bit_depth", VInt (sample_width audio * 8)) ]
                         | Fails m =>
                             [ ("success", VBool false); ("error", VStr m) ]
                         end) ];
        shutdown_event := shutdown_event s |}).
Proof.
  intros H1 H2 H3 H4. enter_dispatch H1. rewrite H2. cbv beta iota.
  eval_tags. rewrite H3. cbv beta iota. rewrite H4.
  unfold play_audio, PYDUB_AVAILABLE. py_unfold. simpl.
  destruct (pydub_play w (clock s) file_path _); reflexivity.
Qed.

(** X11: a [play_audio] command with a file path calls the adapter once,
    with [{}] for absent quality settings.  Success is answered with
    duration, sample rate, channels and a bit depth of eight times the
    sample width; any failure of loading, processing or playing is
    answered [{success: false, error: message}], and the loop goes on. *)
Theorem play_audio_command_outcome (w : World) (engine : OuteTTSEngine)
    (line : string) (d : Dict) (file_path : Val) (s : St) :
  json_loads w (strip line) = Gives (VDict d) ->
  lookup "type" d = Some (VStr "play_audio") ->
  lookup "file_path" d = Some file_path ->
  truthy file_path = true ->
  handle_line w engine line s
  = (Return false,
     {| clock := S (clock s);
        trace := trace s ++ [EvPlayAudio file_path];
        out := out s
               ++ [ Dumps
                      (VDict
                         match pydub_play w (clock s) file_path
                                 (get_default "quality_settings" d (VDict []))
                         with
                         | Gives audio =>
                             [ ("success", VBool true);
                               ("duration", VFloat (duration_seconds audio));
                               ("sample_rate", VInt (frame_rate audio));
                               ("channels", VInt (channels audio));
                               ("bit_depth", VInt (sample_width audio * 8)) ]
                         | Fails m =>
                             [ ("success", VBool false); ("error", VStr m) ]
                         end) ];
        shutdown_event := shutdown_event s |}).
Proof.
  intros H1 H2 H3 H4.
  exact (play_audio_dispatch w engine line d file_path s H1 H2 H3 H4).
Qed.

Lemma play_audio_command_outcome_witness :
  json_loads protocol_world (strip (file_line "play_audio" "/tmp/out.wav"))
  = Gives (VDict [ ("type", VStr "play_audio");
                   ("file_path", VStr "/tmp/out.wav") ])
  /\ truthy (VStr "/tmp/out.wav") = true
  /\ out (snd (handle_line protocol_world demo_engine
                 (file_line "play_audio" "/tmp/out.wav") start))
     = [ Dumps (VDict [ ("success", VBool true);
                        ("duration", VFloat (1 # 1));
                        ("sample_rate", VInt 24000);
                        ("channels", VInt 1);
                        ("bit_depth", VInt 16) ]) ].
Proof.
  split; [reflexivity |]. split; [reflexivity |].
  rewrite (play_audio_command_outcome protocol_world demo_engine
             (file_line "play_audio" "/tmp/out.wav")
             [ ("type", VStr "play_audio"); ("file_path", VStr "/tmp/out.wav") ]
             (VStr "/tmp/out.wav") start);
    reflexivity.
Defined.

(** X12: an [audio_info] command with a file path loads the file and then
    asks for its size and suffix; the answer holds duration, file size,
    format, sample rate, channels and bit depth.  If either step fails the
    answer is [{success: false, error: message}], and when loading fails
    the size is never asked for. *)
Theorem audio_info_command_outcome (w : World) (engine : OuteTTSEngine)
    (line : string) (d : Dict) (file_path : Val) (s : St) :
  json_loads w (strip line) = Gives (VDict d) ->
  lookup "type" d = Some (VStr "audio_info") ->
  lookup "file_path" d = Some file_path ->
  truthy file_path = true ->
  exists s',
    handle_line w engine line s = (Return false, s')
    /\ trace s' = trace s ++ [EvAudioInfo file_path]
    /\ match pydub_from_file w (clock s) file_path with
       | Fails m =>
           clock s' = S (clock s)
           /\ out s' = out s ++ [ Dumps (VDict [ ("success", VBool false);
                                                 ("error", VStr m) ]) ]
       | Gives audio =>
           clock s' = S (S (clock s))
           /\ match path_stat w (S (clock s)) file_path with
              | Fails m =>
                  out s' = out s ++ [ Dumps (VDict [ ("success", VBool false);
                                                     ("error", VStr m) ]) ]
              | Gives (file_size, format) =>
                  out s'
                  = out s
                    ++ [ Dumps
                           (VDict
                              [ ("success", VBool true);
                                ("duration", VFloat (duration_seconds audio));
                                ("file_size", VInt file_size);
                                ("format", VStr format);
                                ("sample_rate", VInt (frame_rate audio));
                                ("channels", VInt (channels audio));
                                ("bit_depth", VInt (sample_width audio * 8)) ]) ]
              end
       end.
Proof.
  intros H1 H2 H3 H4. enter_dispatch H1. rewrite H2. cbv beta iota.
  eval_tags. rewrite H3. cbv beta iota. rewrite H4.
  unfold get_audio_info, PYDUB_AVAILABLE. py_unfold. simpl.
  destruct (pydub_from_file w (clock s) file_path) as [audio | m]; simpl.
  - destruct (path_stat w (S (clock s)) file_path) as [[file_size format] | m];
      simpl; eexists; repeat split; reflexivity.
  - eexists; repeat split; reflexivity.
Qed.

Lemma audio_info_command_outcome_witness :
  json_loads protocol_world (strip (file_line "audio_info" "/tmp/out.wav"))
  = Gives (VDict [ ("type", VStr "audio_info");
                   ("file_path", VStr "/tmp/out.wav") ])
  /\ truthy (VStr "/tmp/out.wav") = true
  /\ exists s',
       handle_line protocol_world demo_engine
         (file_line "audio_info" "/tmp/out.wav") start = (Return false, s')
       /\ trace s' = trace start ++ [EvAudioInfo (VStr "/tmp/out.wav")]
       /\ clock s' = S (S (clock start))
       /\ out s'
          = out start
            ++ [ Dumps (VDict [ ("success", VBool true);
                                ("duration", VFloat (1 # 1));
                                ("file_size", VInt 44);
                                ("format", VStr "wav");
                                ("sample_rate", VInt 24000);
                                ("channels", VInt 1);
                                ("bit_depth", VInt 16) ]) ].
Proof.
  split; [reflexivity |]. split; [reflexivity |].
  destruct (audio_info_command_outcome protocol_world demo_engine
              (file_line "audio_info" "/tmp/out.wav")
              [ ("type", VStr "audio_info"); ("file_path", VStr "/tmp/out.wav") ]
              (VStr "/tmp/out.wav") start)
    as (s' & E & T & C & O); try reflexivity.
  exists s'. repeat split; assumption.
Defined.

(** ** The cleanup command *)

(** X13: a cleanup command runs one memory cleanup, is answered
    [{status: cleaned}], and ends the loop: the lines after it are
    neither read nor answered. *)
Theorem cleanup_command_ends_the_loop (w : World) (engine : OuteTTSEngine)
    (line : string) (rest : list string) (s : St) :
  shutdown_event s = false ->
  is_cleanup_line w line = true ->
  exists s',
    command_loop w engine (line :: rest) s = (Return tt, s')
    /\ out s' = out s ++ [Dumps (VDict [ ("status", VStr "cleaned") ])]
    /\ trace s' = trace s ++ [EvCleanupMemory].
Proof.
  intros Hs Hc. unfold is_cleanup_line in Hc.
  destruct (json_loads w (strip line)) as [v | m] eqn:H1; [| discriminate].
  destruct v; try discriminate.
  destruct (_cleanup_memory_runs w s) as (s1 & E & T & O & F).
  simpl command_loop. unfold bind at 1. unfold is_set. rewrite Hs.
  unfold bind at 1. enter_dispatch H1.
  fold (get_default "type" d VNone).
  rewrite (eq_str_exclusive _ "cleanup" "single" Hc eq_refl).
  rewrite (eq_str_exclusive _ "cleanup" "memory_usage" Hc eq_refl).
  rewrite (eq_str_exclusive _ "cleanup" "play_audio" Hc eq_refl).
  rewrite (eq_str_exclusive _ "cleanup" "audio_info" Hc eq_refl).
  rewrite Hc, E. simpl.
  eexists. split; [reflexivity |]. simpl. rewrite O, T. auto.
Qed.

Lemma cleanup_command_ends_the_loop_witness :
  shutdown_event start = false
  /\ is_cleanup_line demo_world (typed_line "cleanup") = true
  /\ exists s',
       command_loop demo_world demo_engine
         (typed_line "cleanup" :: [hello_line; typed_line "memory_usage"]) start
       = (Return tt, s')
       /\ out s' = out start ++ [Dumps (VDict [ ("status", VStr "cleaned") ])]
       /\ trace s' = trace start ++ [EvCleanupMemory].
Proof.
  split; [reflexivity |]. split; [reflexivity |].
  apply (cleanup_command_ends_the_loop demo_world demo_engine
           (typed_line "cleanup") [hello_line; typed_line "memory_usage"] start);
    reflexivity.
Defined.

(** * Start-up *)

Section StartupFacts.

Variable w : World.

(** Whatever [__init__] raises is an [Exception]. *)
Lemma __init___raises_Exception (path : string) (s s' : St) (e : Exn) :
  __init__ w path s = (Raise e, s') -> is_Exception e = true.
Proof.
  unfold __init__, _load_model.
  py_run; intros H; try discriminate; injection H as <- _; reflexivity.
Qed.

End StartupFacts.



(** X15: [__init__] fails before it touches the backend when a library is
    missing or the model file does not exist: [ImportError] for outetts,
    then for torch, then [FileNotFoundError] naming the path.  In all
    three the lock is not taken and the backend is not initialised. *)
Theorem init_fails_before_the_backend (w : World) (path : string) (s : St) :
  (OUTETTS_AVAILABLE w = false ->
   __init__ w path s
   = (Raise (ImportError "OutTTS library is not installed. Run: pip install outetts"),
      s))
  /\ (OUTETTS_AVAILABLE w = true -> TORCH_AVAILABLE w = false ->
      __init__ w path s
      = (Raise (ImportError "PyTorch libraries are not available"), s))
  /\ (OUTETTS_AVAILABLE w = true -> TORCH_AVAILABLE w = true ->
      path_exists w (clock s) path = false ->
      __init__ w path s
      = (Raise (FileNotFoundError ("Model file not found: " ++ path)),
         {| clock := S (clock s); trace := trace s; out := out s;
            shutdown_event := shutdown_event s |})).
Proof.
  unfold __init__. repeat split.
  - intros ->. reflexivity.
  - intros -> ->. reflexivity.
  - intros -> -> H. py_unfold. simpl. rewrite H. reflexivity.
Qed.

Lemma init_fails_before_the_backend_witness :
  OUTETTS_AVAILABLE no_model_world = true
  /\ TORCH_AVAILABLE no_model_world = true
  /\ path_exists no_model_world (clock start) "/models/outetts.gguf" = false
  /\ __init__ no_model_world "/models/outetts.gguf" start
     = (Raise (FileNotFoundError ("Model file not found: " ++ "/models/outetts.gguf")),
        {| clock := S (clock start); trace := trace start; out := out start;
           shutdown_event := shutdown_event start |}).
Proof.
  do 3 (split; [reflexivity |]).
  apply (proj2 (proj2 (init_fails_before_the_backend no_model_world
                         "/models/outetts.gguf" start)));
    reflexivity.
Defined.

(** X16: when the backend fails while the model loads, the exception
    leaves [_load_model] after the lock has been released.  If creating the
    interface fails, the default speaker is never asked for. *)
Theorem load_failure_releases_the_lock (w : World) (self : OuteTTSEngine)
    (s : St) :
  let config := load_config (model_path self) in
  (forall m,
     outetts_Interface w (clock s) config = Fails m ->
     fst (_load_model w self s) = Raise (LibraryError m)
     /\ trace (snd (_load_model w self s))
        = trace s ++ [EvAcquire; EvInterface config; EvRelease])
  /\ (forall u m,
        outetts_Interface w (clock s) config = Gives u ->
        interface_load_default_speaker w (S (clock s)) "en-female-1-neutral"
        = Fails m ->
        fst (_load_model w self s) = Raise (LibraryError m)
        /\ trace (snd (_load_model w self s))
           = trace s ++ [ EvAcquire; EvInterface config;
                          EvLoadSpeaker "en-female-1-neutral"; EvRelease ]).
Proof.
  intros config. subst config. unfold _load_model, load_config.
  split.
  - intros m H. py_unfold. simpl. rewrite H. simpl.
    split; [reflexivity |]. repeat rewrite <- app_assoc. reflexivity.
  - intros u m H1 H2. py_unfold. simpl. rewrite H1. simpl. rewrite H2. simpl.
    split; [reflexivity |]. repeat rewrite <- app_assoc. reflexivity.
Qed.

Lemma load_failure_releases_the_lock_witness :
  outetts_Interface broken_backend_world (clock start)
    (load_config "/models/outetts.gguf") = Fails "failed to load model"
  /\ fst (_load_model broken_backend_world
            {| model_path := "/models/outetts.gguf"; interface := None;
               default_speaker := None; is_loaded := false |} start)
     = Raise (LibraryError "failed to load model")
  /\ trace (snd (_load_model broken_backend_world
                   {| model_path := "/models/outetts.gguf"; interface := None;
                      default_speaker := None; is_loaded := false |} start))
     = trace start ++ [ EvAcquire; EvInterface (load_config "/models/outetts.gguf");
                        EvRelease ].
Proof.
  split; [reflexivity |].
  apply (proj1 (load_failure_releases_the_lock broken_backend_world
                  {| model_path := "/models/outetts.gguf"; interface := None;
                     default_speaker := None; is_loaded := false |} start)).
  reflexivity.
Defined.

(** * The entry point *)

Lemma quiet_try_finally {A} (body : Py A) (fin : Py unit) :
  quiet body -> quiet fin -> quiet (try_finally body fin).
Proof.
  intros Hb Hf s. unfold try_finally. specialize (Hb s).
  destruct (body s) as [r s1]. simpl in Hb. destruct Hb as (O & F & R).
  specialize (Hf s1). destruct (fin s1) as [[u | e] s2]; simpl in *;
    destruct Hf as (O' & F' & R'); rewrite O', F'; repeat split; auto.
  intros e0 [= <-]. apply R'. reflexivity.
Qed.

Section MainFacts.

Variable w : World.
Variable dumps_indent : Val -> string.

Lemma quiet___init__ (path : string) : quiet (__init__ w path).
Proof.
  unfold __init__.
  destruct (negb (OUTETTS_AVAILABLE w)); [apply quiet_raise; reflexivity |].
  destruct (negb (TORCH_AVAILABLE w)); [apply quiet_raise; reflexivity |].
  apply quiet_bind; [apply quiet_call | intros ex].
  destruct (negb ex); [apply quiet_raise; reflexivity |].
  unfold _load_model.
  apply quiet_bind; [apply quiet_emit | intros _].
  apply quiet_try_finally; [| apply quiet_emit].
  cbv zeta.
  apply quiet_bind; [apply quiet_emit | intros _].
  apply quiet_bind; [apply quiet_call | intros _].
  apply quiet_bind; [apply quiet_emit | intros _].
  apply quiet_bind; [apply quiet_call | intros sp].
  apply quiet_ret.
Qed.

(** The loop returns, with one response for each line it served. *)
Lemma command_loop_returns (engine : OuteTTSEngine) (stdin : list string)
    (s : St) :
  shutdown_event s = false ->
  exists s' responses,
    command_loop w engine stdin s = (Return tt, s')
    /\ out s' = out s ++ responses
    /\ length responses = length (served w stdin).
Proof.
  revert s. induction stdin as [| line rest IH]; intros s Hs.
  - exists s, []. simpl. rewrite app_nil_r. auto.
  - destruct (handle_line_runs w engine line s) as (r & s1 & E & O & F).
    simpl. unfold bind at 1. unfold is_set. rewrite Hs.
    unfold bind. rewrite E.
    destruct (is_cleanup_line w line).
    + exists s1, [r]. auto.
    + destruct (IH s1) as (s' & rs & E' & O' & N'); [congruence |].
      exists s', (r :: rs). rewrite E'. split; [reflexivity |].
      split; [rewrite O', O, <- app_assoc; reflexivity | simpl; congruence].
Qed.

End MainFacts.

(** X17: in the plain mode (neither [--info] nor [--persistent]) a text or
    an output path that is absent or empty ends [main] with exit status 2
    before the engine is built: nothing is loaded and nothing is printed. *)
Theorem main_rejects_incomplete_arguments (w : World)
    (dumps_indent : Val -> string) (args : Args) (stdin : list string) (s : St) :
  args_accepted args = false ->
  main w dumps_indent args stdin s = (Raise (SystemExit 2), s)
  /\ exit_status (fst (main w dumps_indent args stdin s)) = 2%Z.
Proof.
  unfold args_accepted, main, parser_error, sys_exit. intros H.
  destruct (arg_info args), (arg_persistent args); try discriminate.
  simpl in *.
  destruct (missing (arg_text args)), (missing (arg_output_path args));
    try discriminate; split; reflexivity.
Qed.

Lemma main_rejects_incomplete_arguments_witness :
  args_accepted bare_args = false
  /\ main demo_world demo_dumps bare_args [] start = (Raise (SystemExit 2), start)
  /\ exit_status (fst (main demo_world demo_dumps bare_args [] start)) = 2%Z.
Proof.
  split; [reflexivity |].
  apply (main_rejects_incomplete_arguments demo_world demo_dumps bare_args []
           start).
  reflexivity.
Defined.

(** X18: for arguments that pass the check, in every mode, when the
    engine cannot be built [main] prints
    "Error: " and the message of the exception and ends with exit status 1;
    the handshake READY is not printed and no command is read. *)
Theorem main_startup_failure_exits_with_1 (w : World)
    (dumps_indent : Val -> string) (args : Args) (stdin : list string)
    (s s1 : St) (e : Exn) :
  args_accepted args = true ->
  __init__ w (arg_model_path args) s = (Raise e, s1) ->
  main w dumps_indent args stdin s
  = (Raise (SystemExit 1),
     {| clock := clock s1; trace := trace s1;
        out := out s ++ [Text ("Error: " ++ exn_str e)];
        shutdown_event := shutdown_event s |})
  /\ exit_status (fst (main w dumps_indent args stdin s)) = 1%Z.
Proof.
  intros Ha Hi.
  pose proof (__init___raises_Exception w _ _ _ _ Hi) as He.
  destruct (quiet___init__ w (arg_model_path args) s) as (O & F & _).
  rewrite Hi in O, F. simpl in O, F.
  assert (M : main w dumps_indent args stdin s
              = (Raise (SystemExit 1),
                 {| clock := clock s1; trace := trace s1;
                    out := out s ++ [Text ("Error: " ++ exn_str e)];
                    shutdown_event := shutdown_event s |})).
  { unfold args_accepted in Ha. unfold main, parser_error.
    assert (G : (if negb (arg_info args) && negb (arg_persistent args)
                 then if missing (arg_text args) || missing (arg_output_path args)
                      then sys_exit 2 else ret tt
                 else ret tt) = ret tt).
    { destruct (arg_info args), (arg_persistent args); try reflexivity.
      simpl in *.
      destruct (missing (arg_text args)), (missing (arg_output_path args));
        try discriminate; reflexivity. }
    rewrite G. unfold bind at 1. unfold ret at 1.
    unfold try_except. unfold bind at 1. rewrite Hi, He.
    unfold bind, print, sys_exit, raise. simpl. rewrite O, F. reflexivity. }
  rewrite M. split; reflexivity.
Qed.

Lemma main_startup_failure_exits_with_1_witness :
  args_accepted persistent_args = true
  /\ __init__ no_model_world (arg_model_path persistent_args) start
     = (Raise (FileNotFoundError "Model file not found: /models/outetts.gguf"),
        {| clock := 1; trace := []; out := []; shutdown_event := false |})
  /\ out (snd (main no_model_world demo_dumps persistent_args demo_stdin start))
     = [Text "Error: Model file not found: /models/outetts.gguf"]
  /\ exit_status (fst (main no_model_world demo_dumps persistent_args demo_stdin
                         start)) = 1%Z.
Proof.
  split; [reflexivity |]. split; [reflexivity |].
  destruct (main_startup_failure_exits_with_1 no_model_world demo_dumps
              persistent_args demo_stdin start
              {| clock := 1; trace := []; out := []; shutdown_event := false |}
              (FileNotFoundError "Model file not found: /models/outetts.gguf")
              eq_refl eq_refl)
    as (M & X).
  split; [rewrite M; reflexivity | exact X].
Defined.

Lemma main_after_check (w : World) (dumps_indent : Val -> string) (args : Args)
    (stdin : list string) (s : St) :
  args_accepted args = true ->
  main w dumps_indent args stdin s
  = try_except
      (engine <- __init__ w (arg_model_path args) ;;
       if arg_info args then
         info <- get_model_info w engine ;;
         print (Text (dumps_indent (VDict info)))
       else if arg_persistent args then
         print (Text "READY") ;;;
         command_loop w engine stdin
       else
         success <- synthesize w engine (arg_val (arg_text args))
                      (arg_val (arg_output_path args)) VNone (VStr "en")
                      (VStr (arg_quality args))
                      (VFloat (arg_temperature args)) (arg_mirostat args) ;;
         if success then
           print (Text ("Successfully synthesized: "
                        ++ arg_str (arg_output_path args))) ;;;
           info <- get_model_info w engine ;;
           print (Text ("Model info: " ++ dumps_indent (VDict info)))
         else
           print (Text "Synthesis failed") ;;;
           sys_exit 1)
      (fun e => print (Text ("Error: " ++ exn_str e)) ;;; sys_exit 1)
      s.
Proof.
  unfold args_accepted, main, parser_error. intros Ha.
  assert (G : (if negb (arg_info args) && negb (arg_persistent args)
               then if missing (arg_text args) || missing (arg_output_path args)
                    then sys_exit 2 else ret tt
               else ret tt) = ret tt).
  { destruct (arg_info args), (arg_persistent args); try reflexivity.
    simpl in *.
    destruct (missing (arg_text args)), (missing (arg_output_path args));
      try discriminate; reflexivity. }
  rewrite G. reflexivity.
Qed.

(** X19: with [--info], [main] prints the model information and returns
    with exit status 0.  It reads no command and synthesizes nothing, also
    when [--persistent] or a text is given as well. *)
Theorem main_info_mode_only_describes (w : World)
    (dumps_indent : Val -> string) (args : Args) (stdin : list string)
    (s s1 : St) (engine : OuteTTSEngine) :
  arg_info args = true ->
  __init__ w (arg_model_path args) s = (Return engine, s1) ->
  exists info s',
    get_model_info w engine s1 = (Return info, s')
    /\ main w dumps_indent args stdin s
       = (Return tt,
          {| clock := clock s'; trace := trace s1;
             out := out s ++ [Text (dumps_indent (VDict info))];
             shutdown_event := shutdown_event s |})
    /\ exit_status (fst (main w dumps_indent args stdin s)) = 0%Z.
Proof.
  intros Hi He.
  destruct (quiet___init__ w (arg_model_path args) s) as (O & F & _).
  rewrite He in O, F. simpl in O, F.
  destruct (get_model_info_memory_usage w engine s1)
    as (info & usage & s' & E & O' & _).
  destruct (quiet_get_model_info w engine s1) as (_ & F' & _).
  rewrite E in F'. simpl in F'.
  assert (T : trace s' = trace s1).
  { revert E. unfold get_model_info, torch_cuda_is_available.
    py_run; intros [= _ <-]; reflexivity. }
  exists info, s'. split; [exact E |].
  assert (M : main w dumps_indent args stdin s
              = (Return tt,
                 {| clock := clock s'; trace := trace s1;
                    out := out s ++ [Text (dumps_indent (VDict info))];
                    shutdown_event := shutdown_event s |})).
  { rewrite main_after_check
      by (unfold args_accepted; rewrite Hi; reflexivity).
    unfold try_except. unfold bind at 1. rewrite He, Hi.
    unfold bind, print. rewrite E. simpl. rewrite T, O', O, F', F. reflexivity. }
  rewrite M. split; reflexivity.
Qed.

Lemma main_info_mode_only_describes_witness :
  arg_info info_args = true
  /\ arg_persistent info_args = true
  /\ exists info s',
       get_model_info demo_world demo_engine
         (snd (__init__ demo_world "/models/outetts.gguf" start))
       = (Return info, s')
       /\ main demo_world demo_dumps info_args demo_stdin start
          = (Return tt,
             {| clock := clock s';
                trace := trace (snd (__init__ demo_world "/models/outetts.gguf"
                                       start));
                out := out start ++ [Text (demo_dumps (VDict info))];
                shutdown_event := shutdown_event start |})
       /\ exit_status (fst (main demo_world demo_dumps info_args demo_stdin start))
          = 0%Z.
Proof.
  split; [reflexivity |]. split; [reflexivity |].
  apply (main_info_mode_only_describes demo_world demo_dumps info_args
           demo_stdin start
           (snd (__init__ demo_world "/models/outetts.gguf" start)) demo_engine);
    reflexivity.
Defined.

(** X20: with [--persistent] (and without [--info]), once the engine is
    built [main] prints READY before anything else, then exactly one
    response for every line the loop serves, and returns with exit status
    0 -- at the end of the input as well as after a cleanup command. *)
Theorem main_persistent_mode_serves_after_ready (w : World)
    (dumps_indent : Val -> string) (args : Args) (stdin : list string)
    (s s1 : St) (engine : OuteTTSEngine) :
  arg_info args = false ->
  arg_persistent args = true ->
  shutdown_event s = false ->
  __init__ w (arg_model_path args) s = (Return engine, s1) ->
  exists s' responses,
    main w dumps_indent args stdin s = (Return tt, s')
    /\ out s' = out s ++ Text "READY" :: responses
    /\ length responses = length (served w stdin)
    /\ exit_status (fst (main w dumps_indent args stdin s)) = 0%Z
    /\ main w dumps_indent args stdin s
       = main_persistent w (arg_model_path args) stdin s.
Proof.
  intros Hi Hp Hs He.
  destruct (quiet___init__ w (arg_model_path args) s) as (O & F & _).
  rewrite He in O, F. simpl in O, F.
  set (s2 := {| clock := clock s1; trace := trace s1;
                out := out s1 ++ [Text "READY"];
                shutdown_event := shutdown_event s1 |}).
  destruct (command_loop_returns w engine stdin s2)
    as (s' & rs & E & O' & N); [simpl; congruence |].
  assert (M : main w dumps_indent args stdin s = (Return tt, s')).
  { rewrite main_after_check
      by (unfold args_accepted; rewrite Hi, Hp; reflexivity).
    unfold try_except. unfold bind at 1. rewrite He, Hi, Hp.
    unfold bind, print. fold s2. rewrite E. reflexivity. }
  assert (P : main_persistent w (arg_model_path args) stdin s = (Return tt, s')).
  { unfold main_persistent, try_except. unfold bind at 1. rewrite He.
    unfold bind, print. fold s2. rewrite E. reflexivity. }
  exists s', rs. rewrite M, P. split; [reflexivity |].
  split; [rewrite O'; simpl; rewrite O, <- app_assoc; reflexivity |].
  split; [exact N |]. split; reflexivity.
Qed.

Lemma main_persistent_mode_serves_after_ready_witness :
  arg_info persistent_args = false
  /\ arg_persistent persistent_args = true
  /\ shutdown_event start = false
  /\ exists s' responses,
       main demo_world demo_dumps persistent_args demo_stdin start
       = (Return tt, s')
       /\ out s' = out start ++ Text "READY" :: responses
       /\ length responses = length (served demo_world demo_stdin)
       /\ exit_status (fst (main demo_world demo_dumps persistent_args
                              demo_stdin start)) = 0%Z
       /\ main demo_world demo_dumps persistent_args demo_stdin start
          = main_persistent demo_world (arg_model_path persistent_args)
              demo_stdin start.
Proof.
  do 3 (split; [reflexivity |]).
  apply (main_persistent_mode_serves_after_ready demo_world demo_dumps
           persistent_args demo_stdin start
           (snd (__init__ demo_world "/models/outetts.gguf" start)) demo_engine);
    reflexivity.
Defined.

(** X21: in the plain mode, once the engine is built, the exit status
    tells whether the synthesis succeeded: on success [main] prints the
    output path and the model information and ends with status 0; on
    failure it prints "Synthesis failed" and ends with status 1. *)
Theorem main_plain_mode_exit_status (w : World)
    (dumps_indent : Val -> string) (args : Args) (stdin : list string)
    (s s1 s2 : St) (engine : OuteTTSEngine) (success : bool) :
  arg_info args = false ->
  arg_persistent args = false ->
  args_accepted args = true ->
  __init__ w (arg_model_path args) s = (Return engine, s1) ->
  synthesize w engine (arg_val (arg_text args)) (arg_val (arg_output_path args))
    VNone (VStr "en") (VStr (arg_quality args)) (VFloat (arg_temperature args))
    (arg_mirostat args) s1 = (Return success, s2) ->
  exit_status (fst (main w dumps_indent args stdin s))
  = (if success then 0 else 1)%Z
  /\ if success then
       exists info usage,
         lookup "memory_usage" info = Some (VDict usage)
         /\ out (snd (main w dumps_indent args stdin s))
            = out s ++ [ Text ("Successfully synthesized: "
                               ++ arg_str (arg_output_path args));
                         Text ("Model info: " ++ dumps_indent (VDict info)) ]
     else
       out (snd (main w dumps_indent args stdin s))
       = out s ++ [Text "Synthesis failed"].
Proof.
  intros Hi Hp Ha He Hy.
  destruct (quiet___init__ w (arg_model_path args) s) as (O & _ & _).
  rewrite He in O. simpl in O.
  destruct (quiet_synthesize w engine (arg_val (arg_text args))
              (arg_val (arg_output_path args)) VNone (VStr "en")
              (VStr (arg_quality args)) (VFloat (arg_temperature args))
              (arg_mirostat args) s1) as (O2 & _ & _).
  rewrite Hy in O2. simpl in O2.
  set (s3 := {| clock := clock s2; trace := trace s2;
                out := out s2 ++ [Text ("Successfully synthesized: "
                                        ++ arg_str (arg_output_path args))];
                shutdown_event := shutdown_event s2 |}).
  destruct (get_model_info_memory_usage w engine s3)
    as (info & usage & s' & E & O' & L & _).
  assert (M : main w dumps_indent args stdin s
              = if success then
                  (Return tt,
                   {| clock := clock s'; trace := trace s';
                      out := out s' ++ [Text ("Model info: "
                                              ++ dumps_indent (VDict info))];
                      shutdown_event := shutdown_event s' |})
                else
                  (Raise (SystemExit 1),
                   {| clock := clock s2; trace := trace s2;
                      out := out s2 ++ [Text "Synthesis failed"];
                      shutdown_event := shutdown_event s2 |})).
  { rewrite main_after_check by assumption.
    unfold try_except. unfold bind at 1. rewrite He, Hi, Hp.
    unfold bind at 1. rewrite Hy.
    destruct success.
    - unfold bind, print. fold s3. rewrite E. reflexivity.
    - reflexivity. }
  rewrite M. destruct success; simpl.
  - split; [reflexivity |]. exists info, usage. split; [exact L |].
    rewrite O'. simpl. rewrite O2, O, <- app_assoc. reflexivity.
  - split; [reflexivity |]. rewrite O2, O. reflexivity.
Qed.

Lemma main_plain_mode_exit_status_witness :
  arg_info cli_args = false
  /\ arg_persistent cli_args = false
  /\ args_accepted cli_args = true
  /\ exit_status (fst (main demo_world demo_dumps cli_args [] start)) = 0%Z
  /\ exit_status (fst (main mute_world demo_dumps cli_args [] start)) = 1%Z.
Proof.
  do 3 (split; [reflexivity |]).
  split.
  - refine (proj1 (main_plain_mode_exit_status demo_world demo_dumps cli_args []
                     start _ _ demo_engine true eq_refl eq_refl eq_refl
                     eq_refl _)).
    vm_compute. reflexivity.
  - refine (proj1 (main_plain_mode_exit_status mute_world demo_dumps cli_args []
                     start _ _ demo_engine false eq_refl eq_refl eq_refl
                     eq_refl _)).
    vm_compute. reflexivity.
Defined.

(** * The model description *)

(** X22: [get_model_info] never raises, loaded or not and whatever the GPU
    queries do.  It reports the model path, the fixed backend name, the
    loaded flag and library flags; [default_speaker] is the fixed name
    "en-female-1-neutral" when the engine has a speaker and null when it
    has none.  It records no event and prints nothing. *)
Theorem get_model_info_describes_any_engine (w : World)
    (engine : OuteTTSEngine) (s : St) :
  exists info s',
    get_model_info w engine s = (Return info, s')
    /\ trace s' = trace s
    /\ out s' = out s
    /\ keys info = [ "model_path"; "backend"; "is_loaded"; "outetts_available";
                     "torch_available"; "model_type"; "default_speaker";
                     "memory_usage" ]
    /\ lookup "model_path" info = Some (VStr (model_path engine))
    /\ lookup "backend" info = Some (VStr "LLAMACPP")
    /\ lookup "is_loaded" info = Some (VBool (is_loaded engine))
    /\ lookup "default_speaker" info
       = Some (match default_speaker engine with
               | Some _ => VStr "en-female-1-neutral"
               | None => VNone
               end).
Proof.
  unfold get_model_info, torch_cuda_is_available.
  py_run; (do 2 eexists; split; [reflexivity |]; simpl; repeat split).
Qed.

(** * The effect chain of [play_audio] *)

Section EffectFacts.

Variable P : Pydub.

Lemma when_last (c : bool) (e : Effect) (audio : AudioSegment) :
  when P c e audio = apply_all P (if c then [e] else []) audio.
Proof.
  unfold when. destruct c; simpl; [| reflexivity].
  destruct (apply_effect P e audio); reflexivity.
Qed.

Lemma when_then (c : bool) (e : Effect) (audio : AudioSegment)
    (k : AudioSegment -> Answer AudioSegment) (rest : list Effect) :
  (forall a, k a = apply_all P rest a) ->
  and_then (when P c e audio) k
  = apply_all P ((if c then [e] else []) ++ rest) audio.
Proof.
  intros H. unfold when. destruct c; simpl; [| apply H].
  destruct (apply_effect P e audio); simpl; [apply H | reflexivity].
Qed.

End EffectFacts.

(** The settings block as a plan that is then carried out. *)
Lemma settings_block_plan (P : Pydub)
    (quality_settings : Val) (audio : AudioSegment) :
  apply_quality_settings P quality_settings audio
  = if truthy quality_settings then
      match quality_settings with
      | VDict d => apply_all P (requested_effects d) audio
      | v => Fails ("'" ++ type_name v ++ "' object has no attribute 'get'")
      end
    else Gives audio.
Proof.
  unfold apply_quality_settings.
  destruct (truthy quality_settings); [| reflexivity].
  destruct quality_settings; try reflexivity.
  unfold requested_effects, settings_get. cbv zeta. simpl and_then.
  repeat (apply when_then; intros ?).
  apply when_last.
Qed.

(** X23: the settings block of [play_audio] applies exactly the effects
    the options ask for, in the fixed order resample, remix, widen to 32
    bit, gain, fade in, fade out, normalize, high-pass, low-pass, and stops
    at the first one that fails.  Falsy settings (null, [{}]) apply
    nothing; settings that are truthy but no object fail on the first
    lookup. *)
Theorem apply_quality_settings_applies_requested_effects (P : Pydub)
    (quality_settings : Val) (audio : AudioSegment) :
  apply_quality_settings P quality_settings audio
  = if truthy quality_settings then
      match quality_settings with
      | VDict d => apply_all P (requested_effects d) audio
      | v => Fails ("'" ++ type_name v ++ "' object has no attribute 'get'")
      end
    else Gives audio.
Proof. exact (settings_block_plan P quality_settings audio). Qed.

(** X24: a [play_audio] command whose settings ask for no effect -- they
    are absent, empty, or set nothing beyond a bit depth other than 32,
    a volume of 1 or [normalize: false] -- plays the file as it was loaded:
    no operation is applied, even one that would fail, and the answer
    reports the properties of the loaded audio. *)
Theorem play_audio_without_effects_plays_the_file_as_loaded (P : Pydub)
    (w : World) (engine : OuteTTSEngine) (line : string) (d : Dict)
    (file_path : Val) (audio : AudioSegment) (s : St) :
  json_loads w (strip line) = Gives (VDict d) ->
  lookup "type" d = Some (VStr "play_audio") ->
  lookup "file_path" d = Some file_path ->
  truthy file_path = true ->
  (truthy (get_default "quality_settings" d (VDict [])) = false
   \/ exists q, get_default "quality_settings" d (VDict []) = VDict q
                /\ requested_effects q = []) ->
  from_file P file_path = Gives audio ->
  play P audio = Gives tt ->
  out (snd (handle_line (with_pydub P w) engine line s))
  = out s
    ++ [ Dumps (VDict [ ("success", VBool true);
                        ("duration", VFloat (duration_seconds audio));
                        ("sample_rate", VInt (frame_rate audio));
                        ("channels", VInt (channels audio));
                        ("bit_depth", VInt (sample_width audio * 8)) ]) ].
Proof.
  intros H1 H2 H3 H4 Hq Hf Hp.
  rewrite (play_audio_dispatch (with_pydub P w) engine line d file_path s
             H1 H2 H3 H4).
  simpl. unfold load_process_play. rewrite Hf. simpl.
  rewrite settings_block_plan.
  destruct Hq as [Hq | (q & -> & Hq)].
  - rewrite Hq. simpl. rewrite Hp. reflexivity.
  - rewrite Hq. simpl.
    destruct (match q with [] => false | _ :: _ => true end);
      simpl; rewrite Hp; reflexivity.
Qed.

Lemma play_audio_without_effects_plays_the_file_as_loaded_witness :
  json_loads protocol_world (strip (file_line "play_audio" "/tmp/out.wav"))
  = Gives (VDict [ ("type", VStr "play_audio");
                   ("file_path", VStr "/tmp/out.wav") ])
  /\ truthy (get_default "quality_settings"
               [ ("type", VStr "play_audio"); ("file_path", VStr "/tmp/out.wav") ]
               (VDict [])) = false
  /\ from_file rigid_pydub (VStr "/tmp/out.wav") = Gives demo_audio
  /\ play rigid_pydub demo_audio = Gives tt
  /\ out (snd (handle_line (with_pydub rigid_pydub protocol_world) demo_engine
                 (file_line "play_audio" "/tmp/out.wav") start))
     = out start
       ++ [ Dumps (VDict [ ("success", VBool true);
                           ("duration", VFloat (duration_seconds demo_audio));
                           ("sample_rate", VInt (frame_rate demo_audio));
                           ("channels", VInt (channels demo_audio));
                           ("bit_depth", VInt (sample_width demo_audio * 8)) ]) ].
Proof.
  do 4 (split; [reflexivity |]).
  apply (play_audio_without_effects_plays_the_file_as_loaded rigid_pydub
           protocol_world demo_engine (file_line "play_audio" "/tmp/out.wav")
           [ ("type", VStr "play_audio"); ("file_path", VStr "/tmp/out.wav") ]
           (VStr "/tmp/out.wav") demo_audio start);
    try reflexivity.
  left. reflexivity.
Defined.

(** Resampling and widening are applied in this order; a gain that the
    operations cannot apply fails the whole chain. *)
Example effect_chain_runs :
  load_process_play demo_pydub (VStr "/tmp/out.wav")
    (VDict [ ("bit_depth", VInt 32); ("sample_rate", VInt 48000) ])
  = Gives {| duration_seconds := 1 # 1; frame_rate := 48000; channels := 1;
             sample_width := 4 |}
  /\ requested_effects [ ("bit_depth", VInt 32); ("sample_rate", VInt 48000) ]
     = [ SetFrameRate (VInt 48000); SetSampleWidth 4 ]
  /\ load_process_play demo_pydub (VStr "/tmp/out.wav")
       (VDict [ ("sample_rate", VInt 48000); ("volume", VFloat (2 # 1)) ])
     = Fails "effect failed"
  /\ load_process_play demo_pydub (VStr "/tmp/out.wav") (VList [VInt 1])
     = Fails "'list' object has no attribute 'get'".
Proof. repeat split. Qed.

(** * The HTTP service *)

Ltac sv_unfold :=
  unfold Service.bind, Service.call, Service.ret, Service.raise,
    Service.try_except in *.

Ltac sv_run := sv_unfold; simpl; repeat (break_match; simpl).

(** The paths of the speaker mapping are not empty. *)
Lemma mapped_path_given (id path : string) :
  Service.mapping_get id Service.SPEAKER_MAPPING = Some path ->
  Service.given (Some path) = true.
Proof.
  unfold Service.SPEAKER_MAPPING. simpl.
  destruct (String.eqb id "custom-voice-1"); [intros [= <-]; reflexivity |].
  destruct (String.eqb id "custom-voice-2"); [intros [= <-]; reflexivity |].
  discriminate.
Qed.

(** X25: [generate_speech] answers every request with status 200, 400 or
    500: whatever the backend or the file system raises is turned into an
    [HTTPException], and no other exception leaves the handler.  Before
    start-up it answers 500 "TTS service not initialized" and calls
    nothing. *)
Theorem generate_speech_answers_200_400_or_500 (B : Service.Backend)
    (tts_interface : option unit) (default_speaker : Val)
    (request : Service.TTSRequest) (t : list Service.Call) :
  let r := Service.generate_speech B tts_interface default_speaker request t in
  (Service.status_code (fst r) = Some 200%Z
   \/ Service.status_code (fst r) = Some 400%Z
   \/ Service.status_code (fst r) = Some 500%Z)
  /\ (tts_interface = None ->
      r = (Service.Raises
             (Service.HTTPException 500 "TTS service not initialized"), t)).
Proof.
  intros r. subst r. split.
  - unfold Service.generate_speech. destruct tts_interface; [| simpl; auto].
    sv_run; auto.
  - intros ->. reflexivity.
Qed.

(** X26: a speaker id that the mapping does not know, or whose mapped file
    does not exist, is answered 400 "Invalid speaker_id: '...' not found."
    No speaker is loaded and nothing is generated: at most the existence
    of the mapped file is checked. *)
Theorem unknown_speaker_is_answered_400 (B : Service.Backend) (u : unit)
    (default_speaker : Val) (request : Service.TTSRequest)
    (t : list Service.Call) :
  Service.given (Service.speaker_id request) = true ->
  (Service.mapping_get (Service.the (Service.speaker_id request))
     Service.SPEAKER_MAPPING = None
   \/ exists path,
        Service.mapping_get (Service.the (Service.speaker_id request))
          Service.SPEAKER_MAPPING = Some path
        /\ Service.path_exists B path = false) ->
  let r := Service.generate_speech B (Some u) default_speaker request t in
  fst r
  = Service.Raises
      (Service.HTTPException 400
         ("Invalid speaker_id: '" ++ Service.the (Service.speaker_id request)
          ++ "' not found."))
  /\ exists new,
       snd r = t ++ new
       /\ forall c, In c new -> exists path, c = Service.CheckPath path.
Proof.
  intros Hg Hm r. subst r. unfold Service.generate_speech. rewrite Hg.
  destruct Hm as [Hn | (path & Hs & He)].
  - rewrite Hn. simpl. split; [reflexivity |].
    exists []. rewrite app_nil_r. split; [reflexivity | intros c []].
  - rewrite Hs. rewrite (mapped_path_given _ _ Hs). sv_unfold. simpl.
    rewrite He. simpl. split; [reflexivity |].
    exists [Service.CheckPath path]. split; [reflexivity |].
    intros c [<- | []]. eauto.
Qed.

Lemma unknown_speaker_is_answered_400_witness :
  Service.given (Service.speaker_id Service.stranger_request) = true
  /\ Service.mapping_get (Service.the (Service.speaker_id Service.stranger_request))
       Service.SPEAKER_MAPPING = None
  /\ fst (Service.generate_speech Service.demo_backend (Some tt)
            Service.demo_speaker Service.stranger_request [])
     = Service.Raises
         (Service.HTTPException 400
            ("Invalid speaker_id: '"
             ++ Service.the (Service.speaker_id Service.stranger_request)
             ++ "' not found.")).
Proof.
  split; [reflexivity |]. split; [reflexivity |].
  apply (unknown_speaker_is_answered_400 Service.demo_backend tt
           Service.demo_speaker Service.stranger_request []).
  - reflexivity.
  - left. reflexivity.
Defined.

(** X27: the audio goes through one temporary file.  A 200 response means
    the file was created, written, read back and removed, in this order,
    and the body is what was read.  The removal is attempted only after
    the file has been written and read back, so a failed save or read
    leaves the temporary file behind; once attempted, either the response
    is 200 or the removal itself failed. *)
Theorem temporary_file_is_removed_exactly_on_success (B : Service.Backend)
    (u : unit) (default_speaker : Val) (request : Service.TTSRequest)
    (t : list Service.Call) :
  let r := Service.generate_speech B (Some u) default_speaker request t in
  exists new,
    snd r = t ++ new
    /\ (forall body,
          fst r = Service.Done body ->
          exists before name,
            new = before ++ [ Service.NewTempFile; Service.Save name;
                              Service.ReadFile name; Service.Unlink name ]
            /\ Service.new_temp_file B = Gives name
            /\ Service.read_file B name = Gives body)
    /\ (forall name,
          In (Service.Unlink name) new ->
          (exists output saved bytes,
             Service.save B output name = Gives saved
             /\ Service.read_file B name = Gives bytes)
          /\ ((exists body, fst r = Service.Done body)
              \/ exists m, Service.unlink B name = Fails m)).
Proof.
  intros r. subst r. unfold Service.generate_speech.
  sv_run;
    (eexists; split;
     [ first [ repeat rewrite <- app_assoc; simpl; reflexivity
             | symmetry; apply app_nil_r ] |]);
    (split;
     [ intros body H; try discriminate; injection H as <-;
       first [ eexists [_], _; (split; [reflexivity |]);
               split; first [reflexivity | assumption]
             | eexists [_; _; _], _; (split; [reflexivity |]);
               split; first [reflexivity | assumption] ]
     | intros name H; simpl in H;
       repeat (destruct H as [H | H]; try discriminate);
       try contradiction;
       injection H as <-;
       (split; [do 3 eexists; split; eassumption |]);
       first [ left; eexists; reflexivity
             | right; eexists; eassumption ] ]).
Qed.

(** One request on a working backend, and one with a full disk. *)
Example temporary_file_runs :
  Service.generate_speech Service.demo_backend (Some tt) Service.demo_speaker
    Service.hello_request []
  = (Service.Done [Byte.x52; Byte.x49; Byte.x46; Byte.x46],
     [ Service.Generate "Hello, world!" Service.demo_speaker (75 # 100) CHUNKED;
       Service.NewTempFile; Service.Save "/tmp/tmpa1b2.wav";
       Service.ReadFile "/tmp/tmpa1b2.wav"; Service.Unlink "/tmp/tmpa1b2.wav" ])
  /\ Service.generate_speech Service.full_disk_backend (Some tt)
       Service.demo_speaker Service.hello_request []
     = (Service.Raises
          (Service.HTTPException 500
             "Speech generation failed: No space left on device"),
        [ Service.Generate "Hello, world!" Service.demo_speaker (75 # 100) CHUNKED;
          Service.NewTempFile; Service.Save "/tmp/tmpa1b2.wav" ]).
Proof. split; reflexivity. Qed.

(** X28: the start-up of the service either returns the interface with
    the default speaker "en-female-1-neutral" -- the model file exists and
    both backend calls succeeded -- or ends the process with exit status 1;
    no other exception leaves it.  A missing model file or an unset
    [TTS_MODEL_PATH] exits before the backend is touched. *)
Theorem service_startup_returns_or_exits_1 (B : Service.Backend)
    (model_path : option string) (t : list Service.Call) :
  let r := Service.on_startup B model_path t in
  ((exists speaker,
      r = (Service.Done (tt, speaker),
           t ++ [ Service.CheckPath (Service.the model_path);
                  Service.NewInterface
                    (Service.model_config (Service.the model_path));
                  Service.LoadDefaultSpeaker "en-female-1-neutral" ])
      /\ Service.given model_path = true
      /\ Service.path_exists B (Service.the model_path) = true
      /\ Service.load_default_speaker B "en-female-1-neutral" = Gives speaker)
   \/ fst r = Service.Raises (Service.SystemExit 1))
  /\ (Service.given model_path = false ->
      r = (Service.Raises (Service.SystemExit 1), t))
  /\ (Service.given model_path = true ->
      Service.path_exists B (Service.the model_path) = false ->
      r = (Service.Raises (Service.SystemExit 1),
           t ++ [Service.CheckPath (Service.the model_path)])).
Proof.
  intros r. subst r. unfold Service.on_startup, Service.initialize_tts_service.
  repeat split.
  - destruct (Service.given model_path); [| right; reflexivity].
    sv_unfold. simpl.
    destruct (Service.path_exists B (Service.the model_path)) eqn:E1; simpl;
      [| right; reflexivity].
    destruct (Service.new_interface B _) as [[] | m]; simpl;
      [| right; reflexivity].
    destruct (Service.load_default_speaker B "en-female-1-neutral")
      as [speaker | m]; simpl; [| right; reflexivity].
    left. exists speaker. repeat rewrite <- app_assoc. auto.
  - intros ->. reflexivity.
  - intros -> E. sv_unfold. simpl. rewrite E. reflexivity.
Qed.

Lemma service_startup_returns_or_exits_1_witness :
  Service.given None = false
  /\ Service.on_startup Service.demo_backend None []
     = (Service.Raises (Service.SystemExit 1), [])
  /\ Service.given (Some "/models/outetts.gguf") = true
  /\ Service.path_exists Service.empty_backend
       (Service.the (Some "/models/outetts.gguf")) = false
  /\ Service.on_startup Service.empty_backend (Some "/models/outetts.gguf") []
     = (Service.Raises (Service.SystemExit 1),
        [] ++ [Service.CheckPath (Service.the (Some "/models/outetts.gguf"))]).
Proof.
  split; [reflexivity |]. split.
  - apply (proj1 (proj2 (service_startup_returns_or_exits_1 Service.demo_backend
                           None []))).
    reflexivity.
  - split; [reflexivity |]. split; [reflexivity |].
    apply (proj2 (proj2 (service_startup_returns_or_exits_1
                           Service.empty_backend (Some "/models/outetts.gguf")
                           [])));
      reflexivity.
Defined.

(** ** The text validator *)

Lemma drop_spaces_fixed (l : list ascii) :
  match l with
  | [] => True
  | c :: _ => is_space c = false
  end ->
  drop_spaces l = l.
Proof. destruct l as [| c l]; simpl; [reflexivity | intros ->; reflexivity]. Qed.

Lemma drop_spaces_idempotent (l : list ascii) :
  drop_spaces (drop_spaces l) = drop_spaces l.
Proof. apply drop_spaces_fixed. apply drop_spaces_head. Qed.

Lemma drop_spaces_snoc (l : list ascii) (c : ascii) :
  is_space c = false -> drop_spaces (l ++ [c]) = drop_spaces l ++ [c].
Proof.
  intros H. induction l as [| x l IH]; simpl.
  - rewrite H. reflexivity.
  - destruct (is_space x); [exact IH | reflexivity].
Qed.

(** Stripping a stripped string changes nothing. *)
Lemma strip_idempotent (v : string) : strip (strip v) = strip v.
Proof.
  unfold strip. rewrite list_ascii_of_string_of_list_ascii.
  pose proof (drop_spaces_head (list_ascii_of_string v)) as Hh.
  destruct (drop_spaces (list_ascii_of_string v)) as [| c d]; [reflexivity |].
  simpl rev. rewrite (drop_spaces_snoc _ _ Hh).
  rewrite rev_app_distr. simpl rev. simpl app.
  simpl drop_spaces. rewrite Hh.
  simpl rev. rewrite rev_involutive.
  rewrite (drop_spaces_snoc _ _ Hh), drop_spaces_idempotent.
  rewrite rev_app_distr. reflexivity.
Qed.

(** X29: the text validator of the service accepts exactly the texts that
    are not made of whitespace only and returns them stripped; what it
    returns is never empty and passes the validator again unchanged. *)
Theorem validate_text_content_strips_and_rejects_blank (v : string) :
  (forallb is_space (list_ascii_of_string v) = true ->
   Service.validate_text_content v
   = Service.Raises (Service.Failure "Text cannot be empty or whitespace-only"))
  /\ (forallb is_space (list_ascii_of_string v) = false ->
      Service.validate_text_content v = Service.Done (strip v)
      /\ strip v <> ""
      /\ Service.validate_text_content (strip v) = Service.Done (strip v)).
Proof.
  pose proof (strip_empty_whitespace v) as W.
  unfold Service.validate_text_content. split.
  - intros H. apply W in H. simpl in H. rewrite H, orb_true_r. reflexivity.
  - intros H.
    assert (Hb : String.eqb (strip v) "" = false).
    { destruct (String.eqb (strip v) "") eqn:E; [| reflexivity].
      assert (X : blank (VStr v) = true) by exact E.
      apply W in X. congruence. }
    assert (Hv : String.eqb v "" = false).
    { destruct v; [discriminate H | reflexivity]. }
    rewrite Hv, Hb. simpl.
    split; [reflexivity |].
    split; [apply String.eqb_neq; exact Hb |].
    rewrite strip_idempotent, Hb. reflexivity.
Qed.

Lemma validate_text_content_strips_and_rejects_blank_witness :
  forallb is_space (list_ascii_of_string "  Hello, world! ") = false
  /\ Service.validate_text_content "  Hello, world! "
     = Service.Done "Hello, world!"
  /\ forallb is_space (list_ascii_of_string "   ") = true
  /\ Service.validate_text_content "   "
     = Service.Raises
         (Service.Failure "Text cannot be empty or whitespace-only").
Proof.
  split; [reflexivity |]. split.
  - apply (proj2 (validate_text_content_strips_and_rejects_blank
                    "  Hello, world! ")).
    reflexivity.
  - split; [reflexivity |].
    apply (proj1 (validate_text_content_strips_and_rejects_blank "   ")).
    reflexivity.
Defined.

(** X30: a backend failure is answered 500.  When generation fails the
    detail is "Speech generation failed: " followed by the message of the
    exception, and no temporary file is created.  When a custom speaker
    cannot be loaded the detail is "Error loading custom speaker.", without
    the message, and nothing is generated. *)
Theorem backend_failures_are_answered_500 (B : Service.Backend) (u : unit)
    (default_speaker : Val) (request : Service.TTSRequest)
    (t : list Service.Call) :
  let r := Service.generate_speech B (Some u) default_speaker request t in
  (forall m,
     Service.given (Service.speaker_id request) = false ->
     truthy default_speaker = true ->
     Service.generate B (Service.text request) default_speaker
       (Service.temperature request) = Fails m ->
     r = (Service.Raises
            (Service.HTTPException 500 ("Speech generation failed: " ++ m)),
          t ++ [ Service.Generate (Service.text request) default_speaker
                   (Service.temperature request) CHUNKED ]))
  /\ (forall path m,
        Service.given (Service.speaker_id request) = true ->
        Service.mapping_get (Service.the (Service.speaker_id request))
          Service.SPEAKER_MAPPING = Some path ->
        Service.path_exists B path = true ->
        Service.load_speaker B path = Fails m ->
        r = (Service.Raises
               (Service.HTTPException 500 "Error loading custom speaker."),
             t ++ [Service.CheckPath path; Service.LoadSpeaker path])).
Proof.
  intros r. subst r. unfold Service.generate_speech. split.
  - intros m Hg Ht Hf. rewrite Hg. sv_unfold. simpl. rewrite Ht. simpl.
    rewrite Hf. reflexivity.
  - intros path m Hg Hs He Hf. rewrite Hg, Hs.
    rewrite (mapped_path_given _ _ Hs). sv_unfold. simpl.
    rewrite He. simpl. rewrite Hf. simpl.
    rewrite <- app_assoc. reflexivity.
Qed.

Lemma backend_failures_are_answered_500_witness :
  Service.given (Service.speaker_id Service.hello_request) = false
  /\ truthy Service.demo_speaker = true
  /\ Service.generate_speech
       {| Service.path_exists := fun _ => true;
          Service.new_interface := fun _ => Gives tt;
          Service.load_default_speaker := fun _ => Gives Service.demo_speaker;
          Service.load_speaker := fun _ => Fails "bad speaker file";
          Service.generate := fun _ _ _ => Fails "Model generation failed";
          Service.new_temp_file := Gives "/tmp/tmpa1b2.wav";
          Service.save := fun _ _ => Gives tt;
          Service.read_file := fun _ => Gives [];
          Service.unlink := fun _ => Gives tt |}
       (Some tt) Service.demo_speaker Service.hello_request []
     = (Service.Raises
          (Service.HTTPException 500
             ("Speech generation failed: " ++ "Model generation failed")),
        [] ++ [ Service.Generate (Service.text Service.hello_request)
                  Service.demo_speaker
                  (Service.temperature Service.hello_request) CHUNKED ]).
Proof.
  split; [reflexivity |]. split; [reflexivity |].
  refine (proj1 (backend_failures_are_answered_500 _ tt Service.demo_speaker
                   Service.hello_request []) "Model generation failed" _ _ _);
    reflexivity.
Defined.
